(** * Procheck: adaptive check-in interval engine and statistics engine

    A shallow embedding of the engine core of
    [neueprufer_patched_v19.py]: the module-level helpers ([clamp],
    [parse_ts], [day_key], [safe_int_from_note]), the class [StatsEngine]
    and the timer half of the class [App].

    Conventions.
    - A Python [str] is a [string]; a character is a code point below 256.
    - A Python [int] is a [Z].
    - [a / b] on ints is true division; its result is kept as the exact
      rational [a # b] (the interpreter rounds it to the nearest double).
    - A call that may raise returns a [result]; [None] is [None].
    - A [dict] whose iteration order is observable is an association list
      in insertion order; the task table of the application state, whose
      order is not observed, is a [gmap]. *)

From Stdlib Require Import ZArith QArith Lia Lqa.
From Stdlib Require Import Strings.String Strings.Ascii.
From Stdlib Require DecimalString DecimalPos.
From Stdlib Require Import Lists.List Sorting.Permutation Sorting.Sorted.
From stdpp Require Import gmap strings.
Import ListNotations.

Close Scope Q_scope.
Local Open Scope string_scope.
Local Open Scope Z_scope.

(** ** Module constants *)

Definition DEFAULT_INTERVAL_MIN : Z := 10.
Definition MIN_INTERVAL : Z := 3.
Definition MAX_INTERVAL : Z := 30.
Definition STEP_UP : Z := 2.
Definition STEP_DOWN : Z := 3.
Definition STREAK_FOR_STEPUP : Z := 2.

(** [clamp(v, lo, hi) = max(lo, min(hi, v))] *)
Definition clamp (v lo hi : Z) : Z := Z.max lo (Z.min hi v).

(** ** Results of calls that may raise *)

Inductive exn : Type :=
| ValueError
| KeyError.

Inductive result (A : Type) : Type :=
| Ok (a : A)
| Raise (e : exn).
Arguments Ok {A} a.
Arguments Raise {A} e.

Definition bind {A B : Type} (r : result A) (k : A -> result B) : result B :=
  match r with
  | Ok a => k a
  | Raise e => Raise e
  end.

Notation "'do' x <- r ; k" := (bind r (fun x => k))
  (at level 10, x name, r at level 100, k at level 200).

(** ** Python string primitives *)

Module PyStr.

Definition code (c : ascii) : Z := Z.of_N (N_of_ascii c).

(** [str.isspace] on one character, for code points below 256. *)
Definition isspace (c : ascii) : bool :=
let n := code c in
((9 <=? n) && (n <=? 13)) || ((28 <=? n) && (n <=? 32))
|| (n =? 133) || (n =? 160).

Definition isdigit (c : ascii) : bool :=
let n := code c in (48 <=? n) && (n <=? 57).

Definition digit_value (c : ascii) : Z := code c - 48.

Fixpoint lstrip (s : string) : string :=
match s with
| String c s' => if isspace c then lstrip s' else s
| EmptyString => EmptyString
end.

(** Strips trailing white space: a character is kept when it is not a
space or when something is kept after it. *)
Fixpoint rstrip (s : string) : string :=
match s with
| EmptyString => EmptyString
| String c s' =>
match rstrip s' with
| EmptyString => if isspace c then EmptyString else String c EmptyString
| r => String c r
end
end.

(** [s.strip()] *)
Definition strip (s : string) : string := rstrip (lstrip s).

(** [s.replace(a, b)] for one-character [a] and [b]. *)
Fixpoint replace_char (a b : ascii) (s : string) : string :=
match s with
| EmptyString => EmptyString
| String c s' =>
String (if Ascii.eqb c a then b else c) (replace_char a b s')
end.

Definition flush (cur : string) : list string :=
match cur with
| EmptyString => []
| _ => [cur]
end.

(** [s.split()]: the maximal runs of non-space characters, in order.
[cur] is the run being read. *)
Fixpoint split_go (cur : string) (s : string) : list string :=
match s with
| EmptyString => flush cur
| String c s' =>
if isspace c then (flush cur ++ split_go EmptyString s')%list
else split_go (cur +:+ String c EmptyString) s'
end.

Definition split (s : string) : list string := split_go EmptyString s.

(** [p.startswith(q)] *)
Definition startswith (p q : string) : bool := String.prefix q p.

(** [s.split(sep, 1)] for a one-character [sep]: the list has one
element when [sep] does not occur and two when it does. *)
Fixpoint split1 (sep : ascii) (s : string) : string * option string :=
match s with
| EmptyString => (EmptyString, None)
| String c s' =>
if Ascii.eqb c sep then (EmptyString, Some s')
else let '(a, b) := split1 sep s' in (String c a, b)
end.

(** Digits of a base-10 literal after the sign.  [acc] is the value
read so far; [prev_digit] tells whether the previous character
was a digit, since an underscore may only stand between two
digits. *)
Fixpoint int_digits (acc : Z) (prev_digit : bool) (s : string) : option Z :=
match s with
| EmptyString => if prev_digit then Some acc else None
| String c s' =>
if isdigit c then int_digits (10 * acc + digit_value c) true s'
else if Ascii.eqb c "_" then
if prev_digit then int_digits acc false s' else None
else None
end.

(** [int(s)] on a [str], base 10: surrounding white space is dropped,
one sign is allowed, single underscores may separate digits.
[None] stands for [ValueError].  The limit that recent
interpreters put on the number of digits is not modelled. *)
Definition int (s : string) : option Z :=
match strip s with
| String "+" d => int_digits 0 false d
| String "-" d => option_map Z.opp (int_digits 0 false d)
| d => int_digits 0 false d
end.

End PyStr.

(** ** [safe_int_from_note] *)

(** [note.replace(",", " ").split()] *)
Definition note_tokens (note : string) : list string :=
  PyStr.split (PyStr.replace_char "," " " note).

(** [int(p.split("=", 1)[1])] under [try]; a missing second element
    (IndexError) and a failed conversion (ValueError) both give [None]. *)
Definition token_value (p : string) : option Z :=
  match snd (PyStr.split1 "=" p) with
  | Some v => PyStr.int v
  | None => None
  end.

(** The [for] loop of [safe_int_from_note]: the first token that starts
    with [key + "="] decides. *)
Fixpoint scan_tokens (key : string) (parts : list string) : option Z :=
  match parts with
  | [] => None
  | p :: rest =>
      if PyStr.startswith p (key +:+ "=") then token_value p
      else scan_tokens key rest
  end.

Definition safe_int_from_note (note key : string) : option Z :=
  match note with
  | EmptyString => None
  | _ => scan_tokens key (note_tokens note)
  end.

(** ** [parse_ts]: [datetime.strptime(ts, "%Y-%m-%d %H:%M:%S")] *)

Record datetime : Type := mkDatetime {
  year : Z; month : Z; day_of_month : Z;
  hour : Z; minute : Z; second : Z
}.

(** The format is compiled to the regular expression
    [(\d\d\d\d)-(1[0-2]|0[1-9]|[1-9])-(3[01]|[12]\d|0[1-9]|[1-9]| [1-9])\s+(2[0-3]|[0-1]\d|\d):([0-5]\d|\d):(6[0-1]|[0-5]\d|\d)].
    A matcher returns its matches in the order in which a backtracking
    engine tries them. *)
Module Rx.

Definition rx (A : Type) : Type := string -> list (A * string).

Definition ret {A} (a : A) : rx A := fun s => [(a, s)].

Definition seq {A B} (p : rx A) (k : A -> rx B) : rx B :=
fun s => List.flat_map (fun '(a, r) => k a r) (p s).

Definition alt {A} (p q : rx A) : rx A := fun s => (p s ++ q s)%list.

(** One digit whose value lies in [lo..hi]. *)
Definition dig (lo hi : Z) : rx Z := fun s =>
match s with
| String c r =>
if PyStr.isdigit c && (lo <=? PyStr.digit_value c)
 && (PyStr.digit_value c <=? hi)
then [(PyStr.digit_value c, r)] else []
| EmptyString => []
end.

(** Two digits read as a number. *)
Definition dig2 (lo1 hi1 lo2 hi2 : Z) : rx Z :=
seq (dig lo1 hi1) (fun a => seq (dig lo2 hi2) (fun b => ret (10 * a + b))).

Definition lit (c : ascii) : rx unit := fun s =>
match s with
| String c' r => if Ascii.eqb c' c then [(tt, r)] else []
| EmptyString => []
end.

(** [\s+], greedy: the longest run first. *)
Fixpoint spaces (s : string) : list (unit * string) :=
match s with
| String c r => if PyStr.isspace c then (spaces r ++ [(tt, r)])%list else []
| EmptyString => []
end.

Definition rx_Y : rx Z :=
seq (dig 0 9) (fun a => seq (dig 0 9) (fun b =>
seq (dig 0 9) (fun c => seq (dig 0 9) (fun d =>
ret (1000 * a + 100 * b + 10 * c + d))))).
Definition rx_m : rx Z := alt (dig2 1 1 0 2) (alt (dig2 0 0 1 9) (dig 1 9)).
Definition rx_d : rx Z :=
alt (dig2 3 3 0 1) (alt (dig2 1 2 0 9) (alt (dig2 0 0 1 9)
(alt (dig 1 9) (seq (lit " ") (fun _ => dig 1 9))))).
Definition rx_H : rx Z := alt (dig2 2 2 0 3) (alt (dig2 0 1 0 9) (dig 0 9)).
Definition rx_M : rx Z := alt (dig2 0 5 0 9) (dig 0 9).
Definition rx_S : rx Z := alt (dig2 6 6 0 1) (alt (dig2 0 5 0 9) (dig 0 9)).

Definition timestamp : rx datetime :=
seq rx_Y (fun y => seq (lit "-") (fun _ =>
seq rx_m (fun m => seq (lit "-") (fun _ =>
seq rx_d (fun d => seq spaces (fun _ =>
seq rx_H (fun h => seq (lit ":") (fun _ =>
seq rx_M (fun mi => seq (lit ":") (fun _ =>
seq rx_S (fun s => ret (mkDatetime y m d h mi s)))))))))))).

End Rx.

Definition is_leap (y : Z) : bool :=
  (y mod 4 =? 0) && (negb (y mod 100 =? 0) || (y mod 400 =? 0)).

Definition days_in_month (y m : Z) : Z :=
  if m =? 2 then (if is_leap y then 29 else 28)
  else if (m =? 4) || (m =? 6) || (m =? 9) || (m =? 11) then 30
  else 31.

(** The checks of the [datetime] constructor that the regular
    expression leaves open. *)
Definition valid_datetime (t : datetime) : bool :=
  (1 <=? year t) && (day_of_month t <=? days_in_month (year t) (month t))
  && (second t <=? 59).

(** [None] stands for [ValueError]: no match, unconverted data after
    the first match, or a date that does not exist. *)
Definition parse_ts (ts : string) : option datetime :=
  match Rx.timestamp ts with
  | (t, EmptyString) :: _ => if valid_datetime t then Some t else None
  | _ => None
  end.

Definition digit_char (d : Z) : ascii := ascii_of_N (Z.to_N (48 + d mod 10)).

Definition pad2 (n : Z) : string :=
  String (digit_char (n / 10)) (String (digit_char n) EmptyString).

Definition pad4 (n : Z) : string :=
  String (digit_char (n / 1000)) (String (digit_char (n / 100)) (pad2 n)).

(** [dt.strftime("%Y-%m-%d")], the year written with four digits. *)
Definition day_key (dt : datetime) : string :=
  pad4 (year dt) +:+ "-" +:+ pad2 (month dt) +:+ "-" +:+ pad2 (day_of_month dt).

(** [a <= b] on [datetime] objects. *)
Definition datetime_leb (a b : datetime) : bool :=
  let key t := [year t; month t; day_of_month t; hour t; minute t; second t] in
  (fix lex (x y : list Z) : bool :=
     match x, y with
     | u :: x', v :: y' => (u <? v) || ((u =? v) && lex x' y')
     | _, _ => true
     end) (key a) (key b).

(** ** Stable sorting, as [list.sort] does it *)

Section StableSort.
Context {A : Type}.
(** [keeps y x]: [y], which came first, stays in front of [x]. *)
Variable keeps : A -> A -> bool.

Fixpoint insert_sorted (x : A) (l : list A) : list A :=
match l with
| [] => [x]
| y :: l' => if keeps y x then y :: insert_sorted x l' else x :: l
end.

Definition stable_sort (l : list A) : list A :=
List.fold_left (fun acc x => insert_sorted x acc) l [].
End StableSort.

(** ** The statistics engine *)

(** One row as [csv.DictReader] hands it over.  A field is [None] when
    the column is absent from the file or the line is too short; both
    cases reach the same branch of [row.get(k, default) or default]. *)
Record csv_row : Type := mkRow {
  r_timestamp : option string;
  r_event : option string;
  r_task : option string;
  r_session_seconds : option string;
  r_note : option string
}.

(** One element of [StatsEngine.events]. *)
Record event : Type := mkEvent {
  e_dt : datetime;
  e_day : string;
  e_event : string;
  e_task : string;
  e_secs : Z;
  e_note : string;
  e_timestamp : string
}.

(** [x or ""] for an optional string. *)
Definition or_empty (x : option string) : string :=
  match x with
  | Some s => s
  | None => EmptyString
  end.

(** The per-task accumulator of [sessions_by_task_in_range]. *)
Record task_rec : Type := mkRec {
  rec_sessions : Z;
  rec_total_secs : Z;
  rec_cancels : Z
}.

(** One tuple [(task, sessions, total_secs, avg, cancels)]. *)
Record task_row : Type := mkTaskRow {
  row_task : string;
  row_sessions : Z;
  row_total_secs : Z;
  row_avg : option Q;
  row_cancels : Z
}.

(** The dictionary returned by [summary_for_day]. *)
Record day_summary : Type := mkSummary {
  s_day : string;
  on_min : Z;
  off_min : Z;
  total_min : Z;
  ratio_on : option Q;
  checkins_on : Z;
  checkins_off : Z;
  procrastinations : Z;
  starts : Z;
  stops : Z;
  cancels : Z;
  completes : Z;
  breaks : Z
}.

(** [a / b] for [b > 0]. *)
Definition true_div (a b : Z) : Q := Qmake a (Z.to_pos b).

Module StatsEngine.

(** [int(row.get("session_seconds", "0") or 0)]: an absent or empty
field counts as 0, anything else goes through [int]. *)
Definition row_secs (r : csv_row) : result Z :=
match r_session_seconds r with
| None | Some EmptyString => Ok 0
| Some s =>
match PyStr.int s with
| Some n => Ok n
| None => Raise ValueError
end
end.

(** The body of the [for row in r] loop of [load]: [Ok None] is the
[continue] taken when the timestamp does not parse. *)
Definition load_row (r : csv_row) : result (option event) :=
let ts := or_empty (r_timestamp r) in
match parse_ts ts with
| None => Ok None
| Some dt =>
do secs <- row_secs r;
Ok (Some {| e_dt := dt;
e_day := day_key dt;
e_event := PyStr.strip (or_empty (r_event r));
e_task := PyStr.strip (or_empty (r_task r));
e_secs := secs;
e_note := or_empty (r_note r);
e_timestamp := ts |})
end.

(** The loop of [load]; [acc] is [self.events] so far. *)
Fixpoint load_rows (acc : list event) (rows : list csv_row)
: result (list event) :=
match rows with
| [] => Ok acc
| r :: rest =>
do oe <- load_row r;
match oe with
| None => load_rows acc rest
| Some e => load_rows (acc ++ [e])%list rest
end
end.

(** [load] on a log file that exists and holds [rows] after its
header; the result is the new value of [self.events]. *)
Definition load (rows : list csv_row) : result (list event) :=
do evs <- load_rows [] rows;
Ok (stable_sort (fun a b => datetime_leb (e_dt a) (e_dt b)) evs).

Definition events_for_day (events : list event) (d : string) : list event :=
List.filter (fun e => String.eqb (e_day e) d) events.

(** [start_day <= e["day"] <= end_day], compared as strings. *)
Definition events_in_range (events : list event) (start_day end_day : string)
: list event :=
List.filter (fun e => String.leb start_day (e_day e)
&& String.leb (e_day e) end_day) events.

(** [x += interval] under [if interval:]. *)
Definition add_interval (x : Z) (interval : option Z) : Z :=
match interval with
| Some i => if i =? 0 then x else x + i
| None => x
end.

(** The counters of [summary_for_day], updated by one event. *)
Definition summary_step (s : day_summary) (e : event) : day_summary :=
let evt := e_event e in
let interval := safe_int_from_note (e_note e) "interval_min" in
if String.eqb evt "checkin_on_task" then
mkSummary (s_day s) (add_interval (on_min s) interval) (off_min s)
(total_min s) (ratio_on s) (checkins_on s + 1) (checkins_off s)
(procrastinations s) (starts s) (stops s) (cancels s) (completes s)
(breaks s)
else if String.eqb evt "checkin_off_task" then
mkSummary (s_day s) (on_min s) (add_interval (off_min s) interval)
(total_min s) (ratio_on s) (checkins_on s) (checkins_off s + 1)
(procrastinations s) (starts s) (stops s) (cancels s) (completes s)
(breaks s)
else if String.eqb evt "procrastination" then
mkSummary (s_day s) (on_min s) (add_interval (off_min s) interval)
(total_min s) (ratio_on s) (checkins_on s) (checkins_off s)
(procrastinations s + 1) (starts s) (stops s) (cancels s) (completes s)
(breaks s)
else if String.eqb evt "start" then
mkSummary (s_day s) (on_min s) (off_min s)
(total_min s) (ratio_on s) (checkins_on s) (checkins_off s)
(procrastinations s) (starts s + 1) (stops s) (cancels s) (completes s)
(breaks s)
else if String.eqb evt "stop" then
mkSummary (s_day s) (on_min s) (off_min s)
(total_min s) (ratio_on s) (checkins_on s) (checkins_off s)
(procrastinations s) (starts s) (stops s + 1) (cancels s) (completes s)
(breaks s)
else if String.eqb evt "cancel" then
mkSummary (s_day s) (on_min s) (off_min s)
(total_min s) (ratio_on s) (checkins_on s) (checkins_off s)
(procrastinations s) (starts s) (stops s) (cancels s + 1) (completes s)
(breaks s)
else if String.eqb evt "session_complete" then
mkSummary (s_day s) (on_min s) (off_min s)
(total_min s) (ratio_on s) (checkins_on s) (checkins_off s)
(procrastinations s) (starts s) (stops s + 1) (cancels s)
(completes s + 1) (breaks s)
else if String.eqb evt "break" then
mkSummary (s_day s) (on_min s) (off_min s)
(total_min s) (ratio_on s) (checkins_on s) (checkins_off s)
(procrastinations s) (starts s) (stops s) (cancels s) (completes s)
(breaks s + 1)
else s.

(** All counters at 0, as before the loop. *)
Definition summary_zero (d : string) : day_summary :=
mkSummary d 0 0 0 None 0 0 0 0 0 0 0 0.

Definition summary_for_day (events : list event) (d : string) : day_summary :=
let evs := events_for_day events d in
let s := List.fold_left summary_step evs (summary_zero d) in
let total := on_min s + off_min s in
let ratio := if 0 <? total then Some (true_div (on_min s) total) else None in
mkSummary d (on_min s) (off_min s) total ratio
(checkins_on s) (checkins_off s) (procrastinations s)
(starts s) (stops s) (cancels s) (completes s) (breaks s).

(** [(e.get("task") or "").strip() or "(no task)"] *)
Definition task_label (e : event) : string :=
match PyStr.strip (e_task e) with
| EmptyString => "(no task)"
| t => t
end.

(** [rec = by.setdefault(task, {...})] followed by an update of [rec]
in place: the entry keeps its position, a new one goes last. *)
Fixpoint by_update (task : string) (f : task_rec -> task_rec)
(by_ : list (string * task_rec)) : list (string * task_rec) :=
match by_ with
| [] => [(task, f (mkRec 0 0 0))]
| (t, r) :: rest =>
if String.eqb t task then (t, f r) :: rest
else (t, r) :: by_update task f rest
end.

Definition count_stop (secs : Z) (r : task_rec) : task_rec :=
mkRec (rec_sessions r + 1) (rec_total_secs r + secs) (rec_cancels r).

Definition count_cancel (r : task_rec) : task_rec :=
mkRec (rec_sessions r) (rec_total_secs r) (rec_cancels r + 1).

(** The body of the first loop of [sessions_by_task_in_range]. *)
Definition by_step (by_ : list (string * task_rec)) (e : event)
: list (string * task_rec) :=
let evt := e_event e in
if String.eqb evt "stop" then by_update (task_label e) (count_stop (e_secs e)) by_
else if String.eqb evt "cancel" then by_update (task_label e) count_cancel by_
else by_.

Definition make_row (tr : string * task_rec) : task_row :=
let '(task, r) := tr in
let sessions := rec_sessions r in
let total_secs := rec_total_secs r in
let avg := if 0 <? sessions then Some (true_div total_secs sessions)
 else None in
mkTaskRow task sessions total_secs avg (rec_cancels r).

(** [rows.sort(key=lambda r: (r[2], r[1]), reverse=True)]: a row stays
in front of a later one unless its key is strictly smaller. *)
Definition row_keeps (y x : task_row) : bool :=
(row_total_secs x <? row_total_secs y)
|| ((row_total_secs x =? row_total_secs y)
&& (row_sessions x <=? row_sessions y)).

Definition sessions_by_task_in_range (events : list event)
(start_day end_day : string) : list task_row :=
let evs := events_in_range events start_day end_day in
let by_ := List.fold_left by_step evs [] in
stable_sort row_keeps (List.map make_row by_).

Definition is_end (e : event) : bool :=
String.eqb (e_event e) "stop" || String.eqb (e_event e) "cancel".

(** [evs[j].get("event") in ("stop", "cancel", "start")] *)
Definition is_boundary (e : event) : bool :=
String.eqb (e_event e) "stop" || String.eqb (e_event e) "cancel"
|| String.eqb (e_event e) "start".

(** The first inner [while] of the time-to-first-procrastination loop,
run on [evs[j:]]: it returns [first] and [evs[j':]] for the value
[j'] of [j] at its exit (on a boundary, on the procrastination
event it breaks at, or at the end). *)
Fixpoint find_first (l : list event) : option Z * list event :=
match l with
| [] => (None, [])
| e :: l' =>
if is_boundary e then (None, l)
else if String.eqb (e_event e) "procrastination" then (Some (e_secs e), l)
else find_first l'
end.

(** The second inner [while]: [j] moves on to the next boundary. *)
Fixpoint skip_to_boundary (l : list event) : list event :=
match l with
| [] => []
| e :: l' => if is_boundary e then l else skip_to_boundary l'
end.

(** The outer [while i < len(evs)], run on [evs[i:]].  After a start
the loop goes on at [i = j + 1], behind the boundary [evs[j]].
One unit of [fuel] is used per iteration. *)
Fixpoint tt_first_loop (fuel : nat) (l : list event) : list Z :=
match fuel with
| O => []
| S fuel' =>
match l with
| [] => []
| e :: l' =>
if negb (String.eqb (e_event e) "start") then tt_first_loop fuel' l'
else
let '(first, at_j) := find_first l' in
let rest := List.tl (skip_to_boundary at_j) in
match first with
| Some v => v :: tt_first_loop fuel' rest
| None => tt_first_loop fuel' rest
end
end
end.

(** The list [tt_first]; the loop needs at most [len(evs)] iterations. *)
Definition tt_first (evs : list event) : list Z :=
tt_first_loop (List.length evs) evs.

Definition sum_Z (l : list Z) : Z := List.fold_right Z.add 0 l.

Definition len {A} (l : list A) : Z := Z.of_nat (List.length l).

(** [(avg_session_secs, cancel_rate, avg_time_to_first_procrastination_secs)] *)
Definition session_stats_in_range (events : list event)
(start_day end_day : string) : option Q * option Q * option Q :=
let evs := events_in_range events start_day end_day in
let ends := List.filter is_end evs in
let stops_ := List.filter (fun e => String.eqb (e_event e) "stop") ends in
let avg_secs :=
match ends, stops_ with
| _ :: _, _ :: _ =>
Some (true_div (sum_Z (List.map (fun e => Z.max 0 (e_secs e)) stops_))
 (Z.max 1 (len stops_)))
| _, _ => None
end in
let cancels_ := List.filter (fun e => String.eqb (e_event e) "cancel") ends in
let cancel_rate :=
match ends with
| _ :: _ => Some (true_div (len cancels_) (len ends))
| [] => None
end in
let tt := tt_first evs in
let avg_tt :=
match tt with
| _ :: _ => Some (true_div (sum_Z tt) (len tt))
| [] => None
end in
(avg_secs, cancel_rate, avg_tt).

(** What the comment above the loop and the specification ask for:
every start opens a window that ends at the next boundary, and the
first procrastination inside it is recorded.  This follows the
wording, not the loop, and is what [tt_first] is compared with. *)
Fixpoint tt_first_per_start (l : list event) : list Z :=
match l with
| [] => []
| e :: l' =>
if String.eqb (e_event e) "start" then
match fst (find_first l') with
| Some v => v :: tt_first_per_start l'
| None => tt_first_per_start l'
end
else tt_first_per_start l'
end.

(** The events of kind [kind] that are booked on the task [t]. *)
Definition events_of (kind t : string) (evs : list event) : list event :=
List.filter (fun e => String.eqb (e_event e) kind
&& String.eqb (task_label e) t) evs.

Definition count_of (kind t : string) (evs : list event) : Z :=
len (events_of kind t evs).

Definition secs_of (kind t : string) (evs : list event) : Z :=
sum_Z (List.map e_secs (events_of kind t evs)).

(** What the accumulator of [t] holds after the events [evs], and
whether [t] has got an accumulator at all. *)
Definition rec_of (t : string) (evs : list event) : task_rec :=
mkRec (count_of "stop" t evs) (secs_of "stop" t evs) (count_of "cancel" t evs).

Definition seen (t : string) (evs : list event) : bool :=
0 <? count_of "stop" t evs + count_of "cancel" t evs.

(** [by.get(t)] *)
Fixpoint by_lookup (t : string) (by_ : list (string * task_rec))
: option task_rec :=
match by_ with
| [] => None
| (k, r) :: rest => if String.eqb k t then Some r else by_lookup t rest
end.

(** The row of task [t] in a result of [sessions_by_task_in_range]. *)
Definition find_row (t : string) (rows : list task_row) : option task_row :=
List.find (fun r => String.eqb (row_task r) t) rows.

(** The session count and the cancel count reported for [t]; 0 when
no row is reported. *)
Definition sessions_of (t : string) (rows : list task_row) : Z :=
match find_row t rows with
| Some r => row_sessions r
| None => 0
end.

Definition cancels_of (t : string) (rows : list task_row) : Z :=
match find_row t rows with
| Some r => row_cancels r
| None => 0
end.

Definition in_range (start_day end_day : string) (e : event) : bool :=
String.leb start_day (e_day e) && String.leb (e_day e) end_day.

(** The events that the loop of [load] appends for [rows], in file
order: one for every record whose timestamp parses. *)
Definition parsed_events (rows : list csv_row) : list event :=
List.flat_map (fun r => match load_row r with
| Ok (Some e) => [e]
| _ => []
end) rows.

(** [a] is not later than [b]. *)
Definition not_later (a b : event) : Prop := datetime_leb (e_dt a) (e_dt b) = true.

(** The number of events of kind [kind]. *)
Definition kind_count (kind : string) (evs : list event) : Z :=
len (List.filter (fun e => String.eqb (e_event e) kind) evs).

(** The minutes that an event carries in its note: its [interval_min],
and 0 when the note has none. *)
Definition event_minutes (e : event) : Z :=
add_interval 0 (safe_int_from_note (e_note e) "interval_min").

(** The minutes carried by the events of kind [kind]. *)
Definition minutes_of (kind : string) (evs : list event) : Z :=
sum_Z (List.map event_minutes
 (List.filter (fun e => String.eqb (e_event e) kind) evs)).

(** No start event stands between a start and the stop or cancel that
ends its session.  [running] tells whether a session is open. *)
Fixpoint restart_free_from (running : bool) (l : list event) : bool :=
match l with
| [] => true
| e :: l' =>
if String.eqb (e_event e) "start" then negb running && restart_free_from true l'
else if is_end e then restart_free_from false l'
else restart_free_from running l'
end.

Definition restart_free (l : list event) : bool := restart_free_from false l.

End StatsEngine.

(** ** The application state and the timer operations of [App] *)

(** One entry of [state["tasks"]].  A key may be missing in a state file
    written by hand; the values that are present are ints. *)
Record profile : Type := mkProfile {
  interval_min : option Z;
  yes_streak : option Z;
  color : option string
}.

(** One line appended to the log file. *)
Record log_line : Type := mkLine {
  l_timestamp : string;
  l_event : string;
  l_task : string;
  l_secs : Z;
  l_note : string
}.

(** The fields of [App] that the timer reads and writes.  The log file
    is the list of its lines after the header.  Writing the state file
    ([_save_state]) and the widgets are left out. *)
Record app : Type := mkApp {
  active_task : string;
  status : string;
  session_start_ts : option Q;
  session_elapsed : Q;
  last_tick : option Q;
  next_prompt_at : option Q;
  current_interval_min : Z;
  target_duration_min : option Z;
  tasks : gmap string profile;
  log : list log_line
}.

(** What an operation reads from outside: [time.time()] and
    [now_iso()]. *)
Record env : Type := mkEnv {
  time_time : Q;
  now_iso : string
}.

Module App.

(** [str(n)] for an int. *)
Definition str_of_int (n : Z) : string :=
DecimalString.NilZero.string_of_int (Z.to_int n).

(** [int(x)] for a float: truncation towards zero. *)
Definition int_of_float (x : Q) : Z := Z.quot (Qnum x) (Z.pos (Qden x)).

(** [sep.join(l)] *)
Fixpoint join (sep : string) (l : list string) : string :=
match l with
| [] => EmptyString
| [x] => x
| x :: rest => x +:+ sep +:+ join sep rest
end.

(** Truth value of an optional int: [None] and 0 are false. *)
Definition truthy (x : option Z) : bool :=
match x with
| Some n => negb (n =? 0)
| None => false
end.

(** [if self.session_start_ts:] *)
Definition session_running (a : app) : bool :=
match session_start_ts a with
| Some t => negb (Qeq_bool t 0)
| None => false
end.

Definition _compose_note (reason : option string) (target_min interval : option Z)
(extra : option string) : string :=
let parts1 :=
match reason with
| Some r0 =>
match join " " (PyStr.split (PyStr.strip r0)) with
| EmptyString => []
| r => [r]
end
| None => []
end in
let kv1 :=
match target_min with
| Some t => if truthy target_min then ["target_min=" +:+ str_of_int t] else []
| None => []
end in
let kv2 :=
match interval with
| Some i => if truthy interval then ["interval_min=" +:+ str_of_int i] else []
| None => []
end in
let kv3 :=
match extra with
| Some EmptyString | None => []
| Some x => [PyStr.strip x]
end in
let kv := (kv1 ++ kv2 ++ kv3)%list in
let parts2 :=
match kv with
| [] => []
| _ => [join " " kv]
end in
PyStr.strip (join " | " (parts1 ++ parts2)%list).

(** [_task_state]: the profile of [task] is created when it is
missing and gets a colour when it has none.  The dictionary it
returns is the entry of [task] in the new table. *)
Definition _task_state (task : string) (a : app) : app :=
let tasks1 :=
match tasks a !! task with
| Some _ => tasks a
| None =>
<[task := mkProfile (Some DEFAULT_INTERVAL_MIN) (Some 0) (Some "#dfe8ff")]>
(tasks a)
end in
let tasks2 :=
match tasks1 !! task with
| Some (mkProfile i y None) =>
<[task := mkProfile i y (Some "#dfe8ff")]> tasks1
| _ => tasks1
end in
mkApp (active_task a) (status a) (session_start_ts a) (session_elapsed a)
(last_tick a) (next_prompt_at a) (current_interval_min a)
(target_duration_min a) tasks2 (log a).

(** The profile that [_task_state] returned, read back. *)
Definition the_profile (task : string) (a : app) : profile :=
match tasks a !! task with
| Some p => p
| None => mkProfile None None None
end.

(** [_append_log] with its optional arguments left at [None]. *)
Definition _append_log (ev : env) (event note : string) (a : app) : app :=
let task := PyStr.strip (active_task a) in
let secs := if session_running a then int_of_float (session_elapsed a) else 0 in
mkApp (active_task a) (status a) (session_start_ts a) (session_elapsed a)
(last_tick a) (next_prompt_at a) (current_interval_min a)
(target_duration_min a) (tasks a)
(log a ++ [mkLine (now_iso ev) event task secs note])%list.

Definition running_status (task : string) (interval : Z) : string :=
"Running: " +:+ task +:+ " (interval " +:+ str_of_int interval +:+ " min)".

Definition start_session (ev : env) (a : app) : result app :=
let task := PyStr.strip (active_task a) in
match task with
| EmptyString => Ok a
| _ =>
let a := _task_state task a in
let st := the_profile task a in
let cur :=
match interval_min st with
| Some i => i
| None => DEFAULT_INTERVAL_MIN
end in
match interval_min st with
| None => Raise KeyError
| Some i =>
let a :=
mkApp (active_task a) (running_status task i)
(Some (time_time ev)) 0%Q (Some (time_time ev))
(Some (inject_Z (i * 60))) cur (target_duration_min a)
(tasks a) (log a) in
let note := _compose_note None (target_duration_min a) (Some cur) None in
Ok (_append_log ev "start" note a)
end
end.

Definition _adapt_interval (ev : env) (on_task : bool) (a : app) : app :=
let task := PyStr.strip (active_task a) in
match task with
| EmptyString => a
| _ =>
let a := _task_state task a in
let st := the_profile task a in
let interval :=
match interval_min st with
| Some i => i
| None => DEFAULT_INTERVAL_MIN
end in
let streak :=
match yes_streak st with
| Some y => y
| None => 0
end in
let '(interval, streak, a) :=
if on_task then
let streak := streak + 1 in
if STREAK_FOR_STEPUP <=? streak then
let interval := clamp (interval + STEP_UP) MIN_INTERVAL MAX_INTERVAL in
(interval, 0,
 _append_log ev "interval_adapt_up"
 ("interval_min=" +:+ str_of_int interval) a)
else (interval, streak, a)
else
let interval := clamp (interval - STEP_DOWN) MIN_INTERVAL MAX_INTERVAL in
(interval, 0,
 _append_log ev "interval_adapt_down"
 ("interval_min=" +:+ str_of_int interval) a) in
let tasks' :=
<[task := mkProfile (Some interval) (Some streak) (color st)]> (tasks a) in
if session_running a then
mkApp (active_task a) (running_status task interval)
(session_start_ts a) (session_elapsed a) (last_tick a)
(Some (session_elapsed a + inject_Z (interval * 60))%Q)
interval (target_duration_min a) tasks' (log a)
else
mkApp (active_task a) (status a)
(session_start_ts a) (session_elapsed a) (last_tick a)
(next_prompt_at a)
interval (target_duration_min a) tasks' (log a)
end.

(** [mark_procrastination]; [reason] is what the dialog returned. *)
Definition mark_procrastination (ev : env) (reason : option string) (a : app)
: app :=
if negb (session_running a) then a
else
match reason with
| None => a
| Some _ =>
let note := _compose_note reason (target_duration_min a)
(Some (current_interval_min a)) None in
_adapt_interval ev false (_append_log ev "procrastination" note a)
end.

(** The part of [_prompt_checkin] after the dialog: [answer] is
[result["on_task"]], [reason] what the second dialog returned. *)
Definition checkin_answered (ev : env) (answer : option bool)
(reason : option string) (a : app) : app :=
let interval_now := current_interval_min a in
let tmin := target_duration_min a in
match answer with
| Some true =>
let note := _compose_note None tmin (Some interval_now) None in
_adapt_interval ev true (_append_log ev "checkin_on_task" note a)
| Some false =>
match reason with
| None => a
| Some _ =>
let note := _compose_note reason tmin (Some interval_now) None in
_adapt_interval ev false (_append_log ev "checkin_off_task" note a)
end
| None => a
end.

(** [st.get("interval_min", DEFAULT_INTERVAL_MIN)] for the profile of
[task], also when the profile is still to be created. *)
Definition interval_of (task : string) (a : app) : Z :=
match tasks a !! task with
| Some (mkProfile (Some i) _ _) => i
| _ => DEFAULT_INTERVAL_MIN
end.

(** [st.get("yes_streak", 0)], likewise. *)
Definition streak_of (task : string) (a : app) : Z :=
match tasks a !! task with
| Some (mkProfile _ (Some y) _) => y
| _ => 0
end.

(** The condition under which [_adapt_interval] reaches one of its
two [_append_log] calls. *)
Definition adapts (on_task : bool) (a : app) : bool :=
let task := PyStr.strip (active_task a) in
negb (String.eqb task EmptyString)
&& (negb on_task || (STREAK_FOR_STEPUP <=? streak_of task a + 1)).

(** [n] on-task answers in a row, as [_adapt_interval(on_task=True)]
sees them. *)
Fixpoint on_task_run (ev : env) (n : nat) (a : app) : app :=
match n with
| O => a
| S n' => on_task_run ev n' (_adapt_interval ev true a)
end.

(** [_end_session_ui(reset=True)], without the widgets. *)
Definition _end_session_ui (a : app) : app :=
mkApp (active_task a) "Idle" None 0%Q None None (current_interval_min a)
(target_duration_min a) (tasks a) (log a).

(** [stop_session] and [cancel_session] differ in the event they log. *)
Definition end_session (ev : env) (kind : string) (a : app) : app :=
if negb (session_running a) then a
else
let note := _compose_note None (target_duration_min a)
(Some (current_interval_min a)) None in
_end_session_ui (_append_log ev kind note a).

Definition stop_session (ev : env) (a : app) : app := end_session ev "stop" a.

Definition cancel_session (ev : env) (a : app) : app := end_session ev "cancel" a.

(** [_manual_interval_changed], the "Apply to task" button: the value
of the interval field is clamped and written to the profile. *)
Definition _manual_interval_changed (ev : env) (a : app) : app :=
let task := PyStr.strip (active_task a) in
match task with
| EmptyString => a
| _ =>
let a := _task_state task a in
let st := the_profile task a in
let interval := clamp (current_interval_min a) MIN_INTERVAL MAX_INTERVAL in
let tasks' :=
<[task := mkProfile (Some interval) (Some 0) (color st)]> (tasks a) in
let next :=
if session_running a
then Some (session_elapsed a + inject_Z (interval * 60))%Q
else next_prompt_at a in
_append_log ev "interval_set" ("interval_min=" +:+ str_of_int interval)
(mkApp (active_task a) (status a) (session_start_ts a) (session_elapsed a)
 (last_tick a) next (current_interval_min a) (target_duration_min a)
 tasks' (log a))
end.

(** [_on_active_task_changed], after the task field was set to
[task]: a non-empty task gets its profile at once. *)
Definition set_active_task (task : string) (a : app) : app :=
let a := mkApp task (status a) (session_start_ts a) (session_elapsed a)
 (last_tick a) (next_prompt_at a) (current_interval_min a)
 (target_duration_min a) (tasks a) (log a) in
match PyStr.strip task with
| EmptyString => a
| t => _task_state t a
end.

(** The clock part of [_tick] while a session runs: the time since the
last tick is added to the elapsed time, a negative difference
counted as 0. *)
Definition tick_clock (ev : env) (a : app) : app :=
if negb (session_running a) then a
else
let now := time_time ev in
let last := match last_tick a with Some t => t | None => now end in
let dt := (now - last)%Q in
let step := if Qle_bool 0 dt then dt else 0%Q in
mkApp (active_task a) (status a) (session_start_ts a)
(session_elapsed a + step)%Q (Some now) (next_prompt_at a)
(current_interval_min a) (target_duration_min a) (tasks a) (log a).

(** [self.session_elapsed >= self.next_prompt_at] under
[self.next_prompt_at is not None]: a check-in is due. *)
Definition checkin_due (a : app) : bool :=
match next_prompt_at a with
| Some t => Qle_bool t (session_elapsed a)
| None => false
end.


End App.

(** ** Sample logs and states *)

Definition row (ts evt task secs note : string) : csv_row :=
  mkRow (Some ts) (Some evt) (Some task) (Some secs) (Some note).

(** A log whose second record has a well-formed timestamp and a
    [session_seconds] field that is not an integer. *)
Definition bad_seconds_log : list csv_row :=
  [ row "2024-01-05 10:00:00" "start" "Write" "0" "target_min=30 interval_min=10";
    row "2024-01-05 10:30:00" "stop" "Write" "abc" "target_min=30 interval_min=10" ].

(** The same log with the defect in the timestamp instead. *)
Definition bad_timestamp_log : list csv_row :=
  [ row "2024-01-05 10:00:00" "start" "Write" "0" "target_min=30 interval_min=10";
    row "2024-01-05 10h30" "stop" "Write" "1800" "target_min=30 interval_min=10" ].

(** A session that is started again without a stop in between (the
    start button does not look at the running session), then one
    procrastination mark after 300 seconds, then the stop. *)
Definition restart_log : list csv_row :=
  [ row "2024-01-05 10:00:00" "start" "Write" "0" "target_min=30 interval_min=10";
    row "2024-01-05 10:00:05" "start" "Write" "0" "target_min=30 interval_min=10";
    row "2024-01-05 10:05:05" "procrastination" "Write" "300" "mail | target_min=30 interval_min=10";
    row "2024-01-05 10:15:05" "stop" "Write" "900" "target_min=30 interval_min=7" ].

(** One day with a check-in of each kind, and nothing on the next. *)
Definition checkin_log : list csv_row :=
  [ row "2024-01-05 10:00:00" "start" "Write" "0" "target_min=30 interval_min=10";
    row "2024-01-05 10:10:00" "checkin_on_task" "Write" "600" "target_min=30 interval_min=10";
    row "2024-01-05 10:20:00" "checkin_off_task" "Write" "1200" "tired | target_min=30 interval_min=5";
    row "2024-01-05 10:30:00" "stop" "Write" "1800" "target_min=30 interval_min=3" ].

Definition events_or_nil (r : result (list event)) : list event :=
  match r with
  | Ok evs => evs
  | Raise _ => []
  end.

(** An idle application with the task field set to [task] and the
    task table [tbl]. *)
Definition idle_app (task : string) (tbl : gmap string profile) : app :=
  mkApp task "Idle" None 0%Q None None DEFAULT_INTERVAL_MIN (Some 30) tbl [].

Definition sample_env : env := mkEnv 1704448800%Q "2024-01-05 10:00:00".

(** [_adapt_interval] appended one adaptation event to the log. *)
Definition logged_adaptation (ev : env) (on_task : bool) (a : app) : Prop :=
  exists l, log (App._adapt_interval ev on_task a) = (log a ++ [l])%list
            /\ (l_event l = "interval_adapt_up" \/ l_event l = "interval_adapt_down").

(** A task at the upper bound with one on-task answer on its streak. *)
Definition app_at_upper_bound : app :=
  idle_app "Write" {[ "Write" := mkProfile (Some 30) (Some 1) (Some "#dfe8ff") ]}.

(** A day on which "Read" is only cancelled and "Write" is stopped
    once, with a legacy [session_complete] record beside the stop. *)
Definition cancel_log : list csv_row :=
  [ row "2024-01-05 09:00:00" "start" "Read" "0" "target_min=30 interval_min=10";
    row "2024-01-05 09:06:00" "cancel" "Read" "360" "target_min=30 interval_min=10";
    row "2024-01-05 10:00:00" "start" "Write" "0" "target_min=30 interval_min=10";
    row "2024-01-05 10:30:00" "stop" "Write" "1800" "target_min=30 interval_min=10";
    row "2024-01-05 10:30:00" "session_complete" "Write" "1800" "" ].

Definition cancel_events : list event := events_or_nil (StatsEngine.load cancel_log).

(** One more cancel of "Write" on the same day. *)
Definition extra_cancel : event :=
  mkEvent (mkDatetime 2024 1 5 11 0 0) "2024-01-05" "cancel" "Write" 120 ""
    "2024-01-05 11:00:00".

(** The cancel of "Read" as [load] returns it. *)
Definition read_cancel : event :=
  mkEvent (mkDatetime 2024 1 5 9 6 0) "2024-01-05" "cancel" "Read" 360
    "target_min=30 interval_min=10" "2024-01-05 09:06:00".

(** What the user, the dialogs and the timer can do to the application
    state.  Breaks are left out. *)
Inductive action : Type :=
| EditTask (task : string)
| EditInterval (v : Z)
| EditTarget (t : option Z)
| Start
| Stop
| Cancel
| ApplyInterval
| Procrastination (reason : option string)
| CheckinAnswer (answer : option bool) (reason : option string)
| Tick.

Definition run_action (ev : env) (x : action) (a : app) : result app :=
  match x with
  | EditTask task => Ok (App.set_active_task task a)
  | EditInterval v =>
      Ok (mkApp (active_task a) (status a) (session_start_ts a) (session_elapsed a)
            (last_tick a) (next_prompt_at a) v (target_duration_min a)
            (tasks a) (log a))
  | EditTarget t =>
      Ok (mkApp (active_task a) (status a) (session_start_ts a) (session_elapsed a)
            (last_tick a) (next_prompt_at a) (current_interval_min a) t
            (tasks a) (log a))
  | Start => App.start_session ev a
  | Stop => Ok (App.stop_session ev a)
  | Cancel => Ok (App.cancel_session ev a)
  | ApplyInterval => Ok (App._manual_interval_changed ev a)
  | Procrastination reason => Ok (App.mark_procrastination ev reason a)
  | CheckinAnswer answer reason => Ok (App.checkin_answered ev answer reason a)
  | Tick => Ok (App.tick_clock ev a)
  end.


(** A running application with the task field set to [task]. *)
Definition running_app (task : string) (tbl : gmap string profile)
    (elapsed : Q) (next : option Q) : app :=
  mkApp task "Running" (Some 1704448800%Q) elapsed (Some 1704448800%Q) next
    DEFAULT_INTERVAL_MIN (Some 30) tbl [].

(** The value of the decimal digits [d] read after the value [acc]. *)
Fixpoint digits_value (d : Decimal.uint) (acc : Z) : Z :=
  match d with
  | Decimal.Nil => acc
  | Decimal.D0 d => digits_value d (10 * acc)
  | Decimal.D1 d => digits_value d (10 * acc + 1)
  | Decimal.D2 d => digits_value d (10 * acc + 2)
  | Decimal.D3 d => digits_value d (10 * acc + 3)
  | Decimal.D4 d => digits_value d (10 * acc + 4)
  | Decimal.D5 d => digits_value d (10 * acc + 5)
  | Decimal.D6 d => digits_value d (10 * acc + 6)
  | Decimal.D7 d => digits_value d (10 * acc + 7)
  | Decimal.D8 d => digits_value d (10 * acc + 8)
  | Decimal.D9 d => digits_value d (10 * acc + 9)
  end.

(** No character of [s] is white space or a comma, the two separators
    of note tokens. *)
Fixpoint is_token (s : string) : bool :=
  match s with
  | EmptyString => true
  | String c s' => negb (PyStr.isspace c) && negb (Ascii.eqb c ",") && is_token s'
  end.

(** [time.strftime("%Y-%m-%d %H:%M:%S")] for the broken-down time [t],
    as [now_iso] writes it into the log. *)
Definition format_ts (t : datetime) : string :=
  pad4 (year t) +:+ "-" +:+ pad2 (month t) +:+ "-" +:+ pad2 (day_of_month t)
  +:+ " " +:+ pad2 (hour t) +:+ ":" +:+ pad2 (minute t) +:+ ":" +:+ pad2 (second t).

(** A calendar date and time of day with a four-digit year. *)
Definition wall_clock (t : datetime) : Prop :=
  1000 <= year t <= 9999 /\ 1 <= month t <= 12
  /\ 1 <= day_of_month t <= days_in_month (year t) (month t)
  /\ 0 <= hour t <= 23 /\ 0 <= minute t <= 59 /\ 0 <= second t <= 59.

(** The first match that [p] finds on [s] has the value [a] and leaves
    [r] unread. *)
Definition first_match {A} (p : Rx.rx A) (s : string) (a : A) (r : string) : Prop :=
  exists others, p s = (a, r) :: others.

(** The record that [csv.DictReader] returns for the line that
    [_append_log] wrote with [csv.writer]: every field as a string, the
    seconds through [str]. *)
Definition row_of_line (l : log_line) : csv_row :=
  mkRow (Some (l_timestamp l)) (Some (l_event l)) (Some (l_task l))
    (Some (App.str_of_int (l_secs l))) (Some (l_note l)).

(** The line was written at a wall-clock time [t]. *)
Definition written_at (l : log_line) (t : datetime) : Prop :=
  wall_clock t /\ l_timestamp l = format_ts t.

(** ** Breaks *)

(** The break fields of [App]. *)
Record break_state : Type := mkBreak {
  on_break : bool;
  break_start_ts : option Q;
  _break_task_for_log : string;
  _break_note_for_log : string
}.

Module Break.

(** [_append_log] with [secs_override] and [task_override] given. *)
Definition _append_log_override (ev : env) (event note : string)
(secs_override : Z) (task_override : string) (a : app) : app :=
mkApp (active_task a) (status a) (session_start_ts a) (session_elapsed a)
(last_tick a) (next_prompt_at a) (current_interval_min a)
(target_duration_min a) (tasks a)
(log a ++ [mkLine (now_iso ev) event task_override (Z.max 0 secs_override) note])%list.

Definition set_status (s : string) (a : app) : app :=
mkApp (active_task a) s (session_start_ts a) (session_elapsed a)
(last_tick a) (next_prompt_at a) (current_interval_min a)
(target_duration_min a) (tasks a) (log a).

(** [_begin_break] up to the point where its dialog opens. *)
Definition _begin_break (ev : env) (task_for_log note : string)
(st : app * break_state) : app * break_state :=
let '(a, b) := st in
if on_break b then st
else (set_status "On break" a,
mkBreak true (Some (time_time ev)) (PyStr.strip task_for_log) note).

(** [start_break] up to the point where the dialog opens: a running
session is stopped first. *)
Definition start_break (ev : env) (st : app * break_state) : app * break_state :=
let '(a, b) := st in
if on_break b then st
else
let task := PyStr.strip (active_task a) in
let tmin := target_duration_min a in
let interval_now :=
match task with
| EmptyString => None
| _ => Some (current_interval_min a)
end in
let note := App._compose_note None tmin interval_now (Some "manual_break=1") in
let a1 :=
if App.session_running a
then App._end_session_ui (App._append_log ev "stop" note a)
else a in
_begin_break ev task note (a1, b).

(** [_end_break(log=True)], called when the dialog is closed. *)
Definition _end_break (ev : env) (st : app * break_state) : app * break_state :=
let '(a, b) := st in
if negb (on_break b) then st
else
let start :=
match break_start_ts b with
| Some t => if Qeq_bool t 0 then time_time ev else t
| None => time_time ev
end in
let elapsed := (time_time ev - start)%Q in
(_append_log_override ev "break" (_break_note_for_log b)
 (App.int_of_float elapsed) (_break_task_for_log b) (set_status "Idle" a),
 mkBreak false None (_break_task_for_log b) (_break_note_for_log b)).

(** The "End break & start session" button of the dialog. *)
Definition end_and_start (ev : env) (st : app * break_state)
: result (app * break_state) :=
let '(a, b) := _end_break ev st in
do a' <- App.start_session ev a;
Ok (a', b).

End Break.


(** ** Minutes by task *)

(** One tuple [(task, on, off, total, on_share)] of
    [on_off_by_task_in_range]. *)
Record onoff_row : Type := mkOnOff {
  oo_task : string;
  oo_on : Z;
  oo_off : Z;
  oo_total : Z;
  oo_share : option Q
}.

(** [a / b] for [b] other than 0. *)
Definition true_div_nz (a b : Z) : Q :=
  if 0 <? b then Qmake a (Z.to_pos b) else Qmake (- a) (Z.to_pos (- b)).

Module OnOff.

Definition is_on (e : event) : bool := String.eqb (e_event e) "checkin_on_task".

Definition is_off (e : event) : bool :=
String.eqb (e_event e) "checkin_off_task" || String.eqb (e_event e) "procrastination".

(** [d[task] = d.get(task, 0) + interval] *)
Definition bump (task : string) (i : Z) (d : gmap string Z) : gmap string Z :=
<[task := default 0 (d !! task) + i]> d.

(** The body of the loop: [st] is [(on_by, off_by)]. *)
Definition step (st : gmap string Z * gmap string Z) (e : event)
: gmap string Z * gmap string Z :=
let task := StatsEngine.task_label e in
match safe_int_from_note (e_note e) "interval_min" with
| None => st
| Some i =>
if i =? 0 then st
else if is_on e then (bump task i (fst st), snd st)
else if is_off e then (fst st, bump task i (snd st))
else st
end.

Definition make_row (on_by off_by : gmap string Z) (t : string) : onoff_row :=
let onm := default 0 (on_by !! t) in
let offm := default 0 (off_by !! t) in
let total := onm + offm in
mkOnOff t onm offm total
(if total =? 0 then None else Some (true_div_nz onm total)).

(** [rows.sort(key=lambda r: (r[3], r[1]), reverse=True)] *)
Definition row_keeps (y x : onoff_row) : bool :=
(oo_total x <? oo_total y)
|| ((oo_total x =? oo_total y) && (oo_on x <=? oo_on y)).

(** [sorted(set(on_by) | set(off_by))]: the task names in ascending
order, each once. *)
Definition sorted_tasks (on_by off_by : gmap string Z) : list string :=
stable_sort String.leb (elements (dom on_by ∪ dom off_by : gset string)).

Definition on_off_by_task_in_range (events : list event) (start_day end_day : string)
: list onoff_row :=
let evs := StatsEngine.events_in_range events start_day end_day in
let st := List.fold_left step evs (∅, ∅) in
stable_sort row_keeps
(List.map (make_row (fst st) (snd st)) (sorted_tasks (fst st) (snd st))).

(** The minutes noted on the events of [evs] that are of a kind in
[kinds] and booked on the task [t]. *)
Definition task_minutes (kinds : event -> bool) (t : string) (evs : list event) : Z :=
StatsEngine.sum_Z
(List.map (fun e => if kinds e && String.eqb (StatsEngine.task_label e) t
                  then StatsEngine.event_minutes e else 0) evs).

(** Some such event carries minutes other than 0. *)
Definition has_minutes (kinds : event -> bool) (t : string) (evs : list event) : bool :=
List.existsb (fun e => kinds e && String.eqb (StatsEngine.task_label e) t
                   && negb (StatsEngine.event_minutes e =? 0)) evs.

(** What a dictionary of minutes holds for [t] after the events [evs]. *)
Definition minutes_entry (kinds : event -> bool) (t : string) (evs : list event)
: option Z :=
if has_minutes kinds t evs then Some (task_minutes kinds t evs) else None.

(** [_procrastination_counts_by_task]: the dictionary [counts]. *)
Definition procrastination_step (counts : gmap string Z) (e : event) : gmap string Z :=
if String.eqb (e_event e) "procrastination"
then bump (StatsEngine.task_label e) 1 counts
else counts.

Definition _procrastination_counts_by_task (events : list event)
(start_day end_day : string) : gmap string Z :=
List.fold_left procrastination_step
(StatsEngine.events_in_range events start_day end_day) ∅.

End OnOff.

(** ** Days and weeks *)

(** [sorted({e["day"] for e in self.events})] *)
Definition days_present (events : list event) : list string :=
  stable_sort String.leb (elements (list_to_set (List.map e_day events) : gset string)).

(** A [date] is kept as its proleptic Gregorian ordinal, day 1 being
    0001-01-01, a Monday; [date.min] and [date.max] are the ordinals 1
    and 3652059. *)
Module Date.

Definition min_ordinal : Z := 1.
Definition max_ordinal : Z := 3652059.

(** [d.weekday()]: Monday is 0. *)
Definition weekday (d : Z) : Z := (d + 6) mod 7.

(** [d + timedelta(days=k)]; [None] stands for [OverflowError]. *)
Definition add_days (d k : Z) : option Z :=
if (min_ordinal <=? d + k) && (d + k <=? max_ordinal) then Some (d + k) else None.

(** [monday_of(d) = d - timedelta(days=d.weekday())] *)
Definition monday_of (d : Z) : option Z := add_days d (- weekday d).

(** The dates of [week_days] before they are formatted:
  [wk_start + timedelta(days=i)] for [i] in [range(7)]. *)
Definition week_dates (anchor : Z) : option (list Z) :=
match monday_of anchor with
| None => None
| Some wk_start =>
  List.fold_right
    (fun i acc =>
       match add_days wk_start i, acc with
       | Some d, Some l => Some (d :: l)
       | _, _ => None
       end)
    (Some []) [0; 1; 2; 3; 4; 5; 6]
end.

Section Formatted.
(** [strftime("%Y-%m-%d")] on dates is taken as given. *)
Variable strftime : Z -> string.

Definition week_days (anchor : Z) : option (list string) :=
option_map (List.map strftime) (week_dates anchor).

(** [week_summary]: the days and their summaries. *)
Definition week_summary (events : list event) (anchor : Z)
: option (list string * list day_summary) :=
option_map (fun days => (days, List.map (StatsEngine.summary_for_day events) days))
(week_days anchor).
End Formatted.

End Date.

(** * Properties *)

(** ** The note side channel *)

Example safe_int_plain :
  safe_int_from_note "target_min=30 interval_min=12" "interval_min" = Some 12.
Proof. reflexivity. Qed.

Example safe_int_commas :
  safe_int_from_note "late,interval_min=7,x" "interval_min" = Some 7.
Proof. reflexivity. Qed.

Example safe_int_signed :
  safe_int_from_note "interval_min=-4" "interval_min" = Some (-4).
Proof. reflexivity. Qed.

Lemma scan_tokens_first (key p : string) (pre post : list string) :
  Forall (fun q => PyStr.startswith q (key +:+ "=") = false) pre ->
  PyStr.startswith p (key +:+ "=") = true ->
  scan_tokens key (pre ++ p :: post) = token_value p.
Proof.
  intros Hpre Hp. induction Hpre as [|q pre Hq _ IH]; simpl.
  - now rewrite Hp.
  - now rewrite Hq.
Qed.

Lemma scan_tokens_none (key : string) (parts : list string) :
  Forall (fun q => PyStr.startswith q (key +:+ "=") = false) parts ->
  scan_tokens key parts = None.
Proof.
  induction 1 as [|q l Hq _ IH]; simpl; [reflexivity|]. now rewrite Hq.
Qed.

Lemma append_nil (b : string) : EmptyString +:+ b = b.
Proof. reflexivity. Qed.

Lemma append_cons (c : ascii) (a b : string) :
  String c a +:+ b = String c (a +:+ b).
Proof. reflexivity. Qed.

Lemma startswith_app (k r : string) : PyStr.startswith (k +:+ r) k = true.
Proof.
  unfold PyStr.startswith. induction k as [|c k IH].
  - rewrite append_nil. now destruct r.
  - rewrite append_cons. simpl.
    destruct (ascii_dec c c) as [_|Hc]; [exact IH | now elim Hc].
Qed.

Lemma split1_key_value (k v : string) :
  snd (PyStr.split1 "=" k) = None ->
  PyStr.split1 "=" (k +:+ String "=" v) = (k, Some v).
Proof.
  induction k as [|c k IH]; intros H; [reflexivity|].
  rewrite append_cons. simpl in *.
  destruct (Ascii.eqb c "=") eqn:E; [discriminate|].
  destruct (PyStr.split1 "=" k) as [a b] eqn:Ek. simpl in H.
  rewrite (IH H). now subst b.
Qed.

Lemma app_assoc_string (a b c : string) : (a +:+ b) +:+ c = a +:+ (b +:+ c).
Proof.
  induction a as [|x a IH]; [reflexivity|].
  rewrite !append_cons. now f_equal.
Qed.

Lemma token_value_key (k v : string) :
  snd (PyStr.split1 "=" k) = None ->
  token_value (k +:+ "=" +:+ v) = PyStr.int v.
Proof.
  intros H. unfold token_value.
  change ("=" +:+ v) with (String "=" v).
  now rewrite (split1_key_value k v H).
Qed.

Lemma note_tokens_empty : note_tokens EmptyString = [].
Proof. reflexivity. Qed.

(** C9. First-match semantics of the note extractor: when the first
    space- or comma-separated token of [note] that starts with [key=] is
    [key=v], the result is [int(v)], whatever the tokens behind it are;
    so a value that does not parse gives [None] even when a later
    token carries a valid one. *)
Theorem safe_int_from_note_first_match
    (note key v : string) (pre post : list string) :
  snd (PyStr.split1 "=" key) = None ->
  note_tokens note = (pre ++ (key +:+ "=" +:+ v) :: post)%list ->
  Forall (fun q => PyStr.startswith q (key +:+ "=") = false) pre ->
  safe_int_from_note note key = PyStr.int v.
Proof.
  intros Hkey Htok Hpre.
  assert (Hne : note <> EmptyString).
  { intros ->. rewrite note_tokens_empty in Htok. now destruct pre. }
  unfold safe_int_from_note. destruct note as [|c note]; [now elim Hne|].
  rewrite Htok, scan_tokens_first; trivial.
  - now apply token_value_key.
  - rewrite <- app_assoc_string. apply startswith_app.
Qed.

Lemma safe_int_from_note_first_match_witness :
  safe_int_from_note "late interval_min=abc,interval_min=12" "interval_min" = None.
Proof.
  apply (safe_int_from_note_first_match
           "late interval_min=abc,interval_min=12" "interval_min" "abc"
           ["late"] ["interval_min=12"]).
  - reflexivity.
  - reflexivity.
  - repeat constructor.
Defined.

(** ** Loading the log *)

Lemma load_row_raises_ValueError (r : csv_row) (e : exn) :
  StatsEngine.load_row r = Raise e -> e = ValueError.
Proof.
  unfold StatsEngine.load_row, StatsEngine.row_secs.
  destruct (parse_ts _); [|discriminate].
  destruct (r_session_seconds r) as [[|c s]|]; simpl; try discriminate.
  destruct (PyStr.int _); simpl; [discriminate|]. congruence.
Qed.

Lemma load_rows_raises (rows : list csv_row) (r : csv_row) :
  In r rows ->
  parse_ts (or_empty (r_timestamp r)) <> None ->
  StatsEngine.row_secs r = Raise ValueError ->
  forall acc, StatsEngine.load_rows acc rows = Raise ValueError.
Proof.
  intros Hin Hts Hsecs. induction rows as [|r0 rows IH]; [contradiction|].
  intros acc. simpl.
  destruct (StatsEngine.load_row r0) as [[e|]|e] eqn:E0; simpl.
  - destruct Hin as [->|Hin]; [|now apply IH].
    unfold StatsEngine.load_row in E0.
    destruct (parse_ts _); [|now elim Hts]. now rewrite Hsecs in E0.
  - destruct Hin as [->|Hin]; [|now apply IH].
    unfold StatsEngine.load_row in E0.
    destruct (parse_ts _); [|now elim Hts]. now rewrite Hsecs in E0.
  - now rewrite (load_row_raises_ValueError r0 e E0).
Qed.

(** A record whose timestamp does not parse is skipped: the rest of the
    log is loaded as if the record were not there. *)
Lemma load_rows_skips_bad_timestamp (r : csv_row) (rows : list csv_row) :
  parse_ts (or_empty (r_timestamp r)) = None ->
  forall acc, StatsEngine.load_rows acc (r :: rows) = StatsEngine.load_rows acc rows.
Proof.
  intros H acc. simpl. unfold StatsEngine.load_row. now rewrite H.
Qed.

Example load_bad_timestamp_log :
  exists e, StatsEngine.load bad_timestamp_log = Ok [e] /\ e_event e = "start".
Proof. eexists. split; reflexivity. Qed.

(** C1. The code does not do what the claim says: a record with a
    well-formed timestamp whose [session_seconds] field is not an
    integer is not skipped; the conversion stands outside the [try] that
    guards the timestamp, and [load] raises [ValueError] for the whole
    log. *)
Theorem load_raises_on_non_integer_seconds (rows : list csv_row) (r : csv_row) :
  In r rows ->
  parse_ts (or_empty (r_timestamp r)) <> None ->
  StatsEngine.row_secs r = Raise ValueError ->
  StatsEngine.load rows = Raise ValueError.
Proof.
  intros Hin Hts Hsecs. unfold StatsEngine.load.
  now rewrite (load_rows_raises rows r Hin Hts Hsecs).
Qed.

Lemma load_raises_on_non_integer_seconds_witness :
  StatsEngine.load bad_seconds_log = Raise ValueError.
Proof.
  apply (load_raises_on_non_integer_seconds bad_seconds_log
           (row "2024-01-05 10:30:00" "stop" "Write" "abc"
                "target_min=30 interval_min=10")).
  - right. left. reflexivity.
  - discriminate.
  - reflexivity.
Defined.

(** ** Time to first procrastination *)

(** C3. The code does not do what the claim says: a start event that
    closes the window of the start before it is stepped over ([i = j + 1])
    and opens no window of its own.  On [restart_log] the second start
    is followed by a procrastination after 300 seconds; the loop records
    nothing and the average is [None], where one window per start gives
    300. *)
Theorem tt_first_skips_start_at_boundary :
  let evs := events_or_nil (StatsEngine.load restart_log) in
  StatsEngine.load restart_log <> Raise ValueError
  /\ List.map e_event evs = ["start"; "start"; "procrastination"; "stop"]
  /\ StatsEngine.tt_first (StatsEngine.events_in_range evs "2024-01-05" "2024-01-05") = []
  /\ snd (StatsEngine.session_stats_in_range evs "2024-01-05" "2024-01-05") = None
  /\ StatsEngine.tt_first_per_start
       (StatsEngine.events_in_range evs "2024-01-05" "2024-01-05") = [300].
Proof. vm_compute. repeat split. discriminate. Qed.

(** ** The day summary *)

(** C7. [ratio_on] of a day summary is [on_min / (on_min + off_min)]
    when that sum is positive, and [None] when it is 0. *)
Theorem summary_for_day_ratio_on (events : list event) (d : string) :
  let s := StatsEngine.summary_for_day events d in
  (0 < on_min s + off_min s ->
   ratio_on s = Some (true_div (on_min s) (on_min s + off_min s)))
  /\ (on_min s + off_min s = 0 -> ratio_on s = None).
Proof.
  unfold StatsEngine.summary_for_day. cbn [on_min off_min ratio_on].
  set (s := List.fold_left _ _ _). split; intros H.
  - apply Z.ltb_lt in H. now rewrite H.
  - now rewrite H.
Qed.

Lemma summary_for_day_ratio_on_witness :
  let evs := events_or_nil (StatsEngine.load checkin_log) in
  ratio_on (StatsEngine.summary_for_day evs "2024-01-05") = Some (true_div 10 15)
  /\ ratio_on (StatsEngine.summary_for_day evs "2024-01-06") = None.
Proof.
  split.
  - apply (proj1 (summary_for_day_ratio_on
                    (events_or_nil (StatsEngine.load checkin_log)) "2024-01-05")).
    vm_compute. reflexivity.
  - apply (proj2 (summary_for_day_ratio_on
                    (events_or_nil (StatsEngine.load checkin_log)) "2024-01-06")).
    vm_compute. reflexivity.
Defined.

(** ** Starting a session *)

(** C8. With an empty or white-space-only task field [start_session]
    returns at once: the log, the task table and the session fields are
    what they were. *)
Theorem start_session_empty_task (ev : env) (a : app) :
  PyStr.strip (active_task a) = EmptyString ->
  App.start_session ev a = Ok a.
Proof. intros H. unfold App.start_session. now rewrite H. Qed.

Lemma start_session_empty_task_witness :
  App.start_session sample_env (idle_app "  " ∅) = Ok (idle_app "  " ∅).
Proof.
  apply (start_session_empty_task sample_env (idle_app "  " ∅)). reflexivity.
Defined.

(** ** The adaptive interval *)

Lemma task_state_lookup (task : string) (a : app) :
  exists p, tasks (App._task_state task a) !! task = Some p
    /\ match interval_min p with Some i => i | None => DEFAULT_INTERVAL_MIN end
       = App.interval_of task a
    /\ match yes_streak p with Some y => y | None => 0 end
       = App.streak_of task a.
Proof.
  unfold App._task_state, App.interval_of, App.streak_of. cbn [tasks].
  destruct (tasks a !! task) as [[i y [col|]]|] eqn:E.
  - rewrite E. exists (mkProfile i y (Some col)). rewrite E. now destruct i, y.
  - rewrite E. eexists. rewrite lookup_insert_eq. split; [reflexivity|].
    now destruct i, y.
  - rewrite lookup_insert_eq. eexists. rewrite lookup_insert_eq.
    split; [reflexivity|]. split; reflexivity.
Qed.

(** What one call of [_adapt_interval] does to the profile of the active
    task and to the log. *)
Lemma adapt_interval_step (ev : env) (b : bool) (a : app) (c : ascii) (t : string) :
  PyStr.strip (active_task a) = String c t ->
  let task := String c t in
  let a' := App._adapt_interval ev b a in
  active_task a' = active_task a
  /\ App.session_running a' = App.session_running a
  /\ App.interval_of task a' =
       (if b then
          if STREAK_FOR_STEPUP <=? App.streak_of task a + 1
          then clamp (App.interval_of task a + STEP_UP) MIN_INTERVAL MAX_INTERVAL
          else App.interval_of task a
        else clamp (App.interval_of task a - STEP_DOWN) MIN_INTERVAL MAX_INTERVAL)
  /\ App.streak_of task a' =
       (if b then
          if STREAK_FOR_STEPUP <=? App.streak_of task a + 1 then 0
          else App.streak_of task a + 1
        else 0)
  /\ log a' =
       (log a ++
        if App.adapts b a then
          [mkLine (now_iso ev)
             (if b then "interval_adapt_up" else "interval_adapt_down") task
             (if App.session_running a then App.int_of_float (session_elapsed a)
              else 0)
             ("interval_min=" +:+ App.str_of_int (App.interval_of task a'))]
        else [])%list.
Proof.
  intros Hs task a'. subst a'. unfold App._adapt_interval, App.adapts.
  rewrite Hs. fold task.
  destruct (task_state_lookup task a) as (p & Hp & Hi & Hy).
  unfold App.the_profile. rewrite Hp, Hi, Hy.
  replace (String.eqb task "") with false by reflexivity.
  destruct b; [destruct (STREAK_FOR_STEPUP <=? App.streak_of task a + 1)|];
    cbn [negb andb orb];
    unfold App._append_log, App.session_running;
    cbn [session_start_ts log tasks active_task session_elapsed App._task_state];
    destruct (match session_start_ts a with
              | Some t0 => negb (Qeq_bool t0 0)
              | None => false
              end) eqn:Er;
    cbn [session_start_ts log tasks active_task session_elapsed];
    unfold App.interval_of, App.streak_of; cbn [tasks];
    rewrite ?lookup_insert_eq, ?Hs, ?Er; cbn [interval_min yes_streak];
    repeat split; rewrite ?app_nil_r; try reflexivity.
Qed.

Lemma strip_nonempty (s : string) :
  PyStr.strip s <> EmptyString -> exists c t, PyStr.strip s = String c t.
Proof. destruct (PyStr.strip s) as [|c t]; [congruence | eauto]. Qed.

Ltac unfold_constants :=
  unfold clamp, MIN_INTERVAL, MAX_INTERVAL, STEP_UP, STEP_DOWN,
    STREAK_FOR_STEPUP, DEFAULT_INTERVAL_MIN in *.

(** C5. An off-task answer or a procrastination mark lowers the
    interval of the task by 3, not below 3, and sets the streak to 0,
    whatever the streak was.  The interval is taken to respect its upper
    bound of 30, as every writer leaves it. *)
Theorem off_task_lowers_interval (ev : env) (reason : string) (a : app) :
  let task := PyStr.strip (active_task a) in
  task <> EmptyString ->
  App.interval_of task a <= MAX_INTERVAL ->
  let lowered a' :=
    App.interval_of task a' = Z.max MIN_INTERVAL (App.interval_of task a - STEP_DOWN)
    /\ App.streak_of task a' = 0 in
  lowered (App._adapt_interval ev false a)
  /\ lowered (App.checkin_answered ev (Some false) (Some reason) a)
  /\ (App.session_running a = true ->
      lowered (App.mark_procrastination ev (Some reason) a)).
Proof.
  intros task Hne Hmax lowered. subst lowered task. cbv beta.
  destruct (strip_nonempty _ Hne) as (c & t & Hs). rewrite Hs in *.
  assert (Hstep : forall a0, active_task a0 = active_task a -> tasks a0 = tasks a ->
            App.interval_of (String c t) (App._adapt_interval ev false a0)
            = Z.max MIN_INTERVAL (App.interval_of (String c t) a - STEP_DOWN)
            /\ App.streak_of (String c t) (App._adapt_interval ev false a0) = 0).
  { intros a0 Ha Ht.
    assert (Hs0 : PyStr.strip (active_task a0) = String c t) by now rewrite Ha.
    destruct (adapt_interval_step ev false a0 c t Hs0) as (_ & _ & Hi & Hy & _).
    rewrite Hi, Hy. unfold App.interval_of in *. rewrite Ht.
    unfold_constants. split; [lia | reflexivity]. }
  split; [|split].
  - now apply Hstep.
  - unfold App.checkin_answered. now apply Hstep.
  - intros Hrun. unfold App.mark_procrastination. rewrite Hrun. cbn [negb].
    now apply Hstep.
Qed.

Lemma off_task_lowers_interval_witness :
  let a := idle_app "Write" {[ "Write" := mkProfile (Some 4) (Some 1) None ]} in
  App.interval_of "Write" (App._adapt_interval sample_env false a) = 3
  /\ App.streak_of "Write" (App._adapt_interval sample_env false a) = 0.
Proof.
  pose proof (proj1 (off_task_lowers_interval sample_env "mail"
    (idle_app "Write" {[ "Write" := mkProfile (Some 4) (Some 1) None ]})
    ltac:(discriminate) ltac:(vm_compute; discriminate))) as W.
  vm_compute in W |- *. exact W.
Defined.

Lemma on_task_run_active_task (ev : env) (n : nat) :
  forall a c t, PyStr.strip (active_task a) = String c t ->
  active_task (App.on_task_run ev n a) = active_task a.
Proof.
  induction n as [|n IH]; intros a c t Hs; [reflexivity|]. simpl.
  destruct (adapt_interval_step ev true a c t Hs) as (Ha & _).
  rewrite (IH _ c t); [exact Ha | now rewrite Ha].
Qed.

(** The profile after [n] on-task answers, in closed form. *)
Lemma on_task_run_closed_form (ev : env) (n : nat) :
  forall a c t, PyStr.strip (active_task a) = String c t ->
  let task := String c t in
  MIN_INTERVAL <= App.interval_of task a <= MAX_INTERVAL ->
  0 <= App.streak_of task a < STREAK_FOR_STEPUP ->
  App.interval_of task (App.on_task_run ev n a)
  = Z.min MAX_INTERVAL
      (App.interval_of task a
       + STEP_UP * ((App.streak_of task a + Z.of_nat n) / STREAK_FOR_STEPUP))
  /\ App.streak_of task (App.on_task_run ev n a)
     = (App.streak_of task a + Z.of_nat n) mod STREAK_FOR_STEPUP.
Proof.
  induction n as [|n IH]; intros a c t Hs task Hi Hy.
  - simpl App.on_task_run. rewrite Z.add_0_r.
    unfold_constants. rewrite Z.div_small, Z.mod_small by lia. lia.
  - simpl App.on_task_run.
    destruct (adapt_interval_step ev true a c t Hs) as (Ha & _ & Hi1 & Hy1 & _).
    fold task in Hi1, Hy1.
    assert (Hs1 : PyStr.strip (active_task (App._adapt_interval ev true a))
                  = String c t) by now rewrite Ha.
    specialize (IH _ c t Hs1). fold task in IH. cbv zeta in IH.
    rewrite Hi1, Hy1 in IH. rewrite Nat2Z.inj_succ.
    unfold_constants.
    destruct (2 <=? App.streak_of task a + 1) eqn:E.
    + apply Z.leb_le in E.
      assert (Hy0 : App.streak_of task a = 1) by lia. rewrite Hy0 in *.
      destruct IH as [IH1 IH2]; [lia | lia |]. rewrite IH1, IH2.
      replace (1 + Z.succ (Z.of_nat n)) with (0 + Z.of_nat n + 1 * 2) by lia.
      rewrite Z.div_add, Z.mod_add by lia.
      assert (0 <= (0 + Z.of_nat n) / 2) by (apply Z.div_pos; lia). lia.
    + apply Z.leb_gt in E.
      assert (Hy0 : App.streak_of task a = 0) by lia. rewrite Hy0 in *.
      destruct IH as [IH1 IH2]; [lia | lia |]. rewrite IH1, IH2.
      replace (0 + Z.succ (Z.of_nat n)) with (0 + 1 + Z.of_nat n) by lia.
      split; reflexivity.
Qed.

(** C4. Under on-task answers only, the interval of the task stays
    within 3 and 30; an answer raises it exactly when it is the second
    one since the streak was last at 0, then by 2 up to the bound of 30
    and with the streak back at 0; any other answer leaves the interval
    as it is and adds 1 to the streak.  The profile starts as every
    writer leaves it: interval within the bounds, streak below the
    threshold. *)
Theorem on_task_answers_interval (ev : env) (n : nat) (a : app) :
  let task := PyStr.strip (active_task a) in
  task <> EmptyString ->
  MIN_INTERVAL <= App.interval_of task a <= MAX_INTERVAL ->
  0 <= App.streak_of task a < STREAK_FOR_STEPUP ->
  let a_n := App.on_task_run ev n a in
  let a' := App._adapt_interval ev true a_n in
  MIN_INTERVAL <= App.interval_of task a_n <= MAX_INTERVAL
  /\ 0 <= App.streak_of task a_n < STREAK_FOR_STEPUP
  /\ (App.streak_of task a_n + 1 = STREAK_FOR_STEPUP ->
      App.interval_of task a' = Z.min MAX_INTERVAL (App.interval_of task a_n + STEP_UP)
      /\ App.streak_of task a' = 0)
  /\ (App.streak_of task a_n + 1 < STREAK_FOR_STEPUP ->
      App.interval_of task a' = App.interval_of task a_n
      /\ App.streak_of task a' = App.streak_of task a_n + 1)
  /\ App.interval_of task a_n
     = Z.min MAX_INTERVAL
         (App.interval_of task a
          + STEP_UP * ((App.streak_of task a + Z.of_nat n) / STREAK_FOR_STEPUP))
  /\ App.streak_of task a_n
     = (App.streak_of task a + Z.of_nat n) mod STREAK_FOR_STEPUP.
Proof.
  intros task Hne Hi Hy a_n a'. subst a' a_n task.
  destruct (strip_nonempty _ Hne) as (c & t & Hs). rewrite Hs in *.
  destruct (on_task_run_closed_form ev n a c t Hs Hi Hy) as [Ci Cy].
  assert (Hs_n : PyStr.strip (active_task (App.on_task_run ev n a)) = String c t)
    by now rewrite (on_task_run_active_task ev n a c t Hs).
  destruct (adapt_interval_step ev true _ c t Hs_n) as (_ & _ & Hi1 & Hy1 & _).
  rewrite Hi1, Hy1.
  assert (Bi : MIN_INTERVAL <= App.interval_of (String c t) (App.on_task_run ev n a)
               <= MAX_INTERVAL).
  { rewrite Ci. unfold_constants.
    assert (0 <= (App.streak_of (String c t) a + Z.of_nat n) / 2)
      by (apply Z.div_pos; lia).
    lia. }
  assert (By : 0 <= App.streak_of (String c t) (App.on_task_run ev n a)
               < STREAK_FOR_STEPUP).
  { rewrite Cy. apply Z.mod_pos_bound. reflexivity. }
  split; [exact Bi|]. split; [exact By|].
  split; [|split; [|split; [exact Ci | exact Cy]]]; intros E; unfold_constants.
  - destruct (2 <=? _) eqn:E2; [split; [lia | reflexivity]|].
    apply Z.leb_gt in E2. lia.
  - destruct (2 <=? _) eqn:E2; [|split; reflexivity].
    apply Z.leb_le in E2. lia.
Qed.

Lemma on_task_answers_interval_witness :
  let a := idle_app "Write" {[ "Write" := mkProfile (Some 27) (Some 0) None ]} in
  App.interval_of "Write" (App.on_task_run sample_env 5 a) = 30
  /\ App.streak_of "Write" (App.on_task_run sample_env 5 a) = 1.
Proof.
  pose proof (on_task_answers_interval sample_env 5
    (idle_app "Write" {[ "Write" := mkProfile (Some 27) (Some 0) None ]})
    ltac:(discriminate) ltac:(vm_compute; split; discriminate)
    ltac:(vm_compute; split; [discriminate | reflexivity])) as W.
  vm_compute in W |- *. tauto.
Defined.

(** C2, as stated, fails: an adaptation event is also appended when the
    step leaves the interval where it was.  With the interval at 30 and
    one on-task answer on the streak, the next on-task answer logs
    [interval_adapt_up] with [interval_min=30]. *)
Lemma adapt_interval_logs_at_the_bound :
  ~ (forall ev on_task a,
       logged_adaptation ev on_task a <->
       App.interval_of (PyStr.strip (active_task a)) (App._adapt_interval ev on_task a)
       <> App.interval_of (PyStr.strip (active_task a)) a).
Proof.
  intros H.
  destruct (H sample_env true app_at_upper_bound) as [Hlog _].
  apply Hlog; [|vm_compute; reflexivity].
  eexists. split; [vm_compute; reflexivity|]. left. reflexivity.
Qed.

(** C2, amended.  [_adapt_interval] appends exactly one event,
    [interval_adapt_up] or [interval_adapt_down] with the new interval
    in its note, when the task is not empty and the answer is off-task
    or brings the streak to the threshold, and appends nothing
    otherwise; whether the clamped interval differs from the old one
    plays no part.  Every step that changes the interval is therefore
    logged. *)
Theorem adapt_interval_logging (ev : env) (on_task : bool) (a : app) :
  let task := PyStr.strip (active_task a) in
  let a' := App._adapt_interval ev on_task a in
  log a' =
    (log a ++
     if App.adapts on_task a then
       [mkLine (now_iso ev)
          (if on_task then "interval_adapt_up" else "interval_adapt_down") task
          (if App.session_running a then App.int_of_float (session_elapsed a)
           else 0)
          ("interval_min=" +:+ App.str_of_int (App.interval_of task a'))]
     else [])%list
  /\ (App.interval_of task a' <> App.interval_of task a ->
      App.adapts on_task a = true).
Proof.
  intros task a'. subst a' task.
  destruct (PyStr.strip (active_task a)) as [|c t] eqn:Hs.
  - unfold App._adapt_interval, App.adapts. rewrite Hs. cbn.
    rewrite app_nil_r. split; [reflexivity | congruence].
  - destruct (adapt_interval_step ev on_task a c t Hs) as (_ & _ & Hi & _ & Hl).
    split; [exact Hl|]. rewrite Hi. unfold App.adapts. rewrite Hs.
    replace (String.eqb (String c t) "") with false by reflexivity.
    destruct on_task; [|reflexivity].
    destruct (STREAK_FOR_STEPUP <=? _); [reflexivity | congruence].
Qed.

Lemma adapt_interval_logging_witness :
  let a := idle_app "Write" {[ "Write" := mkProfile (Some 10) (Some 1) None ]} in
  App.interval_of "Write" (App._adapt_interval sample_env true a) = 12
  /\ App.adapts true a = true.
Proof.
  split; [reflexivity|].
  apply (proj2 (adapt_interval_logging sample_env true
    (idle_app "Write" {[ "Write" := mkProfile (Some 10) (Some 1) None ]}))).
  vm_compute. discriminate.
Defined.

(** ** Sorting *)

Section SortFacts.
Context {A : Type} (keeps : A -> A -> bool).

Lemma insert_sorted_perm (x : A) (l : list A) :
Permutation (insert_sorted keeps x l) (x :: l).
Proof.
induction l as [|y l IH]; simpl; [reflexivity|].
destruct (keeps y x); [|reflexivity].
rewrite IH. apply perm_swap.
Qed.

Lemma fold_insert_perm (l acc : list A) :
Permutation (List.fold_left (fun acc x => insert_sorted keeps x acc) l acc)
(l ++ acc).
Proof.
revert acc. induction l as [|x l IH]; intros acc; simpl; [reflexivity|].
rewrite IH, insert_sorted_perm. symmetry. apply Permutation_middle.
Qed.

(** Sorting rearranges; it neither drops nor repeats an element. *)
Lemma stable_sort_perm (l : list A) : Permutation (stable_sort keeps l) l.
Proof.
unfold stable_sort. rewrite fold_insert_perm. now rewrite app_nil_r.
Qed.

Lemma stable_sort_In (x : A) (l : list A) :
In x (stable_sort keeps l) <-> In x l.
Proof.
split; apply Permutation_in; [|symmetry]; apply stable_sort_perm.
Qed.
End SortFacts.

(** ** Sessions by task *)

Lemma sum_Z_app (l1 l2 : list Z) :
  StatsEngine.sum_Z (l1 ++ l2) = StatsEngine.sum_Z l1 + StatsEngine.sum_Z l2.
Proof.
  unfold StatsEngine.sum_Z. induction l1 as [|x l1 IH]; simpl; [reflexivity|].
  rewrite IH. lia.
Qed.

Lemma len_app {A} (l1 l2 : list A) :
  StatsEngine.len (l1 ++ l2) = StatsEngine.len l1 + StatsEngine.len l2.
Proof. unfold StatsEngine.len. rewrite length_app. lia. Qed.

Lemma len_nonneg {A} (l : list A) : 0 <= StatsEngine.len l.
Proof. unfold StatsEngine.len. lia. Qed.

Lemma count_of_app (kind t : string) (l1 l2 : list event) :
  StatsEngine.count_of kind t (l1 ++ l2)
  = StatsEngine.count_of kind t l1 + StatsEngine.count_of kind t l2.
Proof.
  unfold StatsEngine.count_of, StatsEngine.events_of.
  now rewrite List.filter_app, len_app.
Qed.

Lemma secs_of_app (kind t : string) (l1 l2 : list event) :
  StatsEngine.secs_of kind t (l1 ++ l2)
  = StatsEngine.secs_of kind t l1 + StatsEngine.secs_of kind t l2.
Proof.
  unfold StatsEngine.secs_of, StatsEngine.events_of.
  now rewrite List.filter_app, List.map_app, sum_Z_app.
Qed.

Lemma count_of_nonneg (kind t : string) (l : list event) :
  0 <= StatsEngine.count_of kind t l.
Proof. apply len_nonneg. Qed.

Lemma count_of_one (kind t : string) (e : event) :
  StatsEngine.count_of kind t [e]
  = if String.eqb (e_event e) kind && String.eqb (StatsEngine.task_label e) t
    then 1 else 0.
Proof.
  unfold StatsEngine.count_of, StatsEngine.events_of. simpl.
  now destruct (_ && _).
Qed.

Lemma secs_of_one (kind t : string) (e : event) :
  StatsEngine.secs_of kind t [e]
  = if String.eqb (e_event e) kind && String.eqb (StatsEngine.task_label e) t
    then e_secs e else 0.
Proof.
  unfold StatsEngine.secs_of, StatsEngine.events_of. simpl.
  destruct (_ && _); simpl; lia.
Qed.

Lemma secs_of_zero (kind t : string) (l : list event) :
  StatsEngine.count_of kind t l = 0 -> StatsEngine.secs_of kind t l = 0.
Proof.
  unfold StatsEngine.count_of, StatsEngine.secs_of, StatsEngine.len.
  destruct (StatsEngine.events_of kind t l); simpl; [reflexivity | lia].
Qed.

Lemma rec_of_unseen (t : string) (l : list event) :
  StatsEngine.seen t l = false -> StatsEngine.rec_of t l = mkRec 0 0 0.
Proof.
  unfold StatsEngine.seen, StatsEngine.rec_of. intros H. apply Z.ltb_ge in H.
  pose proof (count_of_nonneg "stop" t l). pose proof (count_of_nonneg "cancel" t l).
  assert (Hs : StatsEngine.count_of "stop" t l = 0) by lia.
  assert (Hc : StatsEngine.count_of "cancel" t l = 0) by lia.
  now rewrite (secs_of_zero _ _ _ Hs), Hs, Hc.
Qed.

Lemma by_lookup_update_eq (t : string) (f : task_rec -> task_rec)
    (l : list (string * task_rec)) :
  StatsEngine.by_lookup t (StatsEngine.by_update t f l)
  = Some (f (match StatsEngine.by_lookup t l with
             | Some r => r
             | None => mkRec 0 0 0
             end)).
Proof.
  induction l as [|[k r] l IH]; simpl.
  - now rewrite String.eqb_refl.
  - destruct (String.eqb k t) eqn:E; simpl; rewrite E; [reflexivity | exact IH].
Qed.

Lemma by_lookup_update_ne (t t' : string) (f : task_rec -> task_rec)
    (l : list (string * task_rec)) :
  t <> t' ->
  StatsEngine.by_lookup t' (StatsEngine.by_update t f l) = StatsEngine.by_lookup t' l.
Proof.
  intros Hne. induction l as [|[k r] l IH]; simpl.
  - apply String.eqb_neq in Hne. now rewrite Hne.
  - destruct (String.eqb k t) eqn:E; simpl.
    + apply String.eqb_eq in E. subst k.
      apply String.eqb_neq in Hne. now rewrite Hne.
    + now rewrite IH.
Qed.

Lemma by_update_keys (t k : string) (f : task_rec -> task_rec)
    (l : list (string * task_rec)) :
  In k (List.map fst (StatsEngine.by_update t f l)) <-> k = t \/ In k (List.map fst l).
Proof.
  induction l as [|[k0 r] l IH]; simpl.
  - intuition.
  - destruct (String.eqb k0 t) eqn:E; simpl.
    + apply String.eqb_eq in E. subst k0. intuition.
    + rewrite IH. intuition.
Qed.

Lemma by_update_NoDup (t : string) (f : task_rec -> task_rec)
    (l : list (string * task_rec)) :
  List.NoDup (List.map fst l) -> List.NoDup (List.map fst (StatsEngine.by_update t f l)).
Proof.
  induction l as [|[k0 r] l IH]; simpl; intros H.
  - constructor; [intros [] | constructor].
  - inversion H as [|? ? Hnin Hnd]; subst.
    destruct (String.eqb k0 t) eqn:E; simpl.
    + now constructor.
    + constructor; [|now apply IH].
      rewrite by_update_keys. intros [->|Hin]; [|contradiction].
      now rewrite String.eqb_refl in E.
Qed.

Lemma by_lookup_In (t : string) (r : task_rec) (l : list (string * task_rec)) :
  List.NoDup (List.map fst l) ->
  (In (t, r) l <-> StatsEngine.by_lookup t l = Some r).
Proof.
  induction l as [|[k0 r0] l IH]; simpl; intros H.
  - split; [contradiction | discriminate].
  - inversion H as [|? ? Hnin Hnd]; subst.
    destruct (String.eqb k0 t) eqn:E.
    + apply String.eqb_eq in E. subst k0. split.
      * intros [Heq|Hin]; [congruence|].
        elim Hnin. apply (List.in_map fst) in Hin. exact Hin.
      * intros Heq. left. congruence.
    + rewrite <- (IH Hnd). split; [|tauto].
      intros [Heq|Hin]; [|exact Hin].
      inversion Heq; subst. now rewrite String.eqb_refl in E.
Qed.


Lemma kind_of_other (e : event) (kind kind' : string) :
  String.eqb (e_event e) kind = true -> String.eqb kind kind' = false ->
  String.eqb (e_event e) kind' = false.
Proof. intros H Hk. apply String.eqb_eq in H. now rewrite H. Qed.

(** The accumulators after the first loop: one per task that has a stop
    or a cancel, holding the counts of that task. *)
Lemma by_step_fold (evs : list event) :
  let by_ := List.fold_left StatsEngine.by_step evs [] in
  List.NoDup (List.map fst by_)
  /\ forall t, StatsEngine.by_lookup t by_
               = if StatsEngine.seen t evs then Some (StatsEngine.rec_of t evs)
                 else None.
Proof.
  induction evs as [|e evs IH] using List.rev_ind; [split; [constructor | reflexivity]|].
  cbv zeta in *. rewrite List.fold_left_app. simpl.
  destruct IH as [Hnd Hlk].
  set (by_ := List.fold_left StatsEngine.by_step evs []) in *.
  assert (Hdef : forall t, match StatsEngine.by_lookup t by_ with
                           | Some r => r
                           | None => mkRec 0 0 0
                           end = StatsEngine.rec_of t evs).
  { intros t. rewrite Hlk. destruct (StatsEngine.seen t evs) eqn:E; [reflexivity|].
    symmetry. now apply rec_of_unseen. }
  unfold StatsEngine.by_step.
  assert (Hrec : forall t, StatsEngine.rec_of t (evs ++ [e])
     = mkRec (StatsEngine.count_of "stop" t evs + StatsEngine.count_of "stop" t [e])
             (StatsEngine.secs_of "stop" t evs + StatsEngine.secs_of "stop" t [e])
             (StatsEngine.count_of "cancel" t evs + StatsEngine.count_of "cancel" t [e])).
  { intros t. unfold StatsEngine.rec_of. now rewrite !count_of_app, secs_of_app. }
  assert (Hseen : forall t, StatsEngine.seen t (evs ++ [e])
     = (0 <? StatsEngine.count_of "stop" t evs + StatsEngine.count_of "stop" t [e]
             + (StatsEngine.count_of "cancel" t evs
                + StatsEngine.count_of "cancel" t [e]))).
  { intros t. unfold StatsEngine.seen. now rewrite !count_of_app. }
  destruct (String.eqb (e_event e) "stop") eqn:Es;
    [|destruct (String.eqb (e_event e) "cancel") eqn:Ec].
  - pose proof (kind_of_other e "stop" "cancel" Es eq_refl) as Ec.
    split; [now apply by_update_NoDup|]. intros t.
    rewrite Hseen, Hrec, !count_of_one, secs_of_one, Es, Ec. cbn [andb].
    pose proof (count_of_nonneg "stop" t evs).
    pose proof (count_of_nonneg "cancel" t evs).
    destruct (String.eqb (StatsEngine.task_label e) t) eqn:Et.
    + apply String.eqb_eq in Et. subst t.
      rewrite by_lookup_update_eq, Hdef.
      replace (0 <? _) with true by (symmetry; apply Z.ltb_lt; lia).
      unfold StatsEngine.count_stop, StatsEngine.rec_of. cbn.
      now rewrite !Z.add_0_r.
    + apply String.eqb_neq in Et. rewrite by_lookup_update_ne by exact Et.
      rewrite Hlk. unfold StatsEngine.seen, StatsEngine.rec_of.
      now rewrite !Z.add_0_r.
  - split; [now apply by_update_NoDup|]. intros t.
    rewrite Hseen, Hrec, !count_of_one, secs_of_one, Es, Ec. cbn [andb].
    pose proof (count_of_nonneg "stop" t evs).
    pose proof (count_of_nonneg "cancel" t evs).
    destruct (String.eqb (StatsEngine.task_label e) t) eqn:Et.
    + apply String.eqb_eq in Et. subst t.
      rewrite by_lookup_update_eq, Hdef.
      replace (0 <? _) with true by (symmetry; apply Z.ltb_lt; lia).
      unfold StatsEngine.count_cancel, StatsEngine.rec_of. cbn.
      now rewrite !Z.add_0_r.
    + apply String.eqb_neq in Et. rewrite by_lookup_update_ne by exact Et.
      rewrite Hlk. unfold StatsEngine.seen, StatsEngine.rec_of.
      now rewrite !Z.add_0_r.
  - split; [exact Hnd|]. intros t.
    rewrite Hseen, Hrec, !count_of_one, secs_of_one, Es, Ec. cbn [andb].
    rewrite Hlk. unfold StatsEngine.seen, StatsEngine.rec_of.
    now rewrite !Z.add_0_r.
Qed.

(** The row that [sessions_by_task_in_range] builds for [t]. *)
Lemma make_row_rec_of (t : string) (evs : list event) :
  StatsEngine.make_row (t, StatsEngine.rec_of t evs)
  = mkTaskRow t (StatsEngine.count_of "stop" t evs) (StatsEngine.secs_of "stop" t evs)
      (if 0 <? StatsEngine.count_of "stop" t evs
       then Some (true_div (StatsEngine.secs_of "stop" t evs)
                           (StatsEngine.count_of "stop" t evs))
       else None)
      (StatsEngine.count_of "cancel" t evs).
Proof. reflexivity. Qed.

Lemma make_row_task (tr : string * task_rec) :
  row_task (StatsEngine.make_row tr) = fst tr.
Proof. now destruct tr. Qed.

(** The rows of the result: one for every task with a stop or a cancel
    in the range, built from the counts of that task. *)
Lemma sessions_by_task_rows (events : list event) (s e : string) (r : task_row) :
  let evs := StatsEngine.events_in_range events s e in
  In r (StatsEngine.sessions_by_task_in_range events s e)
  <-> StatsEngine.seen (row_task r) evs = true
      /\ r = StatsEngine.make_row (row_task r, StatsEngine.rec_of (row_task r) evs).
Proof.
  intros evs. unfold StatsEngine.sessions_by_task_in_range. fold evs.
  rewrite stable_sort_In, List.in_map_iff.
  destruct (by_step_fold evs) as [Hnd Hlk]. cbv zeta in Hlk, Hnd.
  split.
  - intros ([t rc] & Hr & Hin). subst r. rewrite make_row_task. simpl fst.
    apply (by_lookup_In t rc _ Hnd) in Hin. rewrite Hlk in Hin.
    destruct (StatsEngine.seen t evs); [|discriminate].
    split; [reflexivity | congruence].
  - intros [Hseen Hr]. exists (row_task r, StatsEngine.rec_of (row_task r) evs).
    split; [now symmetry|]. apply (by_lookup_In _ _ _ Hnd).
    now rewrite Hlk, Hseen.
Qed.

Lemma sessions_by_task_NoDup (events : list event) (s e : string) :
  List.NoDup (List.map row_task (StatsEngine.sessions_by_task_in_range events s e)).
Proof.
  unfold StatsEngine.sessions_by_task_in_range.
  set (evs := StatsEngine.events_in_range events s e).
  destruct (by_step_fold evs) as [Hnd _]. cbv zeta in Hnd.
  eapply Permutation_NoDup.
  - apply Permutation_map. symmetry. apply stable_sort_perm.
  - rewrite List.map_map.
    erewrite List.map_ext; [exact Hnd|]. intros a. apply make_row_task.
Qed.

Lemma find_row_In (t : string) (rows : list task_row) (r : task_row) :
  List.NoDup (List.map row_task rows) -> In r rows -> row_task r = t ->
  StatsEngine.find_row t rows = Some r.
Proof.
  unfold StatsEngine.find_row.
  induction rows as [|r0 rows IH]; simpl; intros Hnd Hin Ht; [contradiction|].
  inversion Hnd as [|? ? Hnin Hnd']; subst.
  destruct Hin as [->|Hin].
  - now rewrite String.eqb_refl.
  - destruct (String.eqb (row_task r0) (row_task r)) eqn:E; [|now apply IH].
    apply String.eqb_eq in E. elim Hnin. rewrite E. now apply List.in_map.
Qed.

Lemma find_row_None (t : string) (rows : list task_row) :
  (forall r, In r rows -> row_task r <> t) -> StatsEngine.find_row t rows = None.
Proof.
  unfold StatsEngine.find_row. intros H.
  destruct (List.find _ rows) eqn:E; [|reflexivity].
  apply List.find_some in E. destruct E as [Hin Ht].
  apply String.eqb_eq in Ht. now elim (H _ Hin).
Qed.

(** The row reported for [t], found by its task name. *)
Lemma find_row_sessions_by_task (events : list event) (s e t : string) :
  let evs := StatsEngine.events_in_range events s e in
  StatsEngine.find_row t (StatsEngine.sessions_by_task_in_range events s e)
  = if StatsEngine.seen t evs
    then Some (StatsEngine.make_row (t, StatsEngine.rec_of t evs))
    else None.
Proof.
  intros evs. destruct (StatsEngine.seen t evs) eqn:E.
  - apply find_row_In; [apply sessions_by_task_NoDup | | reflexivity].
    apply sessions_by_task_rows. fold evs. simpl row_task. now split.
  - apply find_row_None. intros r Hin Ht.
    apply sessions_by_task_rows in Hin. fold evs in Hin. rewrite Ht in Hin.
    destruct Hin as [Hs _]. congruence.
Qed.

Lemma fold_left_filter_skip {A B} (f : A -> B -> A) (p : B -> bool) (l : list B) :
  (forall acc x, p x = false -> f acc x = acc) ->
  forall acc, List.fold_left f (List.filter p l) acc = List.fold_left f l acc.
Proof.
  intros H. induction l as [|x l IH]; intros acc; simpl; [reflexivity|].
  destruct (p x) eqn:E; simpl; [apply IH|]. rewrite (H acc x E). apply IH.
Qed.

Lemma filter_comm {A} (p q : A -> bool) (l : list A) :
  List.filter p (List.filter q l) = List.filter q (List.filter p l).
Proof.
  induction l as [|x l IH]; simpl; [reflexivity|].
  destruct (p x) eqn:Ep, (q x) eqn:Eq; simpl; rewrite ?Ep, ?Eq, IH; reflexivity.
Qed.

(** Events that are neither a stop nor a cancel can be removed from the
    log without any effect on the result. *)
Lemma sessions_by_task_ignores (p : event -> bool) (events : list event)
    (s e : string) :
  (forall x, StatsEngine.is_end x = true -> p x = true) ->
  StatsEngine.sessions_by_task_in_range (List.filter p events) s e
  = StatsEngine.sessions_by_task_in_range events s e.
Proof.
  intros Hp. unfold StatsEngine.sessions_by_task_in_range, StatsEngine.events_in_range.
  rewrite filter_comm, fold_left_filter_skip; [reflexivity|].
  intros acc x Hx. unfold StatsEngine.by_step.
  destruct (String.eqb (e_event x) "stop") eqn:Es.
  - specialize (Hp x). unfold StatsEngine.is_end in Hp. rewrite Es in Hp.
    rewrite Hp in Hx by reflexivity. discriminate.
  - destruct (String.eqb (e_event x) "cancel") eqn:Ec; [|reflexivity].
    specialize (Hp x). unfold StatsEngine.is_end in Hp. rewrite Es, Ec in Hp.
    rewrite Hp in Hx by reflexivity. discriminate.
Qed.

Lemma sessions_of_count (events : list event) (s e t : string) :
  StatsEngine.sessions_of t (StatsEngine.sessions_by_task_in_range events s e)
  = StatsEngine.count_of "stop" t (StatsEngine.events_in_range events s e).
Proof.
  unfold StatsEngine.sessions_of. rewrite find_row_sessions_by_task.
  destruct (StatsEngine.seen _ _) eqn:E; [reflexivity|].
  apply rec_of_unseen in E. unfold StatsEngine.rec_of in E. congruence.
Qed.

Lemma cancels_of_count (events : list event) (s e t : string) :
  StatsEngine.cancels_of t (StatsEngine.sessions_by_task_in_range events s e)
  = StatsEngine.count_of "cancel" t (StatsEngine.events_in_range events s e).
Proof.
  unfold StatsEngine.cancels_of. rewrite find_row_sessions_by_task.
  destruct (StatsEngine.seen _ _) eqn:E; [reflexivity|].
  apply rec_of_unseen in E. unfold StatsEngine.rec_of in E. congruence.
Qed.

Lemma events_in_range_insert (l1 l2 : list event) (c : event) (s e : string) :
  StatsEngine.in_range s e c = true ->
  StatsEngine.events_in_range (l1 ++ c :: l2) s e
  = (StatsEngine.events_in_range l1 s e ++ [c]
     ++ StatsEngine.events_in_range l2 s e)%list.
Proof.
  intros H. unfold StatsEngine.events_in_range, StatsEngine.in_range in *.
  rewrite List.filter_app. simpl. now rewrite H.
Qed.

Lemma events_in_range_app (l1 l2 : list event) (s e : string) :
  StatsEngine.events_in_range (l1 ++ l2) s e
  = (StatsEngine.events_in_range l1 s e ++ StatsEngine.events_in_range l2 s e)%list.
Proof. apply List.filter_app. Qed.

(** C6. Every row of [sessions_by_task_in_range] counts as sessions the
    stop events of its task in the range and nothing else; the total is
    the sum of their seconds and the average is that total over that
    count, or [None] without a stop; the cancel events of the task make
    up the cancel count.  Removing the [session_complete] records from
    the log changes nothing.  One more cancel event in the range leaves
    the session count of every task as it was and adds 1 to the cancel
    count of its own task. *)
Theorem sessions_by_task_counts (events : list event) (s e : string) :
  let evs := StatsEngine.events_in_range events s e in
  let rows := StatsEngine.sessions_by_task_in_range events s e in
  (forall r, In r rows ->
     row_sessions r = StatsEngine.count_of "stop" (row_task r) evs
     /\ row_total_secs r = StatsEngine.secs_of "stop" (row_task r) evs
     /\ row_avg r = (if 0 <? row_sessions r
                     then Some (true_div (row_total_secs r) (row_sessions r))
                     else None)
     /\ row_cancels r = StatsEngine.count_of "cancel" (row_task r) evs)
  /\ StatsEngine.sessions_by_task_in_range
       (List.filter (fun x => negb (String.eqb (e_event x) "session_complete")) events)
       s e = rows
  /\ (forall (l1 l2 : list event) (c : event) (t : string),
        events = (l1 ++ l2)%list ->
        e_event c = "cancel" ->
        StatsEngine.in_range s e c = true ->
        let rows' := StatsEngine.sessions_by_task_in_range (l1 ++ c :: l2) s e in
        StatsEngine.sessions_of t rows' = StatsEngine.sessions_of t rows
        /\ StatsEngine.cancels_of (StatsEngine.task_label c) rows'
           = StatsEngine.cancels_of (StatsEngine.task_label c) rows + 1).
Proof.
  intros evs rows. split; [|split].
  - intros r Hin. apply sessions_by_task_rows in Hin. fold evs in Hin.
    destruct Hin as [_ Hr]. rewrite make_row_rec_of in Hr.
    rewrite Hr. cbn [row_sessions row_total_secs row_avg row_cancels row_task].
    repeat split; reflexivity.
  - apply sessions_by_task_ignores. intros x Hx. unfold StatsEngine.is_end in Hx.
    apply Bool.orb_true_iff in Hx.
    destruct Hx as [Hx|Hx]; apply String.eqb_eq in Hx; now rewrite Hx.
  - intros l1 l2 c t -> Hc Hr rows'. subst rows' rows.
    rewrite !sessions_of_count, !cancels_of_count.
    rewrite (events_in_range_insert _ _ _ _ _ Hr), events_in_range_app.
    rewrite !count_of_app, !count_of_one, Hc. cbn. rewrite String.eqb_refl. lia.
Qed.

Lemma sessions_by_task_counts_witness :
  let rows := StatsEngine.sessions_by_task_in_range cancel_events
                "2024-01-05" "2024-01-05" in
  let rows' := StatsEngine.sessions_by_task_in_range (cancel_events ++ [extra_cancel])
                 "2024-01-05" "2024-01-05" in
  StatsEngine.sessions_of "Write" rows = 1
  /\ StatsEngine.sessions_of "Write" rows' = 1
  /\ StatsEngine.cancels_of "Write" rows' = StatsEngine.cancels_of "Write" rows + 1.
Proof.
  pose proof (proj2 (proj2 (sessions_by_task_counts cancel_events
                              "2024-01-05" "2024-01-05"))
                cancel_events [] extra_cancel "Write"
                ltac:(now rewrite app_nil_r) eq_refl eq_refl) as W.
  vm_compute in W |- *. destruct W as [W1 W2]. repeat split; assumption.
Defined.

Lemma count_of_pos (kind t : string) (evs : list event) (c : event) :
  In c evs -> e_event c = kind -> StatsEngine.task_label c = t ->
  0 < StatsEngine.count_of kind t evs.
Proof.
  intros Hin Hk Ht.
  assert (H : In c (StatsEngine.events_of kind t evs)).
  { apply List.filter_In. split; [exact Hin|].
    now rewrite Hk, Ht, !String.eqb_refl. }
  unfold StatsEngine.count_of, StatsEngine.len.
  destruct (StatsEngine.events_of kind t evs); [contradiction | simpl; lia].
Qed.

Lemma count_of_none (kind t : string) (evs : list event) :
  (forall x, In x evs -> e_event x = kind -> StatsEngine.task_label x <> t) ->
  StatsEngine.count_of kind t evs = 0.
Proof.
  intros H. unfold StatsEngine.count_of, StatsEngine.len.
  destruct (StatsEngine.events_of kind t evs) as [|x l] eqn:E; [reflexivity|].
  assert (Hx : In x (StatsEngine.events_of kind t evs)) by (rewrite E; now left).
  apply List.filter_In in Hx. destruct Hx as [Hin Hb].
  apply Bool.andb_true_iff in Hb. destruct Hb as [Hk Ht].
  apply String.eqb_eq in Hk, Ht. now elim (H x Hin Hk).
Qed.

(** C10. A task with a cancel event and no stop event in the range has
    a row all the same: no session, no seconds, no average, and its
    cancel events counted. *)
Theorem cancel_only_task_row (events : list event) (s e t : string) (c : event) :
  let evs := StatsEngine.events_in_range events s e in
  In c evs -> e_event c = "cancel" -> StatsEngine.task_label c = t ->
  (forall x, In x evs -> e_event x = "stop" -> StatsEngine.task_label x <> t) ->
  In (mkTaskRow t 0 0 None (StatsEngine.count_of "cancel" t evs))
     (StatsEngine.sessions_by_task_in_range events s e)
  /\ 0 < StatsEngine.count_of "cancel" t evs.
Proof.
  intros evs Hin Hc Ht Hstop.
  pose proof (count_of_pos "cancel" t evs c Hin Hc Ht) as Hpos.
  pose proof (count_of_none "stop" t evs Hstop) as Hzero.
  split; [|exact Hpos].
  apply sessions_by_task_rows. fold evs. cbn [row_task]. split.
  - unfold StatsEngine.seen. apply Z.ltb_lt. lia.
  - rewrite make_row_rec_of, Hzero, (secs_of_zero _ _ _ Hzero). reflexivity.
Qed.

Lemma cancel_only_task_row_witness :
  In (mkTaskRow "Read" 0 0 None 1)
     (StatsEngine.sessions_by_task_in_range cancel_events "2024-01-05" "2024-01-05").
Proof.
  assert (Hin : In read_cancel
                  (StatsEngine.events_in_range cancel_events "2024-01-05" "2024-01-05")).
  { vm_compute. right. left. reflexivity. }
  assert (Hstop : forall x,
            In x (StatsEngine.events_in_range cancel_events "2024-01-05" "2024-01-05") ->
            e_event x = "stop" -> StatsEngine.task_label x <> "Read").
  { intros x Hx Hs Hl. vm_compute in Hx.
    repeat (destruct Hx as [<-|Hx];
            [vm_compute in Hs; vm_compute in Hl;
             first [discriminate Hs | discriminate Hl]|]).
    contradiction. }
  pose proof (proj1 (cancel_only_task_row cancel_events "2024-01-05" "2024-01-05"
                       "Read" read_cancel Hin eq_refl eq_refl Hstop)) as W.
  vm_compute in W |- *. exact W.
Defined.

(** ** More on loading *)

Lemma load_rows_app (l1 l2 : list csv_row) :
  forall acc, StatsEngine.load_rows acc (l1 ++ l2)
              = bind (StatsEngine.load_rows acc l1)
                     (fun acc' => StatsEngine.load_rows acc' l2).
Proof.
  induction l1 as [|r l1 IH]; intros acc; simpl; [reflexivity|].
  destruct (StatsEngine.load_row r) as [[e|]|x]; simpl; [apply IH | apply IH | reflexivity].
Qed.

(** X1. A record whose timestamp does not parse is skipped wherever it
    stands: the log loads as it would without the record. *)
Theorem load_skips_malformed_timestamp (l1 l2 : list csv_row) (r : csv_row) :
  parse_ts (or_empty (r_timestamp r)) = None ->
  StatsEngine.load (l1 ++ r :: l2) = StatsEngine.load (l1 ++ l2).
Proof.
  intros H. unfold StatsEngine.load. rewrite !load_rows_app.
  destruct (StatsEngine.load_rows [] l1) as [acc|x]; simpl; [|reflexivity].
  unfold StatsEngine.load_row. now rewrite H.
Qed.

Lemma load_skips_malformed_timestamp_witness :
  StatsEngine.load bad_timestamp_log
  = StatsEngine.load [ row "2024-01-05 10:00:00" "start" "Write" "0"
                           "target_min=30 interval_min=10" ].
Proof.
  apply (load_skips_malformed_timestamp
           [ row "2024-01-05 10:00:00" "start" "Write" "0"
                 "target_min=30 interval_min=10" ] []
           (row "2024-01-05 10h30" "stop" "Write" "1800"
                "target_min=30 interval_min=10")).
  reflexivity.
Defined.

Lemma load_rows_parsed (rows : list csv_row) :
  forall acc evs, StatsEngine.load_rows acc rows = Ok evs ->
                  evs = (acc ++ StatsEngine.parsed_events rows)%list.
Proof.
  induction rows as [|r rows IH]; intros acc evs H; simpl in *.
  - rewrite app_nil_r. congruence.
  - unfold StatsEngine.parsed_events in *. simpl.
    destruct (StatsEngine.load_row r) as [[e|]|x]; simpl in *.
    + rewrite (IH _ _ H). now rewrite <- app_assoc.
    + exact (IH _ _ H).
    + discriminate.
Qed.

Section Lex.
Let lex :=
fix lex (x y : list Z) : bool :=
match x, y with
| u :: x', v :: y' => (u <? v) || ((u =? v) && lex x' y')
| _, _ => true
end.

Lemma lex_total (x : list Z) : forall y, lex x y = false -> lex y x = true.
Proof.
induction x as [|u x IH]; intros [|v y]; simpl; try discriminate.
intros H. apply Bool.orb_false_iff in H. destruct H as [H1 H2].
apply Z.ltb_ge in H1.
destruct (Z.eqb_spec u v) as [->|Hne].
- simpl in H2. rewrite (IH _ H2), Z.eqb_refl. apply Bool.orb_true_r.
- replace (v <? u) with true; [reflexivity|]. symmetry. apply Z.ltb_lt. lia.
Qed.

Lemma lex_trans (x : list Z) :
forall y z, List.length x = List.length y ->
lex x y = true -> lex y z = true -> lex x z = true.
Proof.
induction x as [|u x IH]; intros [|v y] [|w z] Hl; simpl; try discriminate; trivial.
intros H1 H2. injection Hl as Hl.
apply Bool.orb_true_iff in H1, H2. apply Bool.orb_true_iff.
destruct H1 as [H1|H1], H2 as [H2|H2].
- left. apply Z.ltb_lt in H1, H2. apply Z.ltb_lt. lia.
- apply Bool.andb_true_iff in H2. destruct H2 as [E _].
apply Z.eqb_eq in E. subst w. now left.
- apply Bool.andb_true_iff in H1. destruct H1 as [E _].
apply Z.eqb_eq in E. subst v. now left.
- apply Bool.andb_true_iff in H1, H2.
destruct H1 as [E1 L1], H2 as [E2 L2].
apply Z.eqb_eq in E1, E2. subst v w. right.
rewrite Z.eqb_refl. simpl. now apply (IH y z).
Qed.

Lemma datetime_leb_total (a b : datetime) :
datetime_leb a b = false -> datetime_leb b a = true.
Proof.
intros H.
exact (lex_total [year a; month a; day_of_month a; hour a; minute a; second a]
 [year b; month b; day_of_month b; hour b; minute b; second b] H).
Qed.

Lemma datetime_leb_trans (a b c : datetime) :
datetime_leb a b = true -> datetime_leb b c = true -> datetime_leb a c = true.
Proof.
exact (lex_trans [year a; month a; day_of_month a; hour a; minute a; second a]
 [year b; month b; day_of_month b; hour b; minute b; second b]
 [year c; month c; day_of_month c; hour c; minute c; second c] eq_refl).
Qed.
End Lex.

Section SortOrder.
Context {A : Type} (keeps : A -> A -> bool).
Hypothesis keeps_total : forall x y, keeps x y = false -> keeps y x = true.

Let R (x y : A) : Prop := keeps x y = true.

Lemma insert_sorted_HdRel (a x : A) (l : list A) :
R a x -> HdRel R a l -> HdRel R a (insert_sorted keeps x l).
Proof.
intros Hax Hl. destruct l as [|y l]; simpl; [now constructor|].
destruct (keeps y x); constructor; [now inversion Hl | exact Hax].
Qed.

Lemma insert_sorted_Sorted (x : A) (l : list A) :
Sorted R l -> Sorted R (insert_sorted keeps x l).
Proof.
induction l as [|y l IH]; simpl; intros Hs.
- repeat constructor.
- inversion Hs as [|? ? Hs' Hhd]; subst.
destruct (keeps y x) eqn:E.
+ constructor; [now apply IH|]. now apply insert_sorted_HdRel.
+ constructor; [exact Hs|]. constructor. now apply keeps_total.
Qed.

Lemma stable_sort_Sorted (l : list A) : Sorted R (stable_sort keeps l).
Proof.
unfold stable_sort.
assert (H : forall acc, Sorted R acc ->
Sorted R (List.fold_left (fun acc x => insert_sorted keeps x acc) l acc)).
{ induction l as [|x l IH]; intros acc Hacc; simpl; [exact Hacc|].
apply IH. now apply insert_sorted_Sorted. }
apply H. constructor.
Qed.

Lemma insert_sorted_last (x : A) (l : list A) :
Forall (fun y => R y x) l -> insert_sorted keeps x l = (l ++ [x])%list.
Proof.
induction 1 as [|y l Hy _ IH]; simpl; [reflexivity|].
unfold R in Hy. now rewrite Hy, IH.
Qed.

Lemma fold_insert_sorted_input (l : list A) :
forall acc, StronglySorted R (acc ++ l) ->
List.fold_left (fun acc x => insert_sorted keeps x acc) l acc = (acc ++ l)%list.
Proof.
induction l as [|x l IH]; intros acc H; simpl; [now rewrite app_nil_r|].
rewrite insert_sorted_last.
- rewrite IH; rewrite <- app_assoc; [reflexivity | exact H].
- clear IH. induction acc as [|a acc IHa]; [constructor|].
simpl in H. inversion H as [|? ? Hs Hall]; subst.
constructor; [|now apply IHa].
rewrite Forall_app in Hall. destruct Hall as [_ Hall].
now inversion Hall.
Qed.

(** A list that is in order already is returned as it is. *)
Lemma stable_sort_sorted_input (l : list A) :
StronglySorted R l -> stable_sort keeps l = l.
Proof. intros H. unfold stable_sort. now rewrite fold_insert_sorted_input. Qed.
End SortOrder.

(** X2. [load] returns the events of the records whose timestamp parses,
    each once, in ascending order of time. *)
Theorem load_sorted_by_time (rows : list csv_row) (evs : list event) :
  StatsEngine.load rows = Ok evs ->
  Permutation evs (StatsEngine.parsed_events rows)
  /\ Sorted StatsEngine.not_later evs.
Proof.
  unfold StatsEngine.load. intros H.
  destruct (StatsEngine.load_rows [] rows) as [l|x] eqn:E; [|discriminate].
  simpl in H. injection H as <-.
  apply load_rows_parsed in E. simpl in E. subst l. split.
  - apply stable_sort_perm.
  - apply (stable_sort_Sorted (fun a b => datetime_leb (e_dt a) (e_dt b))).
    intros x y. apply datetime_leb_total.
Qed.

Lemma load_sorted_by_time_witness :
  Sorted StatsEngine.not_later (events_or_nil (StatsEngine.load cancel_log)).
Proof.
  apply (load_sorted_by_time cancel_log (events_or_nil (StatsEngine.load cancel_log))).
  reflexivity.
Defined.

(** X3. A log whose records are in non-decreasing order of time is loaded
    in file order: records with equal timestamps are not swapped. *)
Theorem load_keeps_file_order (rows : list csv_row) (evs : list event) :
  Sorted StatsEngine.not_later (StatsEngine.parsed_events rows) ->
  StatsEngine.load rows = Ok evs ->
  evs = StatsEngine.parsed_events rows.
Proof.
  unfold StatsEngine.load. intros Hs H.
  destruct (StatsEngine.load_rows [] rows) as [l|x] eqn:E; [|discriminate].
  simpl in H. injection H as <-.
  apply load_rows_parsed in E. simpl in E. subst l.
  apply (stable_sort_sorted_input (fun a b => datetime_leb (e_dt a) (e_dt b))).
  apply Sorted_StronglySorted; [|exact Hs].
  intros a b c. apply datetime_leb_trans.
Qed.

Lemma load_keeps_file_order_witness :
  events_or_nil (StatsEngine.load cancel_log) = StatsEngine.parsed_events cancel_log.
Proof.
  apply (load_keeps_file_order cancel_log (events_or_nil (StatsEngine.load cancel_log))).
  - vm_compute. repeat constructor.
  - reflexivity.
Defined.

(** ** More on the day summary *)

Lemma add_interval_0 (x : Z) (i : option Z) :
  StatsEngine.add_interval x i = x + StatsEngine.add_interval 0 i.
Proof.
  unfold StatsEngine.add_interval. destruct i as [i|]; [|lia].
  destruct (i =? 0); lia.
Qed.

Lemma kind_count_cons (kind : string) (e : event) (evs : list event) :
  StatsEngine.kind_count kind (e :: evs)
  = (if String.eqb (e_event e) kind then 1 else 0) + StatsEngine.kind_count kind evs.
Proof.
  unfold StatsEngine.kind_count, StatsEngine.len. simpl.
  destruct (String.eqb (e_event e) kind); simpl length; lia.
Qed.

Lemma minutes_of_cons (kind : string) (e : event) (evs : list event) :
  StatsEngine.minutes_of kind (e :: evs)
  = (if String.eqb (e_event e) kind then StatsEngine.event_minutes e else 0)
    + StatsEngine.minutes_of kind evs.
Proof.
  unfold StatsEngine.minutes_of. simpl.
  destruct (String.eqb (e_event e) kind); simpl; lia.
Qed.

(** The counters after the loop of [summary_for_day], started from [s0]. *)
Lemma summary_fold (evs : list event) :
  forall s0,
  let s := List.fold_left StatsEngine.summary_step evs s0 in
  on_min s = on_min s0 + StatsEngine.minutes_of "checkin_on_task" evs
  /\ off_min s = off_min s0 + StatsEngine.minutes_of "checkin_off_task" evs
                 + StatsEngine.minutes_of "procrastination" evs
  /\ checkins_on s = checkins_on s0 + StatsEngine.kind_count "checkin_on_task" evs
  /\ checkins_off s = checkins_off s0 + StatsEngine.kind_count "checkin_off_task" evs
  /\ procrastinations s
     = procrastinations s0 + StatsEngine.kind_count "procrastination" evs
  /\ starts s = starts s0 + StatsEngine.kind_count "start" evs
  /\ stops s = stops s0 + StatsEngine.kind_count "stop" evs
               + StatsEngine.kind_count "session_complete" evs
  /\ cancels s = cancels s0 + StatsEngine.kind_count "cancel" evs
  /\ completes s = completes s0 + StatsEngine.kind_count "session_complete" evs
  /\ breaks s = breaks s0 + StatsEngine.kind_count "break" evs.
Proof.
  induction evs as [|e evs IH]; intros s0.
  - cbv [StatsEngine.kind_count StatsEngine.minutes_of StatsEngine.len
         StatsEngine.sum_Z List.filter List.map List.fold_right List.length
         Z.of_nat List.fold_left].
    repeat split; lia.
  - cbv zeta. simpl List.fold_left.
    destruct (IH (StatsEngine.summary_step s0 e))
      as (H1 & H2 & H3 & H4 & H5 & H6 & H7 & H8 & H9 & H10).
    rewrite H1, H2, H3, H4, H5, H6, H7, H8, H9, H10.
    rewrite !kind_count_cons, !minutes_of_cons.
    unfold StatsEngine.summary_step, StatsEngine.event_minutes.
    set (iv := safe_int_from_note (e_note e) "interval_min").
    pose proof (add_interval_0 (on_min s0) iv) as Eon.
    pose proof (add_interval_0 (off_min s0) iv) as Eoff.
    destruct (String.eqb (e_event e) "checkin_on_task") eqn:K1;
      [apply String.eqb_eq in K1; rewrite ?K1; cbn; repeat split; lia|].
    destruct (String.eqb (e_event e) "checkin_off_task") eqn:K2;
      [apply String.eqb_eq in K2; rewrite ?K2; cbn; repeat split; lia|].
    destruct (String.eqb (e_event e) "procrastination") eqn:K3;
      [apply String.eqb_eq in K3; rewrite ?K3; cbn; repeat split; lia|].
    destruct (String.eqb (e_event e) "start") eqn:K4;
      [apply String.eqb_eq in K4; rewrite ?K4; cbn; repeat split; lia|].
    destruct (String.eqb (e_event e) "stop") eqn:K5;
      [apply String.eqb_eq in K5; rewrite ?K5; cbn; repeat split; lia|].
    destruct (String.eqb (e_event e) "cancel") eqn:K6;
      [apply String.eqb_eq in K6; rewrite ?K6; cbn; repeat split; lia|].
    destruct (String.eqb (e_event e) "session_complete") eqn:K7;
      [apply String.eqb_eq in K7; rewrite ?K7; cbn; repeat split; lia|].
    destruct (String.eqb (e_event e) "break") eqn:K8;
      [apply String.eqb_eq in K8; rewrite ?K8; cbn; repeat split; lia|].
    repeat split; lia.
Qed.

(** X4. The day summary counts the events of the day by kind.  On-task
    minutes are the intervals noted on the on-task check-ins; off-task
    minutes those noted on the off-task check-ins and on the
    procrastination marks.  A legacy [session_complete] record counts
    as a complete and as a stop. *)
Theorem summary_for_day_counts (events : list event) (d : string) :
  let evs := StatsEngine.events_for_day events d in
  let s := StatsEngine.summary_for_day events d in
  s_day s = d
  /\ on_min s = StatsEngine.minutes_of "checkin_on_task" evs
  /\ off_min s = StatsEngine.minutes_of "checkin_off_task" evs
                 + StatsEngine.minutes_of "procrastination" evs
  /\ total_min s = on_min s + off_min s
  /\ checkins_on s = StatsEngine.kind_count "checkin_on_task" evs
  /\ checkins_off s = StatsEngine.kind_count "checkin_off_task" evs
  /\ procrastinations s = StatsEngine.kind_count "procrastination" evs
  /\ starts s = StatsEngine.kind_count "start" evs
  /\ stops s = StatsEngine.kind_count "stop" evs
               + StatsEngine.kind_count "session_complete" evs
  /\ cancels s = StatsEngine.kind_count "cancel" evs
  /\ completes s = StatsEngine.kind_count "session_complete" evs
  /\ breaks s = StatsEngine.kind_count "break" evs.
Proof.
  intros evs s. subst s. unfold StatsEngine.summary_for_day. fold evs.
  destruct (summary_fold evs (StatsEngine.summary_zero d))
    as (H1 & H2 & H3 & H4 & H5 & H6 & H7 & H8 & H9 & H10).
  cbn [s_day on_min off_min total_min checkins_on checkins_off procrastinations
       starts stops cancels completes breaks].
  rewrite H1, H2, H3, H4, H5, H6, H7, H8, H9, H10. cbn. repeat split; lia.
Qed.

(** X5. A day without events, and so every day of an empty log, has the
    all-zero summary with no ratio. *)
Theorem summary_for_day_no_events (events : list event) (d : string) :
  (forall e, In e events -> e_day e <> d) ->
  StatsEngine.summary_for_day events d = StatsEngine.summary_zero d.
Proof.
  intros H. unfold StatsEngine.summary_for_day.
  replace (StatsEngine.events_for_day events d) with (@nil event); [reflexivity|].
  symmetry. unfold StatsEngine.events_for_day.
  induction events as [|e events IH]; simpl; [reflexivity|].
  destruct (String.eqb_spec (e_day e) d) as [E|_].
  - elim (H e); [now left | exact E].
  - apply IH. intros x Hx. apply H. now right.
Qed.

Lemma summary_for_day_no_events_witness :
  StatsEngine.summary_for_day cancel_events "2024-01-06"
  = StatsEngine.summary_zero "2024-01-06".
Proof.
  apply (summary_for_day_no_events cancel_events "2024-01-06").
  intros e He. vm_compute in He.
  repeat (destruct He as [<-|He]; [discriminate|]). contradiction.
Defined.

(** ** Session statistics *)

Lemma filter_filter_implied {A} (p q : A -> bool) (l : list A) :
  (forall x, p x = true -> q x = true) ->
  List.filter p (List.filter q l) = List.filter p l.
Proof.
  intros H. induction l as [|x l IH]; simpl; [reflexivity|].
  destruct (q x) eqn:Eq; simpl.
  - now rewrite IH.
  - destruct (p x) eqn:Ep; [|exact IH]. rewrite (H x Ep) in Eq. discriminate.
Qed.

Lemma len_filter_ends (evs : list event) :
  StatsEngine.len (List.filter StatsEngine.is_end evs)
  = StatsEngine.kind_count "stop" evs + StatsEngine.kind_count "cancel" evs.
Proof.
  unfold StatsEngine.kind_count, StatsEngine.len, StatsEngine.is_end.
  induction evs as [|e evs IH]; simpl; [reflexivity|].
  destruct (String.eqb (e_event e) "stop") eqn:Es;
    destruct (String.eqb (e_event e) "cancel") eqn:Ec; simpl length; try lia.
  apply String.eqb_eq in Es, Ec. congruence.
Qed.

Lemma avg_over_stops {A B} (ends : list A) (stops_ : list B) (x : Z) :
  StatsEngine.len stops_ <= StatsEngine.len ends ->
  match ends, stops_ with
  | _ :: _, _ :: _ => Some (true_div x (Z.max 1 (StatsEngine.len stops_)))
  | _, _ => None
  end
  = if 0 <? StatsEngine.len stops_
    then Some (true_div x (StatsEngine.len stops_)) else None.
Proof.
  unfold StatsEngine.len. destruct ends as [|a ends], stops_ as [|b stops_];
    simpl length; intros H; try reflexivity; try lia.
  replace (0 <? Z.of_nat (S (List.length stops_))) with true
    by (symmetry; apply Z.ltb_lt; lia).
  now rewrite Z.max_r by lia.
Qed.

Lemma rate_over_ends {A} (ends : list A) (x : Z) :
  match ends with
  | _ :: _ => Some (true_div x (StatsEngine.len ends))
  | [] => None
  end
  = if 0 <? StatsEngine.len ends
    then Some (true_div x (StatsEngine.len ends)) else None.
Proof.
  unfold StatsEngine.len. destruct ends as [|a ends]; [reflexivity|].
  replace (0 <? Z.of_nat (List.length (a :: ends))) with true; [reflexivity|].
  symmetry. apply Z.ltb_lt. simpl length. lia.
Qed.

(** X6. The first two numbers of [session_stats_in_range].  The average
    session length is taken over the stop events of the range, each
    negative [secs] counted as 0, and is [None] without a stop; the
    cancel rate is the share of cancels among stops and cancels, and
    [None] when the range has neither. *)
Theorem session_stats_averages (events : list event) (s e : string) :
  let evs := StatsEngine.events_in_range events s e in
  let stops_ := List.filter (fun x => String.eqb (e_event x) "stop") evs in
  let n_stop := StatsEngine.kind_count "stop" evs in
  let n_cancel := StatsEngine.kind_count "cancel" evs in
  let '(avg_secs, cancel_rate, _) := StatsEngine.session_stats_in_range events s e in
  avg_secs = (if 0 <? n_stop
              then Some (true_div
                           (StatsEngine.sum_Z
                              (List.map (fun x => Z.max 0 (e_secs x)) stops_))
                           n_stop)
              else None)
  /\ cancel_rate = (if 0 <? n_stop + n_cancel
                    then Some (true_div n_cancel (n_stop + n_cancel))
                    else None).
Proof.
  intros evs stops_ n_stop n_cancel. unfold StatsEngine.session_stats_in_range.
  fold evs.
  assert (Hs : List.filter (fun x => String.eqb (e_event x) "stop")
                 (List.filter StatsEngine.is_end evs) = stops_).
  { apply filter_filter_implied. intros x Hx. unfold StatsEngine.is_end.
    now rewrite Hx. }
  assert (Hc : List.filter (fun x => String.eqb (e_event x) "cancel")
                 (List.filter StatsEngine.is_end evs)
               = List.filter (fun x => String.eqb (e_event x) "cancel") evs).
  { apply filter_filter_implied. intros x Hx. unfold StatsEngine.is_end.
    rewrite Hx. apply Bool.orb_true_r. }
  rewrite Hs, Hc.
  pose proof (len_filter_ends evs) as Hlen. fold n_stop n_cancel in Hlen.
  assert (Hnc : 0 <= n_cancel) by apply len_nonneg.
  rewrite avg_over_stops, rate_over_ends.
  - rewrite Hlen. split; reflexivity.
  - rewrite Hlen. change (StatsEngine.len stops_) with n_stop. lia.
Qed.

(** ** Time to first procrastination on well-formed logs *)

Lemma is_boundary_split (e : event) :
  StatsEngine.is_boundary e
  = StatsEngine.is_end e || String.eqb (e_event e) "start".
Proof. reflexivity. Qed.

Lemma skip_after_find_first (l : list event) :
  StatsEngine.skip_to_boundary (snd (StatsEngine.find_first l))
  = StatsEngine.skip_to_boundary l.
Proof.
  induction l as [|e l IH]; simpl; [reflexivity|].
  destruct (StatsEngine.is_boundary e) eqn:Eb; simpl; [now rewrite Eb|].
  destruct (String.eqb (e_event e) "procrastination"); simpl; [now rewrite Eb|].
  exact IH.
Qed.

Lemma skip_to_boundary_length (l : list event) :
  (List.length (List.tl (StatsEngine.skip_to_boundary l)) <= List.length l)%nat.
Proof.
  induction l as [|e l IH]; simpl; [lia|].
  destruct (StatsEngine.is_boundary e); simpl; lia.
Qed.

(** In an open session without a restart the events up to the closing
    stop or cancel open no window. *)
Lemma per_start_skips_open_session (l : list event) :
  StatsEngine.restart_free_from true l = true ->
  StatsEngine.tt_first_per_start l
  = StatsEngine.tt_first_per_start (List.tl (StatsEngine.skip_to_boundary l))
  /\ StatsEngine.restart_free_from false (List.tl (StatsEngine.skip_to_boundary l)) = true.
Proof.
  induction l as [|e l IH]; simpl; intros H; [now split|].
  rewrite is_boundary_split.
  destruct (String.eqb (e_event e) "start") eqn:Es; [discriminate|].
  destruct (StatsEngine.is_end e) eqn:Ee; simpl; [now split|].
  now apply IH.
Qed.

Lemma tt_first_loop_per_start (fuel : nat) :
  forall l, (List.length l <= fuel)%nat ->
  StatsEngine.restart_free_from false l = true ->
  StatsEngine.tt_first_loop fuel l = StatsEngine.tt_first_per_start l.
Proof.
  induction fuel as [|fuel IH]; intros l Hlen Hrf.
  - destruct l; [reflexivity | simpl in Hlen; lia].
  - destruct l as [|e l]; [reflexivity|]. simpl in *.
    destruct (String.eqb (e_event e) "start") eqn:Es; simpl in *.
    + destruct (per_start_skips_open_session l Hrf) as [Hps Hrf'].
      destruct (StatsEngine.find_first l) as [first at_j] eqn:Ef.
      pose proof (skip_after_find_first l) as Hsk. rewrite Ef in Hsk. simpl in Hsk.
      rewrite Hsk. simpl fst.
      pose proof (skip_to_boundary_length l) as Hl.
      rewrite IH by (trivial; lia).
      rewrite <- Hps. now destruct first.
    + apply IH; [lia|]. now destruct (StatsEngine.is_end e).
Qed.

(** X7. On a log in which no session is started again before it is stopped
    or cancelled, the loop records what the comment above it says: for
    every start, the [secs] of the first procrastination before the
    next boundary, if there is one. *)
Theorem tt_first_on_restart_free_log (evs : list event) :
  StatsEngine.restart_free evs = true ->
  StatsEngine.tt_first evs = StatsEngine.tt_first_per_start evs.
Proof.
  intros H. unfold StatsEngine.tt_first. now apply tt_first_loop_per_start.
Qed.

Lemma tt_first_on_restart_free_log_witness :
  StatsEngine.tt_first cancel_events = StatsEngine.tt_first_per_start cancel_events.
Proof.
  apply (tt_first_on_restart_free_log cancel_events). reflexivity.
Defined.

(** ** Invariants of the timer operations *)

Lemma task_state_tasks (task : string) (a : app) :
  forall t, t <> task -> tasks (App._task_state task a) !! t = tasks a !! t.
Proof.
  intros t Hne. unfold App._task_state. cbn [tasks].
  destruct (tasks a !! task) as [[i y [col|]]|] eqn:E; rewrite ?E;
    rewrite ?lookup_insert_eq, ?lookup_insert_ne by congruence; reflexivity.
Qed.










(** ** The log is append-only *)

Lemma adapt_interval_log_suffix (ev : env) (b : bool) (a : app) :
  exists suffix, log (App._adapt_interval ev b a) = (log a ++ suffix)%list
                 /\ (List.length suffix <= 1)%nat.
Proof.
  destruct (PyStr.strip (active_task a)) as [|c t] eqn:Hs.
  - exists []. unfold App._adapt_interval. rewrite Hs, app_nil_r. split; [reflexivity|].
    simpl. lia.
  - destruct (adapt_interval_step ev b a c t Hs) as (_ & _ & _ & _ & Hl).
    rewrite Hl. eexists. split; [reflexivity|].
    destruct (App.adapts b a); simpl; lia.
Qed.

(** X9. No operation rewrites or removes a line of the log: the old log is
    a prefix of the new one, and at most two lines are added (the event
    and the adaptation it causes). *)
Theorem log_is_append_only (ev : env) (x : action) (a a' : app) :
  run_action ev x a = Ok a' ->
  exists suffix, log a' = (log a ++ suffix)%list /\ (List.length suffix <= 2)%nat.
Proof.
  intros Hrun.
  assert (Hnil : exists suffix, log a = (log a ++ suffix)%list
                                /\ (List.length suffix <= 2)%nat).
  { exists []. rewrite app_nil_r. split; [reflexivity | simpl; lia]. }
  assert (Hadapt : forall b kind note,
            exists suffix,
              log (App._adapt_interval ev b (App._append_log ev kind note a))
              = (log a ++ suffix)%list /\ (List.length suffix <= 2)%nat).
  { intros b kind note.
    destruct (adapt_interval_log_suffix ev b (App._append_log ev kind note a))
      as (sfx & Hl & Hn).
    rewrite Hl. cbn [log App._append_log]. rewrite <- app_assoc.
    eexists. split; [reflexivity|]. rewrite length_app. simpl. lia. }
  destruct x; simpl in Hrun; try (injection Hrun as <-).
  - unfold App.set_active_task. destruct (PyStr.strip task); exact Hnil.
  - exact Hnil.
  - exact Hnil.
  - unfold App.start_session in Hrun.
    destruct (PyStr.strip (active_task a)) as [|c t]; [now injection Hrun as <-|].
    destruct (interval_min _); [|discriminate]. injection Hrun as <-.
    cbn [log App._append_log App._task_state].
    eexists. split; [reflexivity | simpl; lia].
  - unfold App.stop_session, App.end_session. destruct (negb _); [exact Hnil|].
    cbn [log App._append_log App._end_session_ui].
    eexists. split; [reflexivity | simpl; lia].
  - unfold App.cancel_session, App.end_session. destruct (negb _); [exact Hnil|].
    cbn [log App._append_log App._end_session_ui].
    eexists. split; [reflexivity | simpl; lia].
  - unfold App._manual_interval_changed.
    destruct (PyStr.strip (active_task a)); [exact Hnil|].
    cbn [log App._append_log App._task_state].
    eexists. split; [reflexivity | simpl; lia].
  - unfold App.mark_procrastination. destruct (negb _); [exact Hnil|].
    destruct reason; [apply Hadapt | exact Hnil].
  - unfold App.checkin_answered. destruct answer as [[|]|]; [| |exact Hnil].
    + apply Hadapt.
    + destruct reason; [apply Hadapt | exact Hnil].
  - unfold App.tick_clock. destruct (negb _); exact Hnil.
Qed.

Lemma log_is_append_only_witness :
  exists suffix,
    log (App.mark_procrastination sample_env (Some "mail")
           (running_app "Write" ∅ 300 None))
    = ([] ++ suffix)%list /\ (List.length suffix <= 2)%nat.
Proof.
  apply (log_is_append_only sample_env (Procrastination (Some "mail"))
           (running_app "Write" ∅ 300 None)).
  reflexivity.
Defined.

(** ** Ending a session *)



(** ** Starting a session *)

(** X11. [start_session] with a non-empty task whose profile is missing or
    holds an interval succeeds, whether a session is running or not: it
    logs a start with 0 seconds, sets the elapsed time to 0 and the next
    check-in to the interval of the task in seconds, and shows that
    interval in the interval field.  A session that is running is
    started again without a stop or cancel being logged. *)
Theorem start_session_starts (ev : env) (a : app) :
  let task := PyStr.strip (active_task a) in
  task <> EmptyString ->
  (forall p, tasks a !! task = Some p -> interval_min p <> None) ->
  exists a', App.start_session ev a = Ok a'
    /\ log a' = (log a ++
                 [mkLine (now_iso ev) "start" task 0
                    (App._compose_note None (target_duration_min a)
                       (Some (App.interval_of task a)) None)])%list
    /\ session_start_ts a' = Some (time_time ev)
    /\ session_elapsed a' = 0%Q
    /\ next_prompt_at a' = Some (inject_Z (App.interval_of task a * 60))
    /\ current_interval_min a' = App.interval_of task a
    /\ App.interval_of task a' = App.interval_of task a
    /\ App.streak_of task a' = App.streak_of task a.
Proof.
  intros task Hne Hp. subst task.
  destruct (strip_nonempty _ Hne) as (c & t & Hs). rewrite Hs in *.
  unfold App.start_session. rewrite Hs.
  destruct (task_state_lookup (String c t) a) as (p & Hlk & Hi & Hy).
  unfold App.the_profile. rewrite Hlk.
  destruct (interval_min p) as [i|] eqn:Ei.
  - eexists. split; [reflexivity|].
    unfold App._append_log, App.session_running.
    cbn [log session_start_ts session_elapsed next_prompt_at current_interval_min
         active_task tasks target_duration_min].
    change (active_task (App._task_state (String c t) a)) with (active_task a).
    change (log (App._task_state (String c t) a)) with (log a).
    change (target_duration_min (App._task_state (String c t) a))
      with (target_duration_min a).
    rewrite Hs, <- Hi.
    assert (Hsecs : (if match Some (time_time ev) with
                        | Some t0 => negb (Qeq_bool t0 0)
                        | None => false
                        end then App.int_of_float 0%Q else 0) = 0)
      by (now destruct (negb _)).
    cbn [session_start_ts] in Hsecs |- *. rewrite Hsecs.
    repeat split.
    + unfold App.interval_of. cbn [tasks]. rewrite Hlk.
      destruct p as [pi py pc]. simpl in Ei. now rewrite Ei.
    + rewrite <- Hy. unfold App.streak_of. cbn [tasks]. rewrite Hlk.
      destruct p as [pi py pc]. simpl in *. now destruct pi, py.
  - exfalso.
    unfold App._task_state in Hlk. cbn [tasks] in Hlk.
    destruct (tasks a !! String c t) as [[i0 y0 [col|]]|] eqn:E; rewrite ?E in Hlk;
      rewrite ?lookup_insert_eq in Hlk; injection Hlk as <-; simpl in Ei;
      try discriminate; now elim (Hp _ eq_refl).
Qed.

Lemma start_session_starts_witness :
  exists a', App.start_session sample_env (running_app "Write" ∅ 300 None) = Ok a'
             /\ List.map l_event (log a') = ["start"]
             /\ next_prompt_at a' = Some (inject_Z 600).
Proof.
  destruct (start_session_starts sample_env (running_app "Write" ∅ 300 None)
              ltac:(discriminate)
              ltac:(intros p H; vm_compute in H; discriminate))
    as (a' & H1 & H2 & _ & _ & H5 & _).
  exists a'. split; [exact H1|]. rewrite H2, H5. split; reflexivity.
Defined.

(** X12. [start_session] raises exactly when the task is not empty and its
    profile is there without an interval. *)
Theorem start_session_raises_iff (ev : env) (a : app) :
  App.start_session ev a = Raise KeyError
  <-> PyStr.strip (active_task a) <> EmptyString
      /\ exists p, tasks a !! PyStr.strip (active_task a) = Some p
                   /\ interval_min p = None.
Proof.
  unfold App.start_session.
  destruct (PyStr.strip (active_task a)) as [|c t] eqn:Hs.
  - split; [discriminate | intros [H _]; now elim H].
  - unfold App.the_profile, App._task_state. cbn [tasks].
    destruct (tasks a !! String c t) as [[i0 y0 [col|]]|] eqn:E; rewrite ?E;
      rewrite ?lookup_insert_eq; cbn [interval_min].
    + destruct i0; split; try discriminate.
      * intros [_ (p & [= <-] & Hp)]. discriminate.
      * intros _. split; [discriminate|]. eexists. split; reflexivity.
      * reflexivity.
    + destruct i0; split; try discriminate.
      * intros [_ (p & [= <-] & Hp)]. discriminate.
      * intros _. split; [discriminate|]. eexists. split; reflexivity.
      * reflexivity.
    + split; [discriminate|]. intros [_ (p & Hp & _)]. discriminate.
Qed.

(** ** The clock and the next check-in *)

(** X13. A tick never lowers the elapsed time, not even when the clock was
    set back since the last tick; when the clock went forward, the
    elapsed time grows by the time since the last tick.  The log and
    the task table are not touched. *)
Theorem tick_clock_monotone (ev : env) (a : app) :
  let a' := App.tick_clock ev a in
  (session_elapsed a <= session_elapsed a')%Q
  /\ (forall last, App.session_running a = true -> last_tick a = Some last ->
      (last <= time_time ev)%Q ->
      (session_elapsed a' == session_elapsed a + (time_time ev - last))%Q)
  /\ log a' = log a /\ tasks a' = tasks a.
Proof.
  intros a'. subst a'. unfold App.tick_clock.
  destruct (App.session_running a) eqn:Er; cbn [negb].
  - cbn [session_elapsed log tasks]. split; [|split; [|split; reflexivity]].
    + destruct (Qle_bool 0 _) eqn:E.
      * apply Qle_bool_iff in E. lra.
      * lra.
    + intros last _ Hl Hle. rewrite Hl.
      replace (Qle_bool 0 (time_time ev - last)) with true; [reflexivity|].
      symmetry. apply Qle_bool_iff. lra.
  - split; [lra|]. split; [discriminate|]. split; reflexivity.
Qed.

Lemma tick_clock_monotone_witness :
  (session_elapsed (App.tick_clock (mkEnv 1704448810 "2024-01-05 10:00:10")
                      (running_app "Write" ∅ 300 None)) == 310)%Q.
Proof.
  pose proof (proj1 (proj2 (tick_clock_monotone
                (mkEnv 1704448810 "2024-01-05 10:00:10")
                (running_app "Write" ∅ 300 None)))
              1704448800%Q eq_refl eq_refl ltac:(vm_compute; discriminate)) as W.
  rewrite W. reflexivity.
Defined.

(** What [_adapt_interval] does besides the profile of the active
    task: the interval field shows the new interval, a running session
    gets its next check-in at the elapsed time plus the new interval,
    and the profiles of the other tasks stay as they are. *)
Lemma adapt_interval_frame (ev : env) (b : bool) (a : app) (c : ascii) (t : string) :
  PyStr.strip (active_task a) = String c t ->
  let task := String c t in
  let a' := App._adapt_interval ev b a in
  current_interval_min a' = App.interval_of task a'
  /\ session_elapsed a' = session_elapsed a
  /\ next_prompt_at a' =
       (if App.session_running a
        then Some (session_elapsed a + inject_Z (App.interval_of task a' * 60))%Q
        else next_prompt_at a)
  /\ (forall t', t' <> task -> tasks a' !! t' = tasks a !! t').
Proof.
  intros Hs task a'. subst a'. unfold App._adapt_interval.
  rewrite Hs. fold task.
  destruct (task_state_lookup task a) as (p & Hp & Hi & Hy).
  unfold App.the_profile. rewrite Hp, Hi, Hy.
  pose proof (task_state_tasks task a) as Hframe.
  destruct b; [destruct (STREAK_FOR_STEPUP <=? App.streak_of task a + 1)|];
    unfold App._append_log, App.session_running;
    cbn [session_start_ts log tasks active_task session_elapsed App._task_state
         next_prompt_at current_interval_min];
    destruct (match session_start_ts a with
              | Some t0 => negb (Qeq_bool t0 0)
              | None => false
              end) eqn:Er;
    cbn [session_start_ts log tasks active_task session_elapsed next_prompt_at
         current_interval_min];
    unfold App.interval_of; cbn [tasks];
    rewrite ?lookup_insert_eq; cbn [interval_min];
    (split; [reflexivity|]; split; [reflexivity|]; split; [reflexivity|]);
    intros t' Hne; rewrite lookup_insert_ne by congruence;
    apply (Hframe t' Hne).
Qed.

(** X14. After an answered check-in the next one is not due at once: with a
    session running and a positive interval, the next check-in lies
    after the elapsed time, and the profiles of the other tasks are
    unchanged. *)
Theorem checkin_answer_reschedules (ev : env) (on_task : bool) (reason : string)
    (a : app) :
  let task := PyStr.strip (active_task a) in
  task <> EmptyString ->
  App.session_running a = true ->
  0 < App.interval_of task a ->
  let a' := App.checkin_answered ev (Some on_task) (Some reason) a in
  next_prompt_at a'
  = Some (session_elapsed a + inject_Z (App.interval_of task a' * 60))%Q
  /\ App.checkin_due a' = false
  /\ current_interval_min a' = App.interval_of task a'
  /\ (forall t', t' <> task -> tasks a' !! t' = tasks a !! t').
Proof.
  intros task Hne Hrun Hpos a'. subst a' task.
  destruct (strip_nonempty _ Hne) as (c & t & Hs). rewrite Hs in *.
  assert (H : forall kind note,
    let a1 := App._adapt_interval ev on_task (App._append_log ev kind note a) in
    next_prompt_at a1
    = Some (session_elapsed a + inject_Z (App.interval_of (String c t) a1 * 60))%Q
    /\ App.checkin_due a1 = false
    /\ current_interval_min a1 = App.interval_of (String c t) a1
    /\ (forall t', t' <> String c t -> tasks a1 !! t' = tasks a !! t')).
  { intros kind note a1. subst a1.
    set (a0 := App._append_log ev kind note a).
    assert (Hs0 : PyStr.strip (active_task a0) = String c t) by exact Hs.
    destruct (adapt_interval_frame ev on_task a0 c t Hs0) as (Hc & He & Hn & Hf).
    destruct (adapt_interval_step ev on_task a0 c t Hs0) as (_ & _ & Hi & _).
    change (App.session_running a0) with (App.session_running a) in Hn.
    change (session_elapsed a0) with (session_elapsed a) in Hn, He.
    change (App.interval_of (String c t) a0)
      with (App.interval_of (String c t) a) in Hi.
    change (App.streak_of (String c t) a0)
      with (App.streak_of (String c t) a) in Hi.
    rewrite Hrun in Hn.
    assert (Hpos' : 0 < App.interval_of (String c t)
                          (App._adapt_interval ev on_task a0)).
    { rewrite Hi. destruct on_task; [destruct (_ <=? _)|]; unfold_constants; lia. }
    split; [exact Hn|]. split; [|split; [exact Hc | exact Hf]].
    unfold App.checkin_due. rewrite Hn, He.
    destruct (Qle_bool _ _) eqn:E; [|reflexivity].
    apply Qle_bool_iff in E. exfalso.
    assert (0 < inject_Z (App.interval_of (String c t)
                            (App._adapt_interval ev on_task a0) * 60))%Q.
    { rewrite <- (Zlt_Qlt 0). lia. }
    lra. }
  unfold App.checkin_answered. destruct on_task; apply H.
Qed.

Lemma checkin_answer_reschedules_witness :
  App.checkin_due
    (App.checkin_answered sample_env (Some false) (Some "mail")
       (running_app "Write" ∅ 600 (Some 600%Q))) = false.
Proof.
  apply (checkin_answer_reschedules sample_env false "mail"
           (running_app "Write" ∅ 600 (Some 600%Q))).
  - discriminate.
  - reflexivity.
  - reflexivity.
Defined.



(** ** Notes written by the timer, read back by the statistics *)

Lemma digits_value_pos (d : Decimal.uint) :
  forall acc, Z.pos (Pos.of_uint_acc d acc) = digits_value d (Z.pos acc).
Proof.
  induction d; intros acc; simpl; try reflexivity; rewrite IHd; f_equal; lia.
Qed.

Lemma digits_value_of_uint (d : Decimal.uint) :
  Z.of_N (Pos.of_uint d) = digits_value d 0.
Proof.
  induction d; simpl; try reflexivity; try exact IHd;
    rewrite digits_value_pos; reflexivity.
Qed.

Lemma int_digits_uint (d : Decimal.uint) :
  forall acc b, (b = true \/ d <> Decimal.Nil) ->
  PyStr.int_digits acc b (DecimalString.NilEmpty.string_of_uint d)
  = Some (digits_value d acc).
Proof.
  induction d; intros acc b Hb; simpl;
    try (rewrite IHd by (now left); f_equal; f_equal;
         unfold PyStr.digit_value, PyStr.code; simpl; lia).
  destruct Hb as [->|H]; [reflexivity | now elim H].
Qed.

Lemma is_token_uint (d : Decimal.uint) :
  is_token (DecimalString.NilEmpty.string_of_uint d) = true.
Proof. induction d; simpl; trivial. Qed.

Lemma is_token_app (a b : string) :
  is_token (a +:+ b) = is_token a && is_token b.
Proof.
  induction a as [|c a IH]; [reflexivity|].
  rewrite append_cons. simpl. rewrite IH. now rewrite !Bool.andb_assoc.
Qed.

Lemma is_token_str_of_int (n : Z) : is_token (App.str_of_int n) = true.
Proof.
  unfold App.str_of_int. destruct n as [|p|p]; simpl; trivial.
  - unfold DecimalString.NilZero.string_of_uint.
    destruct (Pos.to_uint p); try reflexivity; apply is_token_uint.
  - unfold DecimalString.NilZero.string_of_uint.
    destruct (Pos.to_uint p) eqn:E; try reflexivity;
      rewrite <- E at 1; apply is_token_uint.
Qed.

Lemma lstrip_token (s : string) : is_token s = true -> PyStr.lstrip s = s.
Proof.
  destruct s as [|c s]; [reflexivity|]. simpl. intros H.
  destruct (PyStr.isspace c); [discriminate | reflexivity].
Qed.

Lemma rstrip_token (s : string) : is_token s = true -> PyStr.rstrip s = s.
Proof.
  induction s as [|c s IH]; [reflexivity|]. simpl. intros H.
  apply Bool.andb_true_iff in H. destruct H as [Hc Hs].
  apply Bool.andb_true_iff in Hc. destruct Hc as [Hc _].
  rewrite (IH Hs). destruct s; [|reflexivity].
  destruct (PyStr.isspace c); [discriminate | reflexivity].
Qed.

Lemma strip_token (s : string) : is_token s = true -> PyStr.strip s = s.
Proof.
  intros H. unfold PyStr.strip. rewrite (lstrip_token s H). now apply rstrip_token.
Qed.

(** [int(str(n)) = n] *)
Lemma int_str_of_int (n : Z) : PyStr.int (App.str_of_int n) = Some n.
Proof.
  unfold PyStr.int. rewrite strip_token by apply is_token_str_of_int.
  unfold App.str_of_int. destruct n as [|p|p]; [reflexivity| |].
  - simpl. unfold DecimalString.NilZero.string_of_uint.
    pose proof (DecimalPos.Unsigned.to_uint_nonnil p) as Hnn.
    pose proof (DecimalPos.Unsigned.of_to p) as Hof.
    apply (f_equal Z.of_N) in Hof. rewrite digits_value_of_uint in Hof.
    pose proof (int_digits_uint (Pos.to_uint p) 0 false (or_intror Hnn)) as Hd.
    rewrite Hof in Hd. simpl Z.of_N in Hd.
    destruct (Pos.to_uint p) eqn:E; try (now elim Hnn); simpl in Hd |- *; exact Hd.
  - simpl. unfold DecimalString.NilZero.string_of_uint.
    pose proof (DecimalPos.Unsigned.to_uint_nonnil p) as Hnn.
    pose proof (DecimalPos.Unsigned.of_to p) as Hof.
    apply (f_equal Z.of_N) in Hof. rewrite digits_value_of_uint in Hof.
    pose proof (int_digits_uint (Pos.to_uint p) 0 false (or_intror Hnn)) as Hd.
    rewrite Hof in Hd. simpl Z.of_N in Hd.
    destruct (Pos.to_uint p) eqn:E; try (now elim Hnn); rewrite Hd; reflexivity.
Qed.

Lemma append_nil_r (s : string) : s +:+ EmptyString = s.
Proof. induction s as [|c s IH]; [reflexivity|]. rewrite append_cons. now f_equal. Qed.

Lemma replace_char_app (a b : ascii) (s1 s2 : string) :
  PyStr.replace_char a b (s1 +:+ s2)
  = PyStr.replace_char a b s1 +:+ PyStr.replace_char a b s2.
Proof.
  induction s1 as [|c s1 IH]; [reflexivity|].
  rewrite append_cons. simpl. rewrite append_cons. now f_equal.
Qed.

Lemma replace_token (s : string) :
  is_token s = true -> PyStr.replace_char "," " " s = s.
Proof.
  induction s as [|c s IH]; [reflexivity|]. simpl. intros H.
  apply Bool.andb_true_iff in H. destruct H as [Hc Hs].
  apply Bool.andb_true_iff in Hc. destruct Hc as [_ Hc].
  destruct (Ascii.eqb c ","); [discriminate|]. now rewrite IH.
Qed.

Lemma replace_keeps_token (s : string) :
  is_token s = true -> is_token (PyStr.replace_char "," " " s) = true.
Proof. intros H. now rewrite replace_token. Qed.

Lemma split_go_token (w : string) :
  forall cur rest, is_token w = true ->
  PyStr.split_go cur (w +:+ rest) = PyStr.split_go (cur +:+ w) rest.
Proof.
  induction w as [|c w IH]; intros cur rest H.
  - now rewrite append_nil, append_nil_r.
  - simpl in H. apply Bool.andb_true_iff in H. destruct H as [Hc Hw].
    apply Bool.andb_true_iff in Hc. destruct Hc as [Hc _].
    rewrite append_cons. simpl.
    destruct (PyStr.isspace c); [discriminate|].
    rewrite (IH _ _ Hw). now rewrite app_assoc_string.
Qed.

Lemma split_go_sep (sp : ascii) (a : string) :
  PyStr.isspace sp = true ->
  forall cur b, PyStr.split_go cur (a +:+ String sp b)
                = (PyStr.split_go cur a ++ PyStr.split b)%list.
Proof.
  intros Hsp. induction a as [|c a IH]; intros cur b.
  - rewrite append_nil. simpl. now rewrite Hsp.
  - rewrite append_cons. simpl. destruct (PyStr.isspace c).
    + rewrite IH. now rewrite app_assoc.
    + apply IH.
Qed.

(** The tokens of two notes joined by a space are the tokens of the
    one followed by the tokens of the other. *)
Lemma note_tokens_space (a b : string) :
  note_tokens (a +:+ " " +:+ b) = (note_tokens a ++ note_tokens b)%list.
Proof.
  unfold note_tokens, PyStr.split.
  change (" " +:+ b) with (String " " b).
  rewrite replace_char_app. simpl PyStr.replace_char.
  now rewrite split_go_sep.
Qed.

Lemma note_tokens_token (w : string) :
  is_token w = true -> w <> EmptyString -> note_tokens w = [w].
Proof.
  intros H Hne. unfold note_tokens, PyStr.split. rewrite replace_token by exact H.
  rewrite <- (append_nil_r w) at 1. rewrite split_go_token by exact H.
  rewrite append_nil. simpl. now destruct w.
Qed.

Lemma isspace_not_comma (c : ascii) :
  PyStr.isspace c = true -> Ascii.eqb c "," = false.
Proof.
  intros H. destruct (Ascii.eqb_spec c ",") as [->|]; [discriminate | reflexivity].
Qed.

Lemma note_tokens_lstrip (s : string) : note_tokens (PyStr.lstrip s) = note_tokens s.
Proof.
  unfold note_tokens, PyStr.split.
  induction s as [|c s IH]; [reflexivity|]. simpl.
  destruct (PyStr.isspace c) eqn:E; [|reflexivity].
  rewrite (isspace_not_comma c E), E. exact IH.
Qed.

Lemma split_go_rstrip (s : string) :
  forall cur, PyStr.split_go cur (PyStr.replace_char "," " " (PyStr.rstrip s))
              = PyStr.split_go cur (PyStr.replace_char "," " " s).
Proof.
  induction s as [|c s IH]; intros cur; [reflexivity|]. simpl.
  destruct (PyStr.rstrip s) as [|c0 r] eqn:Er.
  - simpl in IH.
    destruct (PyStr.isspace c) eqn:E.
    + rewrite (isspace_not_comma c E), E. rewrite <- IH. simpl.
      now rewrite app_nil_r.
    + simpl. destruct (Ascii.eqb c ","); simpl.
      * now rewrite <- IH.
      * rewrite E. now rewrite <- IH.
  - simpl. destruct (PyStr.isspace (if Ascii.eqb c "," then " "%char else c)).
    + f_equal. apply (IH EmptyString).
    + apply IH.
Qed.

Lemma note_tokens_strip (s : string) : note_tokens (PyStr.strip s) = note_tokens s.
Proof.
  unfold PyStr.strip. rewrite <- (note_tokens_lstrip s).
  unfold note_tokens, PyStr.split. apply split_go_rstrip.
Qed.

Lemma note_tokens_join (l : list string) :
  note_tokens (App.join " " l) = List.flat_map note_tokens l.
Proof.
  induction l as [|x l IH]; [reflexivity|].
  destruct l as [|y l]; [simpl; now rewrite app_nil_r|].
  change (App.join " " (x :: y :: l)) with (x +:+ " " +:+ App.join " " (y :: l)).
  rewrite note_tokens_space, IH. reflexivity.
Qed.

Lemma interval_token (n : Z) :
  let tok := "interval_min=" +:+ App.str_of_int n in
  note_tokens tok = [tok]
  /\ PyStr.startswith tok "interval_min=" = true
  /\ token_value tok = Some n.
Proof.
  intros tok. subst tok. split; [|split].
  - apply note_tokens_token.
    + change ("interval_min=" +:+ App.str_of_int n)
        with ("interval_min=" +:+ App.str_of_int n).
      rewrite is_token_app, is_token_str_of_int. reflexivity.
    + discriminate.
  - apply startswith_app.
  - change ("interval_min=" +:+ App.str_of_int n)
      with ("interval_min" +:+ "=" +:+ App.str_of_int n).
    rewrite token_value_key by reflexivity. apply int_str_of_int.
Qed.

(** X16. The interval that [_adapt_interval] and "Apply to task" write into
    the note of their log event is the interval that the statistics
    read from it. *)
Theorem interval_note_round_trip (n : Z) :
  safe_int_from_note ("interval_min=" +:+ App.str_of_int n) "interval_min" = Some n.
Proof.
  destruct (interval_token n) as (Ht & Hs & Hv). cbv zeta in *.
  unfold safe_int_from_note.
  destruct ("interval_min=" +:+ App.str_of_int n) as [|c s] eqn:E.
  - change ("interval_min=" +:+ App.str_of_int n)
      with (String "i" ("nterval_min=" +:+ App.str_of_int n)) in E.
    discriminate.
  - rewrite Ht, <- Hv.
    exact (scan_tokens_first "interval_min" (String c s) [] []
             ltac:(constructor) Hs).
Qed.

Lemma target_token (t : Z) :
  let tok := "target_min=" +:+ App.str_of_int t in
  note_tokens tok = [tok] /\ PyStr.startswith tok "interval_min=" = false.
Proof.
  intros tok. subst tok. split; [|reflexivity].
  apply note_tokens_token; [|discriminate].
  rewrite is_token_app, is_token_str_of_int. reflexivity.
Qed.

(** X17. The note that the timer composes for an event carries the interval
    so that the statistics read it back, whatever the target and the
    extra marker are, provided the interval is not 0 and the reason
    typed by the user has no token of its own that starts with
    [interval_min=] (the reason comes first in the note, and the first
    such token wins). *)
Theorem compose_note_round_trip (reason : option string) (tmin : option Z)
    (n : Z) (extra : option string) :
  n <> 0 ->
  (forall r0, reason = Some r0 ->
     Forall (fun q => PyStr.startswith q "interval_min=" = false)
       (note_tokens (App.join " " (PyStr.split (PyStr.strip r0))))) ->
  safe_int_from_note (App._compose_note reason tmin (Some n) extra) "interval_min"
  = Some n.
Proof.
  intros Hn Hreason.
  destruct (interval_token n) as (Ht & Hs & Hv). cbv zeta in *.
  set (tok := "interval_min=" +:+ App.str_of_int n) in *.
  assert (Hscan : forall pre post,
            Forall (fun q => PyStr.startswith q "interval_min=" = false) pre ->
            scan_tokens "interval_min" (pre ++ tok :: post) = Some n).
  { intros pre post Hpre. rewrite scan_tokens_first; [exact Hv | exact Hpre | exact Hs]. }
  assert (Hgoal : exists pre post,
            note_tokens (App._compose_note reason tmin (Some n) extra)
            = (pre ++ tok :: post)%list
            /\ Forall (fun q => PyStr.startswith q "interval_min=" = false) pre).
  { unfold App._compose_note. rewrite note_tokens_strip.
    assert (Htruthy : App.truthy (Some n) = true).
    { simpl. now destruct (Z.eqb_spec n 0). }
    rewrite Htruthy. fold tok.
    set (kv1 := match tmin with
                | Some t => if App.truthy tmin
                            then ["target_min=" +:+ App.str_of_int t] else []
                | None => []
                end).
    set (kv3 := match extra with
                | Some EmptyString | None => []
                | Some x => [PyStr.strip x]
                end).
    assert (Hkv : exists pre1 post1,
              note_tokens (App.join " " (kv1 ++ [tok] ++ kv3))
              = (pre1 ++ tok :: post1)%list
              /\ Forall (fun q => PyStr.startswith q "interval_min=" = false) pre1).
    { rewrite note_tokens_join, !List.flat_map_app. simpl List.flat_map at 2.
      rewrite Ht, app_nil_r.
      exists (List.flat_map note_tokens kv1), (List.flat_map note_tokens kv3).
      split; [reflexivity|]. subst kv1.
      destruct tmin as [t|]; [|constructor].
      destruct (App.truthy (Some t)); [|constructor].
      destruct (target_token t) as [Htt Hts]. cbv zeta in *.
      simpl. rewrite Htt, app_nil_r. constructor; [exact Hts | constructor]. }
    destruct Hkv as (pre1 & post1 & Hkv & Hpre1).
    assert (Hne : (kv1 ++ [tok] ++ kv3)%list <> []) by (now destruct kv1).
    destruct (kv1 ++ [tok] ++ kv3)%list as [|k0 kvs] eqn:Ekv; [now elim Hne|].
    destruct reason as [r0|].
    - specialize (Hreason r0 eq_refl).
      destruct (App.join " " (PyStr.split (PyStr.strip r0))) as [|rc rs] eqn:Er.
      + cbn [List.app].
        change (App.join " | " [App.join " " (k0 :: kvs)])
          with (App.join " " (k0 :: kvs)).
        rewrite Hkv. now exists pre1, post1.
      + change (App.join " | " ([String rc rs] ++ [App.join " " (k0 :: kvs)]))
          with (String rc rs +:+ " " +:+ ("|" +:+ " " +:+ App.join " " (k0 :: kvs))).
        rewrite !note_tokens_space, Hkv.
        exists (note_tokens (String rc rs) ++ note_tokens "|" ++ pre1)%list, post1.
        split; [now rewrite <- !app_assoc|].
        apply Forall_app. split; [exact Hreason|].
        apply Forall_app. split; [|exact Hpre1].
        repeat constructor.
    - cbn [List.app].
        change (App.join " | " [App.join " " (k0 :: kvs)])
          with (App.join " " (k0 :: kvs)).
        rewrite Hkv. now exists pre1, post1. }
  destruct Hgoal as (pre & post & Htok & Hpre).
  unfold safe_int_from_note.
  destruct (App._compose_note reason tmin (Some n) extra) as [|c s] eqn:E.
  - rewrite note_tokens_empty in Htok. now destruct pre.
  - rewrite Htok. now apply Hscan.
Qed.

Lemma compose_note_round_trip_witness :
  safe_int_from_note
    (App._compose_note (Some "checked my mail, twice") (Some 30) (Some 7)
       (Some "auto_stop=1")) "interval_min" = Some 7.
Proof.
  apply (compose_note_round_trip (Some "checked my mail, twice") (Some 30) 7
           (Some "auto_stop=1")).
  - discriminate.
  - intros r0 [= <-]. vm_compute. repeat constructor.
Defined.

(** ** Order of the rows *)

Lemma Sorted_impl {A} (R R' : A -> A -> Prop) (l : list A) :
  (forall x y, R x y -> R' x y) -> Sorted R l -> Sorted R' l.
Proof.
  intros H. induction 1 as [|x l Hs IH Hhd]; constructor; [exact IH|].
  destruct Hhd; constructor. now apply H.
Qed.

Lemma row_keeps_total (x y : task_row) :
  StatsEngine.row_keeps x y = false -> StatsEngine.row_keeps y x = true.
Proof.
  unfold StatsEngine.row_keeps. intros H.
  apply Bool.orb_false_iff in H. destruct H as [H1 H2].
  apply Z.ltb_ge in H1. apply Bool.orb_true_iff.
  destruct (Z.eqb_spec (row_total_secs y) (row_total_secs x)) as [E|E].
  - right. rewrite E, Z.eqb_refl in *. simpl in *.
    apply Z.leb_gt in H2. apply Z.leb_le. lia.
  - left. apply Z.ltb_lt. lia.
Qed.

(** X18. The result of [sessions_by_task_in_range] has one row per task and
    is ordered by total seconds, largest first, and among equal totals
    by number of sessions, largest first. *)
Theorem sessions_by_task_ordered (events : list event) (s e : string) :
  let rows := StatsEngine.sessions_by_task_in_range events s e in
  List.NoDup (List.map row_task rows)
  /\ Sorted (fun y x => row_total_secs x < row_total_secs y
                        \/ (row_total_secs x = row_total_secs y
                            /\ row_sessions x <= row_sessions y)) rows.
Proof.
  intros rows. split; [apply sessions_by_task_NoDup|].
  apply (Sorted_impl (fun y x => StatsEngine.row_keeps y x = true)).
  - intros y x H. unfold StatsEngine.row_keeps in H.
    apply Bool.orb_true_iff in H. destruct H as [H|H].
    + left. now apply Z.ltb_lt.
    + right. apply Bool.andb_true_iff in H. destruct H as [H1 H2].
      split; [now apply Z.eqb_eq | now apply Z.leb_le].
  - apply stable_sort_Sorted. intros x y. apply row_keeps_total.
Qed.

(** ** Timestamps written by the timer, read back by the statistics *)

Lemma first_match_seq {A B} (p : Rx.rx A) (k : A -> Rx.rx B)
    (s r r' : string) (a : A) (b : B) :
  first_match p s a r -> first_match (k a) r b r' ->
  first_match (Rx.seq p k) s b r'.
Proof.
  intros [o1 H1] [o2 H2]. unfold first_match, Rx.seq. rewrite H1. simpl. rewrite H2.
  eexists. reflexivity.
Qed.

Lemma first_match_ret {A} (a : A) (s : string) : first_match (Rx.ret a) s a s.
Proof. eexists. reflexivity. Qed.

Lemma first_match_lit (c : ascii) (r : string) :
  first_match (Rx.lit c) (String c r) tt r.
Proof. unfold first_match, Rx.lit. rewrite Ascii.eqb_refl. eexists. reflexivity. Qed.

Lemma range_cases (P : Z -> Prop) (lo : Z) (len : nat) :
  (forall i : nat, (i < len)%nat -> P (lo + Z.of_nat i)) ->
  forall n, lo <= n < lo + Z.of_nat len -> P n.
Proof.
  intros H n Hn. replace n with (lo + Z.of_nat (Z.to_nat (n - lo))) by lia.
  apply H. lia.
Qed.

Tactic Notation "each_below" integer(n) tactic3(tac) :=
  let i := fresh "i" in
  let Hi := fresh "Hi" in
  intros i Hi; do n (destruct i as [|i]; [tac|]); exfalso; lia.

Lemma dig_digit_char (k : Z) (r : string) :
  Rx.dig 0 9 (String (digit_char k) r) = [(k mod 10, r)].
Proof.
  unfold digit_char.
  assert (Hk : 0 <= k mod 10 < 0 + Z.of_nat 10) by (apply Z.mod_pos_bound; lia).
  revert Hk. generalize (k mod 10). intros j.
  apply (range_cases (fun j => Rx.dig 0 9 (String (ascii_of_N (Z.to_N (48 + j))) r)
                               = [(j, r)])).
  each_below 10 reflexivity.
Qed.

Lemma digit_char_not_space (k : Z) : PyStr.isspace (digit_char k) = false.
Proof.
  unfold digit_char.
  assert (Hk : 0 <= k mod 10 < 0 + Z.of_nat 10) by (apply Z.mod_pos_bound; lia).
  revert Hk. generalize (k mod 10). intros j.
  apply (range_cases (fun j => PyStr.isspace (ascii_of_N (Z.to_N (48 + j))) = false)).
  each_below 10 reflexivity.
Qed.

Lemma first_match_Y (y : Z) (r : string) :
  0 <= y <= 9999 -> first_match Rx.rx_Y (pad4 y +:+ r) y r.
Proof.
  intros Hy. unfold pad4, pad2, Rx.rx_Y. rewrite !append_cons, append_nil.
  assert (E : 1000 * ((y / 1000) mod 10) + 100 * ((y / 100) mod 10)
              + 10 * ((y / 10) mod 10) + y mod 10 = y).
  { Z.div_mod_to_equations. lia. }
  rewrite <- E at 5.
  repeat (eapply first_match_seq; [eexists; apply dig_digit_char|]).
  apply first_match_ret.
Qed.

Lemma first_match_m (m : Z) (r : string) :
  1 <= m <= 12 -> first_match Rx.rx_m (pad2 m +:+ r) m r.
Proof.
  intros H. assert (H' : 1 <= m < 1 + Z.of_nat 12) by lia. revert H'.
  apply (range_cases (fun m => first_match Rx.rx_m (pad2 m +:+ r) m r)).
  each_below 12 (eexists; reflexivity).
Qed.

Lemma first_match_d (d : Z) (r : string) :
  1 <= d <= 31 -> first_match Rx.rx_d (pad2 d +:+ r) d r.
Proof.
  intros H. assert (H' : 1 <= d < 1 + Z.of_nat 31) by lia. revert H'.
  apply (range_cases (fun d => first_match Rx.rx_d (pad2 d +:+ r) d r)).
  each_below 31 (eexists; reflexivity).
Qed.

Lemma first_match_H (h : Z) (r : string) :
  0 <= h <= 23 -> first_match Rx.rx_H (pad2 h +:+ r) h r.
Proof.
  intros H. assert (H' : 0 <= h < 0 + Z.of_nat 24) by lia. revert H'.
  apply (range_cases (fun h => first_match Rx.rx_H (pad2 h +:+ r) h r)).
  each_below 24 (eexists; reflexivity).
Qed.

Lemma first_match_M (m : Z) (r : string) :
  0 <= m <= 59 -> first_match Rx.rx_M (pad2 m +:+ r) m r.
Proof.
  intros H. assert (H' : 0 <= m < 0 + Z.of_nat 60) by lia. revert H'.
  apply (range_cases (fun m => first_match Rx.rx_M (pad2 m +:+ r) m r)).
  each_below 60 (eexists; reflexivity).
Qed.

Lemma first_match_S (s : Z) (r : string) :
  0 <= s <= 59 -> first_match Rx.rx_S (pad2 s +:+ r) s r.
Proof.
  intros H. assert (H' : 0 <= s < 0 + Z.of_nat 60) by lia. revert H'.
  apply (range_cases (fun s => first_match Rx.rx_S (pad2 s +:+ r) s r)).
  each_below 60 (eexists; reflexivity).
Qed.

Lemma first_match_space (h : Z) (r : string) :
  first_match Rx.spaces (" " +:+ pad2 h +:+ r) tt (pad2 h +:+ r).
Proof.
  unfold first_match, pad2.
  set (c1 := digit_char (h / 10)). set (c2 := digit_char h).
  change (" " +:+ String c1 (String c2 "") +:+ r)
    with (String " " (String c1 (String c2 r))).
  change (String c1 (String c2 "") +:+ r) with (String c1 (String c2 r)).
  change (Rx.spaces (String " " (String c1 (String c2 r))))
    with ((if PyStr.isspace c1
           then (Rx.spaces (String c2 r) ++ [(tt, String c2 r)])%list
           else []) ++ [(tt, String c1 (String c2 r))])%list.
  subst c1. rewrite digit_char_not_space. eexists. reflexivity.
Qed.

Lemma days_in_month_le_31 (y m : Z) : days_in_month y m <= 31.
Proof.
  unfold days_in_month.
  destruct (m =? 2); [destruct (is_leap y); lia|].
  destruct (_ || _); lia.
Qed.

Lemma parse_ts_of_format_ts (t : datetime) :
  wall_clock t -> parse_ts (format_ts t) = Some t.
Proof.
  intros (Hy & Hm & Hd & Hh & Hmi & Hs).
  pose proof (days_in_month_le_31 (year t) (month t)) as H31.
  assert (Hfm : first_match Rx.timestamp (format_ts t) t EmptyString).
  { unfold Rx.timestamp, format_ts.
    eapply first_match_seq; [apply first_match_Y; lia|].
    eapply first_match_seq; [apply first_match_lit|].
    eapply first_match_seq; [apply first_match_m; lia|].
    eapply first_match_seq; [apply first_match_lit|].
    eapply first_match_seq; [apply first_match_d; lia|].
    eapply first_match_seq; [apply first_match_space|].
    eapply first_match_seq; [apply first_match_H; lia|].
    eapply first_match_seq; [apply first_match_lit|].
    eapply first_match_seq; [apply first_match_M; lia|].
    eapply first_match_seq; [apply first_match_lit|].
    eapply first_match_seq;
      [rewrite <- (append_nil_r (pad2 (second t))); apply first_match_S; lia|].
    destruct t. apply first_match_ret. }
  destruct Hfm as [others Hfm]. unfold parse_ts. rewrite Hfm.
  unfold valid_datetime.
  replace (1 <=? year t) with true by (symmetry; apply Z.leb_le; lia).
  replace (day_of_month t <=? days_in_month (year t) (month t)) with true
    by (symmetry; apply Z.leb_le; lia).
  replace (second t <=? 59) with true by (symmetry; apply Z.leb_le; lia).
  reflexivity.
Qed.

(** X19. A timestamp as [now_iso] writes it is read back by [parse_ts] as
    the same date and time, and [day_key] of it is the date part of the
    timestamp. *)
Theorem parse_ts_format_ts (t : datetime) :
  wall_clock t ->
  parse_ts (format_ts t) = Some t
  /\ format_ts t = day_key t +:+ " " +:+ pad2 (hour t) +:+ ":" +:+ pad2 (minute t)
                   +:+ ":" +:+ pad2 (second t).
Proof.
  intros Hw. split; [now apply parse_ts_of_format_ts|].
  unfold format_ts, day_key. now rewrite !app_assoc_string.
Qed.

Lemma parse_ts_format_ts_witness :
  parse_ts (format_ts (mkDatetime 2024 2 29 23 59 59))
  = Some (mkDatetime 2024 2 29 23 59 59).
Proof.
  apply (parse_ts_format_ts (mkDatetime 2024 2 29 23 59 59)).
  vm_compute. repeat split; discriminate.
Defined.

(** ** Lines written by the timer, loaded by the statistics *)

Lemma str_of_int_not_empty (n : Z) : App.str_of_int n <> EmptyString.
Proof.
  intros H. pose proof (int_str_of_int n) as Hi. rewrite H in Hi. discriminate.
Qed.

Lemma load_row_of_line (l : log_line) (t : datetime) :
  written_at l t ->
  StatsEngine.load_row (row_of_line l)
  = Ok (Some (mkEvent t (day_key t) (PyStr.strip (l_event l))
                (PyStr.strip (l_task l)) (l_secs l) (l_note l) (format_ts t))).
Proof.
  intros [Hw Ht]. unfold StatsEngine.load_row, StatsEngine.row_secs, row_of_line.
  cbn [r_timestamp r_event r_task r_session_seconds r_note or_empty].
  rewrite Ht. rewrite (parse_ts_of_format_ts t Hw).
  pose proof (str_of_int_not_empty (l_secs l)) as Hne.
  destruct (App.str_of_int (l_secs l)) as [|c s] eqn:E; [now elim Hne|].
  rewrite <- E, int_str_of_int. reflexivity.
Qed.

(** X20. A log that consists of lines written by [_append_log] loads without
    an exception and without a skipped record: the result has one event
    per line, with the seconds, the note and the stripped event kind and
    task of that line. *)
Theorem load_own_log (lines : list log_line) :
  (forall l, In l lines -> exists t, written_at l t) ->
  exists evs,
    StatsEngine.load (List.map row_of_line lines) = Ok evs
    /\ List.length evs = List.length lines
    /\ forall e, In e evs ->
         exists l, In l lines /\ e_secs e = l_secs l /\ e_note e = l_note l
                   /\ e_event e = PyStr.strip (l_event l)
                   /\ e_task e = PyStr.strip (l_task l)
                   /\ e_timestamp e = l_timestamp l.
Proof.
  intros H.
  assert (Hrows : forall acc,
            exists evs', StatsEngine.load_rows acc (List.map row_of_line lines)
                         = Ok (acc ++ evs')%list
              /\ List.length evs' = List.length lines
              /\ forall e, In e evs' ->
                   exists l, In l lines /\ e_secs e = l_secs l
                             /\ e_note e = l_note l
                             /\ e_event e = PyStr.strip (l_event l)
                             /\ e_task e = PyStr.strip (l_task l)
                             /\ e_timestamp e = l_timestamp l).
  { induction lines as [|l lines IH]; intros acc.
    - exists []. simpl. rewrite app_nil_r. repeat split. intros e [].
    - destruct (H l (or_introl eq_refl)) as [t Ht].
      simpl. rewrite (load_row_of_line l t Ht). simpl.
      destruct (IH (fun l0 Hl0 => H l0 (or_intror Hl0))
                  (acc ++ [mkEvent t (day_key t) (PyStr.strip (l_event l))
                             (PyStr.strip (l_task l)) (l_secs l) (l_note l)
                             (format_ts t)])%list)
        as (evs' & Hl & Hlen & Hin).
      eexists (_ :: evs'). rewrite Hl, <- app_assoc. split; [reflexivity|].
      split; [simpl; now rewrite Hlen|].
      intros e [<-|He].
      + exists l. destruct Ht as [_ Ht]. simpl. rewrite Ht. tauto.
      + destruct (Hin e He) as (l0 & Hl0 & Hrest). exists l0. tauto. }
  destruct (Hrows []) as (evs' & Hl & Hlen & Hin). simpl in Hl.
  unfold StatsEngine.load. rewrite Hl. simpl.
  eexists. split; [reflexivity|].
  pose proof (stable_sort_perm (fun a b => datetime_leb (e_dt a) (e_dt b)) evs') as Hp.
  split.
  - rewrite <- Hlen. now apply Permutation_length.
  - intros e He. apply Hin. now apply (Permutation_in _ Hp).
Qed.

Lemma load_own_log_witness :
  exists evs,
    StatsEngine.load
      (List.map row_of_line
         (log (App.stop_session (mkEnv 1704450600 (format_ts (mkDatetime 2024 1 5 10 30 0)))
                 (running_app "Write" ∅ 1800 None)))) = Ok evs
    /\ List.length evs = 1%nat.
Proof.
  destruct (load_own_log
              (log (App.stop_session
                      (mkEnv 1704450600 (format_ts (mkDatetime 2024 1 5 10 30 0)))
                      (running_app "Write" ∅ 1800 None))))
    as (evs & H1 & H2 & _).
  - intros l Hl. vm_compute in Hl. destruct Hl as [<-|[]].
    exists (mkDatetime 2024 1 5 10 30 0). split; [|reflexivity].
    vm_compute. repeat split; discriminate.
  - exists evs. split; [exact H1 | exact H2].
Defined.

(** ** Breaks *)






(** While a break is on, the break button does nothing, and closing the
    dialog twice logs the break once. *)
Theorem break_guards (ev ev2 : env) (a : app) (b : break_state) :
  (on_break b = true -> Break.start_break ev (a, b) = (a, b))
  /\ (on_break b = false -> Break._end_break ev (a, b) = (a, b))
  /\ Break._end_break ev2 (Break._end_break ev (a, b)) = Break._end_break ev (a, b).
Proof.
  unfold Break.start_break, Break._end_break.
  destruct (on_break b) eqn:E; cbn [negb on_break]; rewrite ?E; repeat split;
    discriminate.
Qed.

(** ** Minutes by task *)

Lemma sum_Z_perm (l1 l2 : list Z) :
  Permutation l1 l2 -> StatsEngine.sum_Z l1 = StatsEngine.sum_Z l2.
Proof.
  unfold StatsEngine.sum_Z.
  induction 1; simpl; try lia.
Qed.

Lemma sum_Z_map_add {A} (f g : A -> Z) (l : list A) :
  StatsEngine.sum_Z (List.map (fun x => f x + g x) l)
  = StatsEngine.sum_Z (List.map f l) + StatsEngine.sum_Z (List.map g l).
Proof.
  unfold StatsEngine.sum_Z. induction l as [|x l IH]; simpl; lia.
Qed.

Lemma sum_Z_pick (x : string) (v : Z) (l : list string) :
  List.NoDup l ->
  StatsEngine.sum_Z (List.map (fun t => if String.eqb x t then v else 0) l)
  = if List.existsb (String.eqb x) l then v else 0.
Proof.
  unfold StatsEngine.sum_Z. induction 1 as [|t l Hnin Hnd IH]; simpl; [reflexivity|].
  rewrite IH. destruct (String.eqb_spec x t) as [->|Hne]; simpl; [|reflexivity].
  replace (List.existsb (String.eqb t) l) with false; [lia|].
  symmetry. apply Bool.not_true_is_false. intros H.
  apply List.existsb_exists in H. destruct H as (y & Hy & E).
  apply String.eqb_eq in E. now subst y.
Qed.

Lemma event_minutes_value (e : event) :
  StatsEngine.event_minutes e
  = match safe_int_from_note (e_note e) "interval_min" with
    | Some i => i
    | None => 0
    end.
Proof.
  unfold StatsEngine.event_minutes, StatsEngine.add_interval.
  destruct (safe_int_from_note _ _) as [i|]; [|reflexivity].
  destruct (Z.eqb_spec i 0); lia.
Qed.

Lemma task_minutes_snoc (kinds : event -> bool) (t : string) (evs : list event)
    (e : event) :
  OnOff.task_minutes kinds t (evs ++ [e])
  = OnOff.task_minutes kinds t evs
    + (if kinds e && String.eqb (StatsEngine.task_label e) t
       then StatsEngine.event_minutes e else 0).
Proof.
  unfold OnOff.task_minutes. rewrite List.map_app, sum_Z_app.
  unfold StatsEngine.sum_Z at 2. simpl. lia.
Qed.

Lemma has_minutes_snoc (kinds : event -> bool) (t : string) (evs : list event)
    (e : event) :
  OnOff.has_minutes kinds t (evs ++ [e])
  = OnOff.has_minutes kinds t evs
    || (kinds e && String.eqb (StatsEngine.task_label e) t
        && negb (StatsEngine.event_minutes e =? 0)).
Proof.
  unfold OnOff.has_minutes. rewrite List.existsb_app. simpl.
  now rewrite Bool.orb_false_r.
Qed.

Lemma task_minutes_without (kinds : event -> bool) (t : string) (evs : list event) :
  OnOff.has_minutes kinds t evs = false -> OnOff.task_minutes kinds t evs = 0.
Proof.
  unfold OnOff.has_minutes, OnOff.task_minutes, StatsEngine.sum_Z.
  induction evs as [|e evs IH]; simpl; [reflexivity|]. intros H.
  apply Bool.orb_false_iff in H. destruct H as [H1 H2]. rewrite (IH H2).
  destruct (kinds e && String.eqb (StatsEngine.task_label e) t); simpl in *; [|lia].
  apply Bool.negb_false_iff, Z.eqb_eq in H1. lia.
Qed.

Lemma bump_entry (kinds : event -> bool) (evs : list event) (e : event)
    (d : gmap string Z) (i : Z) :
  (forall t, d !! t = OnOff.minutes_entry kinds t evs) ->
  kinds e = true -> StatsEngine.event_minutes e = i -> i <> 0 ->
  forall t, OnOff.bump (StatsEngine.task_label e) i d !! t
            = OnOff.minutes_entry kinds t (evs ++ [e]).
Proof.
  intros Hd Hk Hm Hi t. unfold OnOff.bump, OnOff.minutes_entry.
  rewrite has_minutes_snoc, task_minutes_snoc, Hk, Hm. cbn [andb].
  replace (negb (i =? 0)) with true
    by (symmetry; apply Bool.negb_true_iff, Z.eqb_neq; exact Hi).
  rewrite Bool.andb_true_r.
  destruct (String.eqb_spec (StatsEngine.task_label e) t) as [->|Hne].
  - rewrite lookup_insert_eq, Bool.orb_true_r, Hd. unfold OnOff.minutes_entry.
    destruct (OnOff.has_minutes kinds t evs) eqn:E; simpl; [reflexivity|].
    now rewrite (task_minutes_without _ _ _ E).
  - rewrite lookup_insert_ne by exact Hne.
    rewrite Bool.orb_false_r, Z.add_0_r. apply Hd.
Qed.

Lemma keep_entry (kinds : event -> bool) (evs : list event) (e : event)
    (d : gmap string Z) :
  (forall t, d !! t = OnOff.minutes_entry kinds t evs) ->
  kinds e = false \/ StatsEngine.event_minutes e = 0 ->
  forall t, d !! t = OnOff.minutes_entry kinds t (evs ++ [e]).
Proof.
  intros Hd Hk t. rewrite Hd. unfold OnOff.minutes_entry.
  rewrite has_minutes_snoc, task_minutes_snoc.
  destruct Hk as [Hk|Hk]; rewrite Hk; cbn [andb].
  - now rewrite Bool.orb_false_r, Z.add_0_r.
  - rewrite Z.eqb_refl. cbn [negb]. rewrite Bool.andb_false_r, Bool.orb_false_r.
    destruct (_ && _); now rewrite Z.add_0_r.
Qed.

Lemma is_on_not_off (e : event) : OnOff.is_on e = true -> OnOff.is_off e = false.
Proof.
  unfold OnOff.is_on, OnOff.is_off. intros H. apply String.eqb_eq in H.
  now rewrite H.
Qed.

(** The two dictionaries after the loop. *)
Lemma onoff_fold (evs : list event) :
  let st := List.fold_left OnOff.step evs (∅, ∅) in
  forall t, fst st !! t = OnOff.minutes_entry OnOff.is_on t evs
            /\ snd st !! t = OnOff.minutes_entry OnOff.is_off t evs.
Proof.
  induction evs as [|e evs IH] using List.rev_ind.
  - intros st t. subst st. simpl. rewrite !lookup_empty. now split.
  - cbv zeta in *. rewrite List.fold_left_app. simpl.
    set (st := List.fold_left OnOff.step evs (∅, ∅)) in *.
    assert (Hon : forall t, fst st !! t = OnOff.minutes_entry OnOff.is_on t evs)
      by (intros t; apply IH).
    assert (Hoff : forall t, snd st !! t = OnOff.minutes_entry OnOff.is_off t evs)
      by (intros t; apply IH).
    pose proof (event_minutes_value e) as Hv.
    unfold OnOff.step.
    destruct (safe_int_from_note (e_note e) "interval_min") as [i|].
    + destruct (Z.eqb_spec i 0) as [Hi|Hi].
      * subst i. intros t. split; apply keep_entry; auto.
      * destruct (OnOff.is_on e) eqn:Eon.
        -- pose proof (is_on_not_off e Eon) as Eoff. intros t. cbn [fst snd]. split.
           ++ now apply bump_entry.
           ++ apply keep_entry; auto.
        -- destruct (OnOff.is_off e) eqn:Eoff; intros t; cbn [fst snd]; split.
           ++ apply keep_entry; auto.
           ++ now apply bump_entry.
           ++ apply keep_entry; auto.
           ++ apply keep_entry; auto.
    + intros t. split; apply keep_entry; auto.
Qed.

Lemma default_entry (kinds : event -> bool) (t : string) (evs : list event) :
  default 0 (OnOff.minutes_entry kinds t evs) = OnOff.task_minutes kinds t evs.
Proof.
  unfold OnOff.minutes_entry.
  destruct (OnOff.has_minutes kinds t evs) eqn:E; simpl; [reflexivity|].
  now rewrite (task_minutes_without _ _ _ E).
Qed.

Lemma sorted_tasks_In (on_by off_by : gmap string Z) (t : string) :
  In t (OnOff.sorted_tasks on_by off_by)
  <-> is_Some (on_by !! t) \/ is_Some (off_by !! t).
Proof.
  unfold OnOff.sorted_tasks. rewrite stable_sort_In.
  rewrite <- list_elem_of_In, elem_of_elements, elem_of_union, !elem_of_dom.
  reflexivity.
Qed.

Lemma sorted_tasks_NoDup (on_by off_by : gmap string Z) :
  List.NoDup (OnOff.sorted_tasks on_by off_by).
Proof.
  unfold OnOff.sorted_tasks.
  eapply Permutation_NoDup; [symmetry; apply stable_sort_perm|].
  apply NoDup_ListNoDup, NoDup_elements.
Qed.

Lemma is_Some_entry (kinds : event -> bool) (t : string) (evs : list event) :
  is_Some (OnOff.minutes_entry kinds t evs) <-> OnOff.has_minutes kinds t evs = true.
Proof.
  unfold OnOff.minutes_entry. destruct (OnOff.has_minutes kinds t evs).
  - split; [reflexivity | eauto].
  - split; [intros [x Hx]; discriminate | discriminate].
Qed.

(** X22. The rows of [on_off_by_task_in_range]: one for every task that has
    a check-in or a procrastination mark with an interval other than 0
    in its note, holding the on-task minutes (the intervals of the
    on-task check-ins), the off-task minutes (those of the off-task
    check-ins and the procrastination marks), their sum and the on-task
    share, which is [None] when the sum is 0. *)
Theorem on_off_rows (events : list event) (s e : string) (r : onoff_row) :
  let evs := StatsEngine.events_in_range events s e in
  let t := oo_task r in
  let onm := OnOff.task_minutes OnOff.is_on t evs in
  let offm := OnOff.task_minutes OnOff.is_off t evs in
  In r (OnOff.on_off_by_task_in_range events s e)
  <-> (OnOff.has_minutes OnOff.is_on t evs || OnOff.has_minutes OnOff.is_off t evs
       = true)
      /\ r = mkOnOff t onm offm (onm + offm)
               (if onm + offm =? 0 then None
                else Some (true_div_nz onm (onm + offm))).
Proof.
  intros evs t onm offm. subst t onm offm.
  unfold OnOff.on_off_by_task_in_range. fold evs.
  pose proof (onoff_fold evs) as Hf. cbv zeta in Hf.
  set (st := List.fold_left OnOff.step evs (∅, ∅)) in *.
  assert (Hrow : forall t, OnOff.make_row (fst st) (snd st) t
            = mkOnOff t (OnOff.task_minutes OnOff.is_on t evs)
                (OnOff.task_minutes OnOff.is_off t evs)
                (OnOff.task_minutes OnOff.is_on t evs
                 + OnOff.task_minutes OnOff.is_off t evs)
                (if OnOff.task_minutes OnOff.is_on t evs
                    + OnOff.task_minutes OnOff.is_off t evs =? 0 then None
                 else Some (true_div_nz (OnOff.task_minutes OnOff.is_on t evs)
                              (OnOff.task_minutes OnOff.is_on t evs
                               + OnOff.task_minutes OnOff.is_off t evs)))).
  { intros t. unfold OnOff.make_row. destruct (Hf t) as [H1 H2].
    now rewrite H1, H2, !default_entry. }
  assert (Hin : forall t, In t (OnOff.sorted_tasks (fst st) (snd st))
            <-> OnOff.has_minutes OnOff.is_on t evs
                || OnOff.has_minutes OnOff.is_off t evs = true).
  { intros t. rewrite sorted_tasks_In. destruct (Hf t) as [H1 H2].
    rewrite H1, H2, !is_Some_entry, Bool.orb_true_iff. reflexivity. }
  rewrite stable_sort_In, List.in_map_iff. split.
  - intros (t & Hr & Ht). rewrite Hrow in Hr. subst r. cbn [oo_task].
    split; [now apply Hin | reflexivity].
  - intros [Hh Hr]. exists (oo_task r). split; [|now apply Hin].
    rewrite Hrow. now symmetry.
Qed.

Lemma sum_over_tasks (kinds : event -> bool) (evs : list event) (E : list string) :
  List.NoDup E ->
  (forall e, In e evs -> kinds e = true -> StatsEngine.event_minutes e <> 0 ->
             In (StatsEngine.task_label e) E) ->
  StatsEngine.sum_Z (List.map (fun t => OnOff.task_minutes kinds t evs) E)
  = StatsEngine.sum_Z
      (List.map (fun e => if kinds e then StatsEngine.event_minutes e else 0) evs).
Proof.
  intros Hnd. induction evs as [|e evs IH]; intros Hin.
  - unfold OnOff.task_minutes. simpl.
    unfold StatsEngine.sum_Z. induction E as [|t E IHE]; simpl; [reflexivity|].
    inversion Hnd; subst. now rewrite IHE.
  - assert (Hstep : forall t, OnOff.task_minutes kinds t (e :: evs)
              = (if kinds e && String.eqb (StatsEngine.task_label e) t
                 then StatsEngine.event_minutes e else 0)
                + OnOff.task_minutes kinds t evs) by reflexivity.
    erewrite List.map_ext by (intros t; apply Hstep).
    rewrite sum_Z_map_add, IH by (intros x Hx; apply Hin; now right).
    simpl List.map. unfold StatsEngine.sum_Z at 3. simpl List.fold_right.
    fold (StatsEngine.sum_Z
            (List.map (fun e0 => if kinds e0 then StatsEngine.event_minutes e0 else 0)
               evs)).
    f_equal. destruct (kinds e) eqn:Ek; cbn [andb].
    + rewrite sum_Z_pick by exact Hnd.
      destruct (List.existsb _ E) eqn:Ex; [reflexivity|].
      destruct (Z.eq_dec (StatsEngine.event_minutes e) 0) as [->|Hm]; [reflexivity|].
      specialize (Hin e (or_introl eq_refl) Ek Hm).
      assert (List.existsb (String.eqb (StatsEngine.task_label e)) E = true).
      { apply List.existsb_exists. eexists. split; [exact Hin|].
        apply String.eqb_refl. }
      congruence.
    + unfold StatsEngine.sum_Z. clear. induction E; simpl; [reflexivity | lia].
Qed.

Lemma sum_filter_minutes (kind : string) (evs : list event) :
  StatsEngine.minutes_of kind evs
  = StatsEngine.sum_Z
      (List.map (fun e => if String.eqb (e_event e) kind
                          then StatsEngine.event_minutes e else 0) evs).
Proof.
  unfold StatsEngine.minutes_of, StatsEngine.sum_Z.
  induction evs as [|e evs IH]; simpl; [reflexivity|].
  destruct (String.eqb (e_event e) kind); simpl; lia.
Qed.

Lemma has_minutes_of_event (kinds : event -> bool) (evs : list event) (e : event) :
  In e evs -> kinds e = true -> StatsEngine.event_minutes e <> 0 ->
  OnOff.has_minutes kinds (StatsEngine.task_label e) evs = true.
Proof.
  intros Hin Hk Hm. unfold OnOff.has_minutes. apply List.existsb_exists.
  exists e. split; [exact Hin|]. rewrite Hk, String.eqb_refl. cbn [andb].
  apply Bool.negb_true_iff, Z.eqb_neq. exact Hm.
Qed.

Lemma events_in_one_day (events : list event) (d : string) :
  StatsEngine.events_in_range events d d = StatsEngine.events_for_day events d.
Proof.
  unfold StatsEngine.events_in_range, StatsEngine.events_for_day.
  apply List.filter_ext. intros x.
  destruct (String.eqb_spec (e_day x) d) as [->|Hne].
  - destruct (String.leb_total d d) as [H|H]; now rewrite H.
  - destruct (String.leb d (e_day x)) eqn:E1, (String.leb (e_day x) d) eqn:E2;
      try reflexivity.
    elim Hne. now apply String.leb_antisym.
Qed.

(** X23. The minutes of the rows add up to the minutes of the range: the
    on-task minutes of all tasks to the intervals noted on the on-task
    check-ins, the off-task minutes to those noted on the off-task
    check-ins and the procrastination marks.  For a range of one day
    these are the minutes of the day summary. *)
Theorem on_off_rows_add_up (events : list event) (s e : string) :
  let evs := StatsEngine.events_in_range events s e in
  let rows := OnOff.on_off_by_task_in_range events s e in
  StatsEngine.sum_Z (List.map oo_on rows)
  = StatsEngine.minutes_of "checkin_on_task" evs
  /\ StatsEngine.sum_Z (List.map oo_off rows)
     = StatsEngine.minutes_of "checkin_off_task" evs
       + StatsEngine.minutes_of "procrastination" evs
  /\ (s = e ->
      StatsEngine.sum_Z (List.map oo_on rows)
      = on_min (StatsEngine.summary_for_day events s)
      /\ StatsEngine.sum_Z (List.map oo_off rows)
         = off_min (StatsEngine.summary_for_day events s)).
Proof.
  intros evs rows.
  assert (Hsums :
    StatsEngine.sum_Z (List.map oo_on rows)
    = StatsEngine.minutes_of "checkin_on_task" evs
    /\ StatsEngine.sum_Z (List.map oo_off rows)
       = StatsEngine.minutes_of "checkin_off_task" evs
         + StatsEngine.minutes_of "procrastination" evs).
  { subst rows. unfold OnOff.on_off_by_task_in_range. fold evs.
    pose proof (onoff_fold evs) as Hf. cbv zeta in Hf.
    set (st := List.fold_left OnOff.step evs (∅, ∅)) in *.
    set (E := OnOff.sorted_tasks (fst st) (snd st)).
    assert (HE : forall kinds, kinds = OnOff.is_on \/ kinds = OnOff.is_off ->
              forall x, In x evs -> kinds x = true ->
                        StatsEngine.event_minutes x <> 0 ->
                        In (StatsEngine.task_label x) E).
    { intros kinds Hk x Hx Hkx Hm. apply sorted_tasks_In.
      pose proof (has_minutes_of_event kinds evs x Hx Hkx Hm) as Hh.
      destruct (Hf (StatsEngine.task_label x)) as [H1 H2].
      destruct Hk as [->| ->]; [left; rewrite H1 | right; rewrite H2];
        now apply is_Some_entry. }
    pose proof (sorted_tasks_NoDup (fst st) (snd st)) as Hnd. fold E in Hnd.
    pose proof (stable_sort_perm OnOff.row_keeps
                  (List.map (OnOff.make_row (fst st) (snd st)) E)) as Hp.
    split.
    - rewrite (sum_Z_perm _ _ (Permutation_map oo_on Hp)), List.map_map.
      erewrite List.map_ext.
      2:{ intros t. unfold OnOff.make_row. cbn [oo_on].
          destruct (Hf t) as [H1 _]. rewrite H1. apply default_entry. }
      rewrite (sum_over_tasks OnOff.is_on evs E Hnd (HE _ (or_introl eq_refl))).
      now rewrite sum_filter_minutes.
    - rewrite (sum_Z_perm _ _ (Permutation_map oo_off Hp)), List.map_map.
      erewrite List.map_ext.
      2:{ intros t. unfold OnOff.make_row. cbn [oo_off].
          destruct (Hf t) as [_ H2]. rewrite H2. apply default_entry. }
      rewrite (sum_over_tasks OnOff.is_off evs E Hnd (HE _ (or_intror eq_refl))).
      rewrite !sum_filter_minutes, <- sum_Z_map_add.
      f_equal. apply List.map_ext. intros x. unfold OnOff.is_off.
      destruct (String.eqb (e_event x) "checkin_off_task") eqn:E1; simpl.
      + apply String.eqb_eq in E1. rewrite E1. simpl. lia.
      + destruct (String.eqb (e_event x) "procrastination"); lia. }
  split; [apply Hsums|]. split; [apply Hsums|].
  intros <-. destruct Hsums as [H1 H2]. rewrite H1, H2.
  subst evs. rewrite events_in_one_day.
  unfold StatsEngine.summary_for_day. cbn [on_min off_min].
  destruct (summary_fold (StatsEngine.events_for_day events s)
              (StatsEngine.summary_zero s)) as (F1 & F2 & _).
  rewrite F1, F2. cbn. split; lia.
Qed.

Lemma on_off_rows_add_up_witness :
  let evs := events_or_nil (StatsEngine.load checkin_log) in
  StatsEngine.sum_Z
    (List.map oo_on (OnOff.on_off_by_task_in_range evs "2024-01-05" "2024-01-05"))
  = on_min (StatsEngine.summary_for_day evs "2024-01-05").
Proof.
  apply (proj2 (proj2 (on_off_rows_add_up
                         (events_or_nil (StatsEngine.load checkin_log))
                         "2024-01-05" "2024-01-05")) eq_refl).
Defined.

(** X24. [_procrastination_counts_by_task] gives every task with a
    procrastination mark in the range the number of its marks, and has
    no entry for any other task. *)
Theorem procrastination_counts (events : list event) (s e t : string) :
  let n := StatsEngine.count_of "procrastination" t
             (StatsEngine.events_in_range events s e) in
  OnOff._procrastination_counts_by_task events s e !! t
  = if 0 <? n then Some n else None.
Proof.
  unfold OnOff._procrastination_counts_by_task.
  generalize (StatsEngine.events_in_range events s e). intros evs. cbv zeta.
  induction evs as [|x evs IH] using List.rev_ind; [simpl; now rewrite lookup_empty|].
  rewrite List.fold_left_app, count_of_app, count_of_one.
  change (List.fold_left OnOff.procrastination_step [x]
            (List.fold_left OnOff.procrastination_step evs ∅))
    with (OnOff.procrastination_step
            (List.fold_left OnOff.procrastination_step evs ∅) x).
  set (c := List.fold_left OnOff.procrastination_step evs ∅) in *.
  unfold OnOff.procrastination_step.
  pose proof (count_of_nonneg "procrastination" t evs) as Hn.
  destruct (String.eqb (e_event x) "procrastination"); cbn [andb].
  - unfold OnOff.bump.
    destruct (String.eqb_spec (StatsEngine.task_label x) t) as [->|Hne].
    + rewrite lookup_insert_eq, IH.
      replace (0 <? StatsEngine.count_of "procrastination" t evs + 1) with true
        by (symmetry; apply Z.ltb_lt; lia).
      destruct (0 <? _) eqn:E; simpl; [reflexivity|].
      apply Z.ltb_ge in E. f_equal. lia.
    + rewrite lookup_insert_ne by exact Hne. now rewrite IH, Z.add_0_r.
  - now rewrite IH, Z.add_0_r.
Qed.

(** ** Days and weeks *)

Lemma leb_keeps_total (x y : string) :
  String.leb x y = false -> String.leb y x = true.
Proof. intros H. destruct (String.leb_total x y) as [E|E]; congruence. Qed.

(** X25. [days_present] lists the days that have an event, each once, in
    ascending order. *)
Theorem days_present_sorted (events : list event) :
  (forall d, In d (days_present events) <-> exists e, In e events /\ e_day e = d)
  /\ List.NoDup (days_present events)
  /\ Sorted (fun a b => String.leb a b = true) (days_present events).
Proof.
  unfold days_present. split; [|split].
  - intros d. rewrite stable_sort_In, <- list_elem_of_In, elem_of_elements,
      elem_of_list_to_set, list_elem_of_In, List.in_map_iff.
    split; intros (x & H1 & H2); exists x; tauto.
  - eapply Permutation_NoDup; [symmetry; apply stable_sort_perm|].
    apply NoDup_ListNoDup, NoDup_elements.
  - apply stable_sort_Sorted. apply leb_keeps_total.
Qed.

Lemma add_days_Some (d k r : Z) :
  Date.add_days d k = Some r
  <-> r = d + k /\ Date.min_ordinal <= d + k <= Date.max_ordinal.
Proof.
  unfold Date.add_days.
  destruct (Z.leb_spec Date.min_ordinal (d + k));
    destruct (Z.leb_spec (d + k) Date.max_ordinal); simpl;
    split; try discriminate; try (intros [= <-]; lia); try (intros [-> ?]; try reflexivity; lia).
Qed.

(** X26. [monday_of] never leaves the range of dates: for every date it
    returns the Monday on or before it, at most 6 days back; and
    [week_dates] lists the seven days from that Monday on, the anchor
    among them, unless the week reaches past [date.max]. *)
Theorem week_of_anchor (anchor : Z) :
  Date.min_ordinal <= anchor <= Date.max_ordinal ->
  exists monday,
    Date.monday_of anchor = Some monday
    /\ Date.weekday monday = 0
    /\ monday <= anchor <= monday + 6
    /\ Date.monday_of monday = Some monday
    /\ (monday + 6 <= Date.max_ordinal ->
        Date.week_dates anchor
        = Some [monday; monday + 1; monday + 2; monday + 3; monday + 4;
                monday + 5; monday + 6])
    /\ (Date.max_ordinal < monday + 6 -> Date.week_dates anchor = None).
Proof.
  intros Ha. unfold Date.min_ordinal, Date.max_ordinal in *.
  pose proof (Z.mod_pos_bound (anchor + 6) 7 ltac:(lia)) as Hw.
  assert (Hmon : (anchor - (anchor + 6) mod 7 + 6) mod 7 = 0).
  { Z.div_mod_to_equations. lia. }
  assert (Hlow : 1 <= anchor - (anchor + 6) mod 7).
  { Z.div_mod_to_equations. lia. }
  exists (anchor - (anchor + 6) mod 7).
  assert (E1 : Date.monday_of anchor = Some (anchor - (anchor + 6) mod 7)).
  { unfold Date.monday_of, Date.weekday. apply add_days_Some.
    unfold Date.min_ordinal, Date.max_ordinal. lia. }
  split; [exact E1|]. split; [exact Hmon|]. split; [lia|]. split.
  - unfold Date.monday_of, Date.weekday. rewrite Hmon. apply add_days_Some.
    unfold Date.min_ordinal, Date.max_ordinal. lia.
  - unfold Date.week_dates. rewrite E1. set (m := anchor - (anchor + 6) mod 7) in *.
    split; intros Hmax.
    + simpl. unfold Date.add_days, Date.min_ordinal, Date.max_ordinal.
      repeat (match goal with
              | |- context [(?a <=? ?b) && (?c <=? ?d)] =>
                  replace ((a <=? b) && (c <=? d)) with true
                    by (symmetry; apply Bool.andb_true_iff; split; apply Z.leb_le; lia)
              end).
      now rewrite Z.add_0_r.
    + assert (E6 : Date.add_days m 6 = None).
      { unfold Date.add_days, Date.min_ordinal, Date.max_ordinal.
        replace (m + 6 <=? 3652059) with false by (symmetry; apply Z.leb_gt; lia).
        now rewrite Bool.andb_false_r. }
      simpl. rewrite E6.
      repeat (match goal with
              | |- context [Date.add_days m ?k] => destruct (Date.add_days m k)
              end); reflexivity.
Qed.

Lemma week_of_anchor_witness :
  Date.week_dates 738890
  = Some [738886; 738887; 738888; 738889; 738890; 738891; 738892].
Proof.
  destruct (week_of_anchor 738890 ltac:(vm_compute; split; discriminate))
    as (m & E1 & _ & _ & _ & E5 & _).
  vm_compute in E1. injection E1 as <-. apply E5. vm_compute. discriminate.
Defined.
